(** * Scholarship Ball funding agent: the five core tools

    A shallow embedding of [tools_no_code.py] ([grant_search],
    [donor_prospect], [deposit_tracker]) and of [dashboard_summary] from
    [tools_no_code_extra.py], with the properties their specification
    states about them; then the tools around them: the fallback decorator,
    the other tools of [tools_no_code_extra.py] that need no file, the
    sample-data tool of [main.py] and the dashboard step of [driver.py].

    Python values are modelled by the type [value]; a [Dict[str, Any]] is
    a finite map from strings to values.  Python [float]s are IEEE binary64
    numbers, modelled by Rocq's primitive floats.  Strings are sequences of
    bytes (the UTF-8 encoding of the Python text).  A call that can raise
    returns a [result]. *)

From Stdlib Require Import ZArith Floats Lia Ascii String DecimalString Sorted.
From Stdlib Require DecimalFacts DecimalPos.
From stdpp Require Import gmap strings list fin_maps.

Set Warnings "-register-all,-inexact-float,-clear-no-such-hyp".
Local Open Scope Z_scope.

(** ** Outcomes of a call *)

Inductive exn : Type :=
| TypeError
| ValueError
| OverflowError.

Inductive result (A : Type) : Type :=
| Ok (a : A)
| Raise (e : exn).
Arguments Ok {A} a.
Arguments Raise {A} e.

Definition bind {A B : Type} (m : result A) (k : A -> result B) : result B :=
  match m with
  | Ok a => k a
  | Raise e => Raise e
  end.

Notation "'do' x <- m ; k" := (bind m (fun x => k))
  (at level 10, x name, m at level 100, k at level 200, only parsing).

(** [try: m except Exception: h] *)
Definition try_except {A : Type} (m : result A) (h : A) : A :=
  match m with
  | Ok a => a
  | Raise _ => h
  end.

(** A [for] loop that appends one computed item per element. *)
Fixpoint for_each {A B : Type} (f : A -> result B) (l : list A) : result (list B) :=
  match l with
  | [] => Ok []
  | x :: l' => do y <- f x; do ys <- for_each f l'; Ok (y :: ys)
  end.

(** ** Strings *)

Definition lower_ascii (c : ascii) : ascii :=
  let n := nat_of_ascii c in
  if (65 <=? n)%nat && (n <=? 90)%nat then ascii_of_nat (n + 32) else c.

(** The letters [A] to [Z] in lower case and every other byte as it is:
    what [s.lower()] gives for an ASCII text. *)
Fixpoint ascii_lower (s : string) : string :=
  match s with
  | EmptyString => EmptyString
  | String c s' => String (lower_ascii c) (ascii_lower s')
  end.

(** The text is ASCII: every byte is below 128. *)
Fixpoint is_ascii (s : string) : bool :=
  match s with
  | EmptyString => true
  | String c s' => (nat_of_ascii c <? 128)%nat && is_ascii s'
  end.

Fixpoint starts_with (p s : string) : bool :=
  match p, s with
  | EmptyString, _ => true
  | String a p', String b s' => if Ascii.eqb a b then starts_with p' s' else false
  | String _ _, EmptyString => false
  end.

(** [r in s] for two strings. *)
Fixpoint contains (r s : string) : bool :=
  starts_with r s ||
  match s with
  | EmptyString => false
  | String _ s' => contains r s'
  end.

(** [x < y] on strings: lexicographic on code points, which on UTF-8 text
    is the lexicographic order of the bytes. *)
Fixpoint str_ltb (x y : string) : bool :=
  match x, y with
  | _, EmptyString => false
  | EmptyString, String _ _ => true
  | String a x', String b y' =>
      if (nat_of_ascii a <? nat_of_ascii b)%nat then true
      else if (nat_of_ascii b <? nat_of_ascii a)%nat then false
      else str_ltb x' y'
  end.

(** [sep.join(l)] *)
Definition join (sep : string) (l : list string) : string := String.concat sep l.

(** [str(n)] for an [int]. *)
Definition str_of_Z (z : Z) : string := NilZero.string_of_int (Z.to_int z).

(** Digits of the string grouped in threes from the right, as the [","]
    option of the format mini-language does. *)
Fixpoint group3_rev (count : nat) (rev_digits : list ascii) (acc : string) : string :=
  match rev_digits with
  | [] => acc
  | c :: rest =>
      match count with
      | 3%nat => group3_rev 1 rest (String c (String "," acc))
      | _ => group3_rev (S count) rest (String c acc)
      end
  end.

(** [format(n, ",")] for an [int]. *)
Definition format_int_comma (z : Z) : string :=
  let digits := list_ascii_of_string (str_of_Z (Z.abs z)) in
  let body := group3_rev 0 (rev digits) EmptyString in
  if z <? 0 then String "-" body else body.


(** [s] occurs in [t] as a contiguous piece. *)
Definition occurs_in (s t : string) : Prop :=
  exists pre post : string, t = (pre ++ s ++ post)%string.

(** Zero padding of ["%0<width>d"] for a non-negative number. *)
Definition zero_pad (width : nat) (z : Z) : string :=
  let s := str_of_Z z in
  (string_of_list_ascii (repeat "0"%char (width - String.length s)) ++ s)%string.

(** ** Calendar dates

    [datetime.date] values are proleptic Gregorian ordinals, day 1 being
    0001-01-01 and [MAXORDINAL] being 9999-12-31, as in CPython's
    [datetime] module. *)

Definition MAXORDINAL : Z := 3652059.
Definition MAX_DELTA_DAYS : Z := 999999999.

Definition is_leap (y : Z) : bool :=
  (y mod 4 =? 0) && (negb (y mod 100 =? 0) || (y mod 400 =? 0)).

Definition days_before_year (y : Z) : Z :=
  let p := y - 1 in p * 365 + p / 4 - p / 100 + p / 400.

Definition DAYS_IN_MONTH : list Z := [31; 28; 31; 30; 31; 30; 31; 31; 30; 31; 30; 31].
Definition DAYS_BEFORE_MONTH : list Z := [0; 31; 59; 90; 120; 151; 181; 212; 243; 273; 304; 334].

Definition month_entry (table : list Z) (m : Z) : Z := nth (Z.to_nat (m - 1)) table 0.

Definition days_in_month (y m : Z) : Z :=
  if (m =? 2) && is_leap y then 29 else month_entry DAYS_IN_MONTH m.

Definition days_before_month (y m : Z) : Z :=
  month_entry DAYS_BEFORE_MONTH m + (if (2 <? m) && is_leap y then 1 else 0).

(** [_ymd2ord] *)
Definition ymd2ord (y m d : Z) : Z :=
  days_before_year y + days_before_month y m + d.

(** [_ord2ymd] *)
Definition ord2ymd (ordinal : Z) : Z * Z * Z :=
  let n := ordinal - 1 in
  let n400 := n / 146097 in
  let n := n mod 146097 in
  let year := n400 * 400 + 1 in
  let n100 := n / 36524 in
  let n := n mod 36524 in
  let n4 := n / 1461 in
  let n := n mod 1461 in
  let n1 := n / 365 in
  let n := n mod 365 in
  let year := year + n100 * 100 + n4 * 4 + n1 in
  if (n1 =? 4) || (n100 =? 4) then (year - 1, 12, 31)
  else
    let leapyear := (n1 =? 3) && (negb (n4 =? 24) || (n100 =? 3)) in
    let month := Z.shiftr (n + 50) 5 in
    let preceding := month_entry DAYS_BEFORE_MONTH month
                     + (if (2 <? month) && leapyear then 1 else 0) in
    if n <? preceding then
      let month := month - 1 in
      let preceding := preceding
                       - (month_entry DAYS_IN_MONTH month
                          + (if (month =? 2) && leapyear then 1 else 0)) in
      (year, month, n - preceding + 1)
    else (year, month, n - preceding + 1).

(** [date.isoformat()]: ["%04d-%02d-%02d"] *)
Definition isoformat (ordinal : Z) : string :=
  let '(y, m, d) := ord2ymd ordinal in
  (zero_pad 4 y ++ "-" ++ zero_pad 2 m ++ "-" ++ zero_pad 2 d)%string.

(** A [datetime]: the date, the microsecond within the day, and the UTC
    offset in microseconds when the value is timezone-aware. *)
Record datetime : Type := {
  dt_date : Z;
  dt_micro : Z;
  dt_offset : option Z
}.

Definition MICROS_PER_DAY : Z := 86400000000.

(** [dt + timedelta(days=k)] for a naive [dt]: building the [timedelta]
    fails beyond [MAX_DELTA_DAYS] days, and the sum fails when it leaves
    the years 1 to 9999 ("date value out of range"). *)
Definition add_days (dt : datetime) (k : Z) : result datetime :=
  if (Z.abs k <=? MAX_DELTA_DAYS) then
    let o := dt_date dt + k in
    if (1 <=? o) && (o <=? MAXORDINAL)
    then Ok {| dt_date := o; dt_micro := dt_micro dt; dt_offset := dt_offset dt |}
    else Raise OverflowError
  else Raise OverflowError.

(** [(a - b).days] for a naive [a]: subtracting an aware value from a
    naive one is a [TypeError]; the difference is normalised so that the
    day count is its floor. *)
Definition days_between (a b : datetime) : result Z :=
  match dt_offset a, dt_offset b with
  | None, None =>
      Ok ((dt_date a - dt_date b) + (dt_micro a - dt_micro b) / MICROS_PER_DAY)
  | _, _ => Raise TypeError
  end.

(** ** Floats *)

(** [float(n)] for an [int]: the nearest binary64 number, ties to even;
    "int too large to convert to float" beyond the finite range. *)
Definition float_of_Z (z : Z) : result float :=
  match binary_normalize prec emax z 0 false with
  | S754_infinity _ => Raise OverflowError
  | sf => Ok (SF2Prim sf)
  end.

(** [a / b] for two positive [int]s: the correctly rounded quotient. *)
Definition true_div (a b : positive) : float :=
  SF2Prim (SFdiv prec emax (S754_finite false a 0) (S754_finite false b 0)).

(** The integer nearest to [a / b], halves going to the even neighbour. *)
Definition div_half_even (a b : Z) : Z :=
  let q := a / b in
  match 2 * (a mod b) ?= b with
  | Lt => q
  | Gt => q + 1
  | Eq => if Z.even q then q else q + 1
  end.

(** [round(x, 2)]: the exact value of [x] is rounded to the nearest
    multiple of 1/100 (halves to even) and that decimal is converted back
    to the nearest float; zeros, infinities and NaN are returned as they
    are, and a result of zero keeps the sign of [x]. *)
Definition py_round2 (x : float) : float :=
  match Prim2SF x with
  | S754_finite s m e =>
      let hundredths :=
        if 0 <=? e then Z.pos m * 100 * 2 ^ e
        else div_half_even (Z.pos m * 100) (2 ^ (- e)) in
      match hundredths with
      | Z.pos n => SF2Prim (SFdiv prec emax (S754_finite s n 0) (S754_finite false 100 0))
      | _ => SF2Prim (S754_zero s)
      end
  | _ => x
  end.

Definition is_nan (x : float) : bool := negb (PrimFloat.eqb x x).

(** ** Python values *)

Inductive value : Type :=
| VNone
| VBool (b : bool)
| VInt (z : Z)
| VFloat (f : float)
| VStr (s : string)
| VDict (d : gmap string value).

Abbreviation dict := (gmap string value).

(** [d.get(k)] and [d.get(k, default)] *)
Definition get (d : dict) (k : string) : value := default VNone (d !! k).
Definition get_or (d : dict) (k : string) (dflt : value) : value := default dflt (d !! k).

(** Truth value of an object. *)
Definition truthy (v : value) : bool :=
  match v with
  | VNone => false
  | VBool b => b
  | VInt z => negb (z =? 0)
  | VFloat f => negb (PrimFloat.eqb f 0)
  | VStr s => negb (String.eqb s "")
  | VDict d => negb (bool_decide (dom d = ∅))
  end.

(** [a or b] *)
Definition py_or (a b : value) : value := if truthy a then a else b.

(** ** Stable descending order

    Python's sort is stable, also when reversed.  When the keys are totally
    preordered by [<], that is when no key is NaN, every stable sort returns
    the same list: the one obtained by inserting each element, from the last
    to the first, behind the elements whose key is strictly greater. *)
Fixpoint insert_desc {A : Type} (key : A -> float) (x : A) (l : list A) : list A :=
  match l with
  | [] => [x]
  | y :: l' => if PrimFloat.ltb (key x) (key y) then y :: insert_desc key x l' else x :: l
  end.

Definition stable_desc {A : Type} (key : A -> float) (l : list A) : list A :=
  foldr (insert_desc key) [] l.

(** The positions [0 .. len(keys) - 1] in stable descending order of their
    keys. *)
Definition stable_order (keys : list float) : list nat :=
  stable_desc (fun i => default nan (keys !! i)) (seq 0 (length keys)).

(** No key is smaller than the key after it: read from the last key to
    the first, the list is one run in which no key is smaller than the key
    before it. *)
Fixpoint one_run (keys : list float) : bool :=
  match keys with
  | a :: rest =>
      match rest with
      | b :: _ => negb (PrimFloat.ltb a b) && one_run rest
      | [] => true
      end
  | [] => true
  end.

(** ** The Python runtime

    The parts of the runtime that the tools call and that this development
    leaves open.  [None] stands for [ValueError].
    - Parsing and printing of floats, printing of dictionaries (as a
      function of their entries).
    - [datetime.fromisoformat], whose accepted grammar differs between
      Python versions.
    - [str.lower], which follows the Unicode case mappings; on an ASCII
      text it is [ascii_lower].
    - The sort behind [sorted(..., reverse=True)] on float keys,
      [sort_order keys] being the positions of the keys in the order in
      which the sort returns them.  It always returns a rearrangement, and
      the stable descending one when no key is NaN.  What it returns when
      a key is NaN depends on its algorithm and is left open, but for one
      case: the sort reverses the list, looks for the runs that are
      already in order, and reverses its result, so that it returns a
      list in which no key is smaller than the key after it as it is. *)
Class Runtime : Type := {
  float_of_str : string -> option float;
  str_of_float : float -> string;
  str_of_dict : dict -> string;
  format_float_comma : float -> string;
  fromisoformat : string -> option datetime;
  lower : string -> string;
  lower_on_ascii : forall s : string, is_ascii s = true -> lower s = ascii_lower s;
  sort_order : list float -> list nat;
  sort_order_perm : forall keys : list float, sort_order keys ≡ₚ seq 0 (length keys);
  sort_order_stable :
    forall keys : list float,
      forallb (fun k => negb (is_nan k)) keys = true -> sort_order keys = stable_order keys;
  sort_order_run :
    forall keys : list float, one_run keys = true -> sort_order keys = seq 0 (length keys)
}.

Section Values.
Context `{RT : Runtime}.

(** [str(v)], also what an f-string writes for [{v}]. *)
Definition py_str (v : value) : string :=
  match v with
  | VNone => "None"
  | VBool true => "True"
  | VBool false => "False"
  | VInt z => str_of_Z z
  | VFloat f => str_of_float f
  | VStr s => s
  | VDict d => str_of_dict d
  end.

(** [float(v)] *)
Definition py_float (v : value) : result float :=
  match v with
  | VNone => Raise TypeError
  | VBool b => Ok (if b then 1%float else 0%float)
  | VInt z => float_of_Z z
  | VFloat f => Ok f
  | VStr s => match float_of_str s with Some f => Ok f | None => Raise ValueError end
  | VDict _ => Raise TypeError
  end.

(** [format(v, ",")], what an f-string writes for [{v:,}]. *)
Definition format_comma (v : value) : result string :=
  match v with
  | VNone => Raise TypeError
  | VBool b => Ok (format_int_comma (if b then 1 else 0))
  | VInt z => Ok (format_int_comma z)
  | VFloat f => Ok (format_float_comma f)
  | VStr _ => Raise ValueError
  | VDict _ => Raise TypeError
  end.

(** [a - b] *)
Definition py_sub (a b : value) : result value :=
  let as_int v := match v with
                  | VBool b => Some (if b then 1 else 0)
                  | VInt z => Some z
                  | _ => None
                  end in
  match as_int a, as_int b, a, b with
  | Some x, Some y, _, _ => Ok (VInt (x - y))
  | Some x, None, _, VFloat g => do f <- float_of_Z x; Ok (VFloat (f - g))
  | None, Some y, VFloat f, _ => do g <- float_of_Z y; Ok (VFloat (f - g))
  | None, None, VFloat f, VFloat g => Ok (VFloat (f - g))
  | _, _, _, _ => Raise TypeError
  end.
End Values.

(** The wall clock: what [datetime.now()] returns, a naive value.  A call
    of a tool reads the clock once per record; one reading stands for all
    of them. *)
Record instant : Type := {
  today : Z;
  micro_of_day : Z
}.

Definition datetime_now (clock : instant) : datetime :=
  {| dt_date := today clock; dt_micro := micro_of_day clock; dt_offset := None |}.

(** [range(n)] *)
Fixpoint range_from (start : Z) (count : nat) : list Z :=
  match count with
  | O => []
  | S c => start :: range_from (start + 1) c
  end.

Definition range (n : Z) : list Z := range_from 0 (Z.to_nat n).

(** ** Opportunity Generator: [grant_search] *)

(** The record appended by iteration [i] of the loop. *)
Definition opportunity (clock : instant) (keywords_str region : string) (i : Z)
  : result dict :=
  do due <- add_days (datetime_now clock) (90 + i * 15);
  Ok (<["funder_name" := VStr ("Example Foundation " +:+ str_of_Z (i + 1))]>
      (<["mission_focus" := VStr ("Focus on: " +:+ keywords_str)]>
      (<["award_size_min" := VInt (5000 + i * 1000)]>
      (<["award_size_max" := VInt (25000 + i * 2000)]>
      (<["deadline" := VStr (isoformat (dt_date due))]>
      (<["geographic_restriction" := VStr region]>
      (<["eligibility" :=
           VStr "501(c)(3) non-profit organisation supporting women scholars"]>
      (<["url" := VStr ("https://examplefoundation.org/apply/" +:+ str_of_Z (i + 1))]>
       ∅)))))))).

(** [", ".join(mission_keywords) if mission_keywords else "general mission alignment"] *)
Definition keywords_text (mission_keywords : list string) : string :=
  match mission_keywords with
  | [] => "general mission alignment"
  | _ => join ", " mission_keywords
  end.

Definition grant_search (clock : instant) (mission_keywords : list string)
    (region : string) (max_results : Z) : result (list dict) :=
  let keywords_str := keywords_text mission_keywords in
  let num := Z.max 1 max_results in
  for_each (opportunity clock keywords_str region) (range num).

(** ** Award Lifecycle Tracker: [deposit_tracker] *)

(** [details or {}] *)
Definition or_empty (details : option dict) : dict :=
  match details with
  | Some d => if truthy (VDict d) then d else ∅
  | None => ∅
  end.

(** The argument [details] as a value: a dictionary or [None]. *)
Definition details_value (details : option dict) : value :=
  match details with
  | Some d => VDict d
  | None => VNone
  end.

Definition snapshot (award_id status field : string) (payload : value) : dict :=
  <["award_id" := VStr award_id]>
  (<["status" := VStr status]>
  (<[field := payload]> ∅)).

Definition deposit_tracker (award_id action : string) (details : option dict) : dict :=
  if String.eqb action "register_award" then
    snapshot award_id "Registered" "amount_awarded"
             (get (or_empty details) "amount_awarded")
  else if String.eqb action "record_deposit" then
    snapshot award_id "Deposit Recorded" "deposit_amount"
             (get (or_empty details) "deposit_amount")
  else if String.eqb action "allocate_funds" then
    snapshot award_id "Funds Allocated" "allocation_details"
             (get (or_empty details) "allocation_details")
  else if String.eqb action "report_outcome" then
    snapshot award_id "Report Submitted" "outcome_details"
             (get (or_empty details) "outcome_details")
  else
    snapshot award_id "Unknown action" "details" (details_value details).

(** One call of the tracker, and a session of calls made one after the
    other; the module keeps no variable between them. *)
Record tracker_call : Type := {
  call_award_id : string;
  call_action : string;
  call_details : option dict
}.

Definition run_call (c : tracker_call) : dict :=
  deposit_tracker (call_award_id c) (call_action c) (call_details c).

Definition run_session (calls : list tracker_call) : list dict := map run_call calls.

(** ** Sorting and slices *)

(** [sorted(l, key=key, reverse=True)] for float keys: the keys are
    computed first, the sort compares keys only, and the elements come out
    in the order the runtime's sort gives to their positions. *)
Definition sorted_desc `{RT : Runtime} {A : Type} (key : A -> float) (l : list A)
  : list A :=
  omap (fun i => l !! i) (sort_order (map key l)).

(** [l[:n]] *)
Definition slice_to {A : Type} (n : Z) (l : list A) : list A :=
  if 0 <=? n then take (Z.to_nat n) l
  else take (length l - Z.to_nat (- n)) l.

(** ** Donor Scorer: [donor_prospect] *)

Section DonorScorer.
Context `{RT : Runtime}.

Definition in_set (x : string) (xs : list string) : bool := existsb (String.eqb x) xs.

(** [str(d.get("industry", "")).lower() in inds] *)
Definition industry_matches (inds : list string) (d : dict) : bool :=
  in_set (lower (py_str (get_or d "industry" (VStr "")))) inds.

(** [r in str(d.get("region", "")).lower()] *)
Definition region_matches (r : string) (d : dict) : bool :=
  contains r (lower (py_str (get_or d "region" (VStr "")))).

(** The two [if] statements that narrow [filtered]; [read] gives the
    record behind an element of the list. *)
Definition apply_filters {A : Type} (read : A -> dict)
    (industry_filter : option (list string)) (region : option string)
    (past_donors : list A) : list A :=
  let filtered := past_donors in
  let filtered :=
    match industry_filter with
    | Some ((_ :: _) as names) =>
        let inds := map lower names in
        List.filter (fun d => industry_matches inds (read d)) filtered
    | _ => filtered
    end in
  let filtered :=
    match region with
    | Some ((String _ _) as region) =>
        let r := lower region in
        List.filter (fun d => region_matches r (read d)) filtered
    | _ => filtered
    end in
  filtered.

(** [float(d.get("last_gift_amount", 0) or 0)] *)
Definition base_amount (d : dict) : result float :=
  py_float (py_or (get_or d "last_gift_amount" (VInt 0)) (VInt 0)).

(** The body of the [try]: it leaves the bonus at 0.0 when the date is
    missing or empty, and raises when the text does not parse or the
    parsed value cannot be subtracted from [now]. *)
Definition recency_try (clock : instant) (d : dict) : result float :=
  let date_str := get d "last_gift_date" in
  if truthy date_str then
    match fromisoformat (py_str date_str) with
    | None => Raise ValueError
    | Some parsed =>
        do days <- days_between (datetime_now clock) parsed;
        let days_ago := Z.max 1 days in
        Ok (true_div 1000 (Z.to_pos days_ago))
    end
  else Ok 0%float.

Definition recency_bonus (clock : instant) (d : dict) : float :=
  try_except (recency_try clock d) 0%float.

(** [round(base * 0.5 + recency_bonus, 2)] *)
Definition potential_score (clock : instant) (d : dict) : result float :=
  do base <- base_amount d;
  Ok (py_round2 (base * 0.5 + recency_bonus clock d)).

(** [item = dict(d); item["potential_score"] = ...] *)
Definition scored_item (clock : instant) (d : dict) : result dict :=
  do score <- potential_score clock d;
  Ok (<["potential_score" := VFloat score]> d).

(** [x["potential_score"]] of a scored item. *)
Definition score_key (item : dict) : float :=
  match item !! "potential_score" with
  | Some (VFloat f) => f
  | _ => nan
  end.

(** The tool on records taken as values. *)
Definition donor_prospect (clock : instant) (past_donors : list dict)
    (industry_filter : option (list string)) (region : option string)
    (top_n : Z) : result (list dict) :=
  let filtered := apply_filters (fun d => d) industry_filter region past_donors in
  do scored <- for_each (scored_item clock) filtered;
  let scored_sorted := sorted_desc score_key scored in
  Ok (slice_to (Z.max 0 top_n) scored_sorted).

(** *** The tool on records taken as objects

    The caller's records are mutable objects.  The store lists the live
    dictionaries and a reference is an index into it; creating an
    object appends to the store, and an item assignment replaces the
    entry the reference points to. *)

Definition deref (h : list dict) (r : nat) : dict := default ∅ (h !! r).

Definition scored_item_ref (clock : instant) (h : list dict) (r : nat)
  : result (nat * list dict) :=
  let d := deref h r in
  do score <- potential_score clock d;
  let item := length h in
  let h := h ++ [d] in
  let h := <[item := <["potential_score" := VFloat score]> (deref h item)]> h in
  Ok (item, h).

Fixpoint score_loop (clock : instant) (h : list dict) (filtered : list nat)
  : result (list nat * list dict) :=
  match filtered with
  | [] => Ok ([], h)
  | r :: rest =>
      do ih <- scored_item_ref clock h r;
      do rh <- score_loop clock (snd ih) rest;
      Ok (fst ih :: fst rh, snd rh)
  end.

Definition donor_prospect_refs (clock : instant) (h : list dict)
    (past_donors : list nat) (industry_filter : option (list string))
    (region : option string) (top_n : Z) : result (list nat * list dict) :=
  let filtered := apply_filters (deref h) industry_filter region past_donors in
  do sh <- score_loop clock h filtered;
  let scored_sorted := sorted_desc (fun r => score_key (deref (snd sh) r)) (fst sh) in
  Ok (slice_to (Z.max 0 top_n) scored_sorted, snd sh).
End DonorScorer.

(** ** Dashboard Aggregator: [dashboard_summary] *)

Definition nl : string := String (ascii_of_nat 10) EmptyString.

(** The order of a float and an integer, compared exactly as Python
    does; [None] when the float is NaN. *)
Definition compare_float_Z (f : float) (z : Z) : option comparison :=
  match Prim2SF f with
  | S754_nan => None
  | S754_infinity s => Some (if s then Lt else Gt)
  | S754_zero _ => Some (0 ?= z)
  | S754_finite s m e =>
      let v := if s then Z.neg m else Z.pos m in
      Some (if 0 <=? e then v * 2 ^ e ?= z else v ?= z * 2 ^ (- e))
  end.

(** [a < b]: numbers with numbers, strings with strings, [TypeError]
    otherwise. *)
Definition py_lt (a b : value) : result bool :=
  let as_int v := match v with
                  | VBool b => Some (if b then 1 else 0)
                  | VInt z => Some z
                  | _ => None
                  end in
  match as_int a, as_int b, a, b with
  | Some x, Some y, _, _ => Ok (x <? y)
  | Some x, None, _, VFloat g =>
      Ok (match compare_float_Z g x with Some Gt => true | _ => false end)
  | None, Some y, VFloat f, _ =>
      Ok (match compare_float_Z f y with Some Lt => true | _ => false end)
  | None, None, VFloat f, VFloat g => Ok (PrimFloat.ltb f g)
  | None, None, VStr s, VStr t => Ok (str_ltb s t)
  | _, _, _, _ => Raise TypeError
  end.

(** [sorted(l, key=key)]: each element, from the last to the first, is
    inserted in front of the first element whose key is not smaller; a
    comparison that raises ends the sort.  As for [sorted_desc], the
    result is the one of Python's sort when no key is NaN. *)
Fixpoint insert_asc {A : Type} (key : A -> value) (x : A) (l : list A)
  : result (list A) :=
  match l with
  | [] => Ok [x]
  | y :: l' =>
      do smaller <- py_lt (key y) (key x);
      if smaller : bool then (do r <- insert_asc key x l'; Ok (y :: r)) else Ok (x :: l)
  end.

Fixpoint sorted_asc {A : Type} (key : A -> value) (l : list A) : result (list A) :=
  match l with
  | [] => Ok []
  | x :: l' => do r <- sorted_asc key l'; insert_asc key x r
  end.

Section Dashboard.
Context `{RT : Runtime}.
Local Open Scope string_scope.

Definition deadline_line (opp : dict) : string :=
  "   - " ++ py_str (get opp "funder_name")
  ++ " (Deadline: " ++ py_str (get opp "deadline")
  ++ ", Fit Score: " ++ py_str (get opp "fit_score") ++ ")" ++ nl.

Definition prospect_line (p : dict) : string :=
  "   - " ++ py_str (get p "name")
  ++ " (Industry: " ++ py_str (get p "industry")
  ++ ", Last Gift: $" ++ py_str (get p "last_gift_amount")
  ++ ", Score: " ++ py_str (get p "potential_score") ++ ")" ++ nl.

Definition gap_line (gap : string) : string := "   Gap: $" ++ gap ++ nl.

Definition closing_text : string :=
  nl ++ "Next immediate steps: Check the top-3 escrow opportunities and reach out to the top pen-prospect donor this week.".

Definition dashboard_summary (opportunities donor_prospects : list dict)
    (event_projection : dict) : result string :=
  let opp_count := Z.of_nat (length opportunities) in
  do by_deadline <- sorted_asc (fun x => get_or x "deadline" (VStr "")) opportunities;
  let next_deadlines := slice_to 3 by_deadline in
  let top_prospects := slice_to 3 donor_prospects in
  let target := get_or event_projection "target_revenue" (VInt 0) in
  let projected := get_or event_projection "projected_revenue" (VInt 0) in
  let summary :=
    "ðŸ” Funding Pipeline Summary:" ++ nl ++ nl
    ++ "â€¢ Opportunities in pipeline: " ++ str_of_Z opp_count ++ nl in
  let summary :=
    match next_deadlines with
    | [] => summary
    | _ => summary ++ "â€¢ Next upcoming deadlines:" ++ nl
           ++ String.concat "" (map deadline_line next_deadlines)
    end in
  let summary := summary ++ nl ++ "â€¢ Top donor/sponsor prospects:" ++ nl in
  let summary := summary ++ String.concat "" (map prospect_line top_prospects) in
  do target_text <- format_comma target;
  do projected_text <- format_comma projected;
  do gap <- py_sub target projected;
  do gap_text <- format_comma gap;
  Ok (summary
      ++ nl ++ "â€¢ Event Revenue Projection:" ++ nl
      ++ "   Target: $" ++ target_text ++ nl
      ++ "   Projected: $" ++ projected_text ++ nl
      ++ gap_line gap_text
      ++ closing_text).
End Dashboard.

(** ** A runtime for the worked examples

    [fromisoformat_basic] reads the grammar that [datetime.fromisoformat]
    accepts in every Python version that has it:
    [YYYY-MM-DD[*HH[:MM[:SS[.fff[fff]]]][+HH:MM[:SS[.ffffff]]]]]. *)

Definition digit_of (c : ascii) : option Z :=
  let n := nat_of_ascii c in
  if (48 <=? n)%nat && (n <=? 57)%nat then Some (Z.of_nat n - 48) else None.

(** Exactly [k] decimal digits at the head of [s]. *)
Fixpoint read_digits (k : nat) (acc : Z) (s : string) : option (Z * string) :=
  match k with
  | O => Some (acc, s)
  | S k' =>
      match s with
      | String c s' =>
          match digit_of c with
          | Some v => read_digits k' (acc * 10 + v) s'
          | None => None
          end
      | EmptyString => None
      end
  end.

Definition expect (c : ascii) (s : string) : option string :=
  match s with
  | String c' s' => if Ascii.eqb c c' then Some s' else None
  | EmptyString => None
  end.

(** [YYYY-MM-DD], a date that exists. *)
Definition read_date (s : string) : option (Z * string) :=
  '(y, s) ← read_digits 4 0 s;
  s ← expect "-" s;
  '(m, s) ← read_digits 2 0 s;
  s ← expect "-" s;
  '(d, s) ← read_digits 2 0 s;
  if (1 <=? y) && (1 <=? m) && (m <=? 12) && (1 <=? d) && (d <=? days_in_month y m)
  then Some (ymd2ord y m d, s) else None.

(** [.fff] or [.ffffff] closing a clock reading, in microseconds. *)
Definition read_fraction (s : string) : option (Z * string) :=
  match s with
  | String "." s' =>
      match read_digits 6 0 s' with
      | Some r => Some r
      | None => '(v, s'') ← read_digits 3 0 s'; Some (v * 1000, s'')
      end
  | _ => Some (0, s)
  end.

(** [HH[:MM[:SS[.fff[fff]]]]], in microseconds; the fraction is read only
    when [fraction] says so after the seconds. *)
Definition read_clock (s : string) : option (Z * string) :=
  '(hh, s) ← read_digits 2 0 s;
  match expect ":" s with
  | None => if hh <? 24 then Some (hh * 3600000000, s) else None
  | Some s =>
      '(mm, s) ← read_digits 2 0 s;
      match expect ":" s with
      | None =>
          if (hh <? 24) && (mm <? 60)
          then Some (hh * 3600000000 + mm * 60000000, s) else None
      | Some s =>
          '(ss, s) ← read_digits 2 0 s;
          '(us, s) ← read_fraction s;
          if (hh <? 24) && (mm <? 60) && (ss <? 60)
          then Some (hh * 3600000000 + mm * 60000000 + ss * 1000000 + us, s)
          else None
      end
  end.

(** [+HH:MM[:SS[.ffffff]]] or nothing. *)
Definition read_offset (s : string) : option (option Z) :=
  match s with
  | EmptyString => Some None
  | String sign s' =>
      if Ascii.eqb sign "+" || Ascii.eqb sign "-" then
        '(off, rest) ← read_clock s';
        match rest with
        | EmptyString => Some (Some (if Ascii.eqb sign "-" then - off else off))
        | _ => None
        end
      else None
  end.

Definition fromisoformat_basic (s : string) : option datetime :=
  '(day, s) ← read_date s;
  match s with
  | EmptyString => Some {| dt_date := day; dt_micro := 0; dt_offset := None |}
  | String _ s =>
      '(us, s) ← read_clock s;
      off ← read_offset s;
      Some {| dt_date := day; dt_micro := us; dt_offset := off |}
  end.

(** The examples never print or parse a float and never print a
    dictionary; their texts are ASCII, and their sort is the stable one. *)
Definition example_runtime : Runtime.
Proof.
  refine {| float_of_str := fun _ => None;
            str_of_float := fun _ => EmptyString;
            str_of_dict := fun _ => EmptyString;
            format_float_comma := fun _ => EmptyString;
            fromisoformat := fromisoformat_basic;
            lower := ascii_lower;
            lower_on_ascii := fun s _ => eq_refl;
            sort_order := stable_order;
            sort_order_perm := _;
            sort_order_stable := fun keys _ => eq_refl;
            sort_order_run := _ |}.
  - intros keys. unfold stable_order, stable_desc.
    generalize (fun i : nat => default nan (keys !! i)) as key.
    generalize (seq 0 (length keys)) as l.
    intros l key. induction l as [|x l IH]; [reflexivity|].
    cbn [foldr]. rewrite <- IH at 2. generalize (foldr (insert_desc key) [] l) as s.
    intros s. induction s as [|y s IHs]; [reflexivity|]. cbn [insert_desc].
    destruct (PrimFloat.ltb (key x) (key y)); [|reflexivity].
    rewrite IHs. apply Permutation_swap.
  - intros keys Hrun. unfold stable_order.
    assert (Hkeys : map (fun i : nat => default nan (keys !! i)) (seq 0 (length keys))
                    = keys).
    { clear Hrun. induction keys as [|k keys IH]; [reflexivity|].
      cbn [length seq map]. rewrite <- seq_shift, List.map_map.
      exact (f_equal (cons k) IH). }
    rewrite <- Hkeys in Hrun at 1. clear Hkeys. revert Hrun.
    generalize (fun i : nat => default nan (keys !! i)) as key.
    generalize (seq 0 (length keys)) as l.
    intros l key. induction l as [|x l IH]; [reflexivity|].
    intros Hrun. cbn [stable_desc foldr]. fold (stable_desc key l).
    destruct l as [|y l]; [reflexivity|].
    cbn [map one_run] in Hrun. apply andb_true_iff in Hrun as [Hxy Hrun].
    rewrite (IH Hrun). cbn [insert_desc].
    apply negb_true_iff in Hxy. rewrite Hxy. reflexivity.
Defined.

(** * The tools around the core

    [tools_no_code_extra.py] beside [dashboard_summary], the fallback
    decorator of both tool modules, and the sample-data tool of [main.py]. *)

(** ** The fallback decorator [tool]

    Each tool module defines [tool] itself before it looks for LangChain's
    and keeps its own when LangChain cannot be imported. *)

Section Decorator.
Context {F : Type}.

(** The objects a decorator expression handles here: a function, a text,
    and the inner function [_wrap]. *)
Inductive pyobj : Type :=
| Fn (f : F)
| Text (s : string)
| Wrap.

(** How a function object answers a call. *)
Context (run : F -> pyobj -> result pyobj).

(** [tool(func, **kwargs)]; [None] is the call without a positional
    argument. *)
Definition tool (func : option pyobj) : pyobj :=
  match func with
  | None => Wrap
  | Some given => given
  end.

(** [callee(arg)]: [_wrap] returns its argument and a text is not
    callable. *)
Definition call (callee arg : pyobj) : result pyobj :=
  match callee with
  | Fn f => run f arg
  | Text _ => Raise TypeError
  | Wrap => Ok arg
  end.

(** What [def f] is bound to under [@tool] and under
    [@tool(name, description=...)]. *)
Definition decorated_bare (f : F) : result pyobj := Ok (tool (Some (Fn f))).

Definition decorated_named (name : string) (f : F) : result pyobj :=
  call (tool (Some (Text name))) (Fn f).
End Decorator.
Arguments pyobj F : clear implicits.
Arguments Fn {F} f.
Arguments Text {F} s.
Arguments Wrap {F}.

(** ** [cache_tool]

    The module variable [_CACHE] is passed in and returned with the reply. *)
Definition cache_tool `{RT : Runtime} (cache : dict) (action key : string) (val : value)
    (ttl_seconds : option Z) : dict * dict :=
  let action_l := lower action in
  if String.eqb action_l "get" then
    (<["hit" := VBool (bool_decide (is_Some (cache !! key)))]>
     (<["key" := VStr key]>
     (<["value" := get cache key]> ∅)), cache)
  else if String.eqb action_l "set" then
    (<["ok" := VBool true]> (<["key" := VStr key]> ∅), <[key := val]> cache)
  else if String.eqb action_l "delete" then
    (<["ok" := VBool true]> (<["key" := VStr key]> ∅), delete key cache)
  else if String.eqb action_l "clear" then
    (<["ok" := VBool true]> (<["cleared" := VBool true]> ∅), ∅)
  else
    (<["error" := VStr ("Unsupported action: " +:+ action)]> ∅, cache).

(** One call of [cache_tool], and the cache after a run of calls. *)
Record cache_call : Type := {
  cache_action : string;
  cache_key : string;
  cache_value : value;
  cache_ttl : option Z
}.

Definition cache_after `{RT : Runtime} (cache : dict) (calls : list cache_call) : dict :=
  foldl (fun c x => snd (cache_tool c (cache_action x) (cache_key x) (cache_value x)
                           (cache_ttl x)))
        cache calls.

(** ** Texts and order of [datetime] values *)

(** [HH:MM:SS[.ffffff]], the fraction being written when it is not zero. *)
Definition time_text (us : Z) : string :=
  let frac := us mod 1000000 in
  (zero_pad 2 (us / 3600000000) ++ ":" ++ zero_pad 2 (us / 60000000 mod 60) ++ ":"
   ++ zero_pad 2 (us / 1000000 mod 60)
   ++ (if (frac =? 0)%Z then "" else "." ++ zero_pad 6 frac))%string.

(** [+HH:MM[:SS[.ffffff]]] for a UTC offset. *)
Definition offset_text (off : Z) : string :=
  let a := Z.abs off in
  let ss := a mod 60000000 in
  ((if (off <? 0)%Z then "-" else "+")
   ++ zero_pad 2 (a / 3600000000) ++ ":" ++ zero_pad 2 (a / 60000000 mod 60)
   ++ (if (ss =? 0)%Z then ""
       else ":" ++ zero_pad 2 (ss / 1000000)
            ++ (if (ss mod 1000000 =? 0)%Z then "" else "." ++ zero_pad 6 (ss mod 1000000))))%string.

(** [dt.isoformat()] *)
Definition datetime_isoformat (dt : datetime) : string :=
  (isoformat (dt_date dt) ++ "T" ++ time_text (dt_micro dt)
   ++ match dt_offset dt with
      | Some off => offset_text off
      | None => ""
      end)%string.

(** [a <= b]: two naive values compare by date and time, two aware values
    by their instants, and a naive value with an aware one is a
    [TypeError]. *)
Definition datetime_le (a b : datetime) : result bool :=
  match dt_offset a, dt_offset b with
  | None, None =>
      Ok ((dt_date a <? dt_date b)
          || ((dt_date a =? dt_date b) && (dt_micro a <=? dt_micro b)))
  | Some oa, Some ob =>
      Ok (dt_date a * MICROS_PER_DAY + dt_micro a - oa
          <=? dt_date b * MICROS_PER_DAY + dt_micro b - ob)
  | _, _ => Raise TypeError
  end.

(** ** [task_reminder_tool] *)

(** The returned dictionary, by its three keys. *)
Record reminders : Type := {
  reminders_now : string;
  due_within_days : Z;
  upcoming : list dict
}.

Section Reminders.
Context `{RT : Runtime}.

(** The first [try]: the reading of [now_iso], and the clock when there
    is none or it does not parse. *)
Definition reminder_now (clock : instant) (now_iso : option string) : datetime :=
  match now_iso with
  | Some text =>
      if negb (String.eqb text "") then
        match fromisoformat text with
        | Some parsed => parsed
        | None => datetime_now clock
        end
      else datetime_now clock
  | None => datetime_now clock
  end.

(** The body of the [try] in the loop: whether [t] is appended. *)
Definition task_due (now soon : datetime) (t : dict) : result bool :=
  let dl := get t "deadline" in
  if truthy dl then
    match fromisoformat (py_str dl) with
    | None => Raise ValueError
    | Some dld =>
        do not_past <- datetime_le now dld;
        if not_past : bool then
          do in_window <- datetime_le dld soon;
          if in_window : bool then
            Ok (negb (in_set (lower (py_str (get_or t "status" (VStr ""))))
                        ["done"; "completed"]%string))
          else Ok false
        else Ok false
    end
  else Ok false.

Definition task_reminder_tool (clock : instant) (tasks : list dict) (days_ahead : Z)
    (now_iso : option string) : result reminders :=
  let now := reminder_now clock now_iso in
  do soon <- add_days now (Z.max 0 days_ahead);
  let upcoming := List.filter (fun t => try_except (task_due now soon t) false) tasks in
  Ok {| reminders_now := datetime_isoformat now;
        due_within_days := days_ahead;
        upcoming := upcoming |}.
End Reminders.

(** ** [audit_log_tool] *)

Definition audit_log_tool (clock : instant) (user action : string)
    (details : option dict) : dict :=
  let entry : dict :=
    <["timestamp" := VStr (datetime_isoformat (datetime_now clock))]>
    (<["user" := VStr user]>
    (<["action" := VStr action]>
    (<["details" := VDict (or_empty details)]> ∅))) in
  <["logged" := VBool true]> (<["entry" := VDict entry]> ∅).

(** ** [generate_outreach_letter] *)

Section OutreachLetter.
Context `{RT : Runtime}.
Local Open Scope string_scope.

Definition letter_opening (name : string) : string := "Dear " ++ name ++ "," ++ nl ++ nl.

Definition letter_closing : string :=
  "Warm regards," ++ nl ++ "[Your Sorority Name]" ++ nl ++ "[Contact details]".

(** The sentence that names the past gift. *)
Definition letter_support (industry last_gift region : string) : string :=
  ". Your leadership in the " ++ industry
  ++ " sector, and generous past support of $" ++ last_gift ++ " in " ++ region ++ ", ".

Definition generate_outreach_letter (prospect : dict)
    (mission_statement event_name sponsorship_tier : string) : result string :=
  let name := get_or prospect "name" (VStr "Valued Supporter") in
  let industry := get_or prospect "industry" (VStr "") in
  let last_gift := get_or prospect "last_gift_amount" (VInt 0) in
  let region := get_or prospect "region" (VStr "") in
  do last_gift_text <- format_comma last_gift;
  Ok (letter_opening (py_str name)
      ++ "As part of our mission " ++ mission_statement
      ++ ", we are pleased to invite you to join us as a " ++ sponsorship_tier ++ " "
      ++ "for the " ++ event_name
      ++ letter_support (py_str industry) last_gift_text (py_str region)
      ++ "make you an ideal partner in helping us empower undergraduate women in our community."
      ++ nl ++ nl
      ++ "By sponsoring this event, youâ€™ll be recognised as a leader committed to education and women's leadership, "
      ++ "receive event benefits (table for 10, logo placement, special acknowledgement), and most importantly â€” help us award scholarships that transform lives."
      ++ nl ++ nl
      ++ "We hope you will join us and look forward to discussing this opportunity with you. Please let us know how youâ€™d like to proceed."
      ++ nl ++ nl
      ++ letter_closing).
End OutreachLetter.

(** ** [report_to_funder_tool] *)

(** [int(s)] for a text is left open; [None] stands for [ValueError]. *)
Class IntReader : Type := {
  int_of_str : string -> option Z
}.

(** [int(x)] for a float: the fraction is cut off. *)
Definition int_of_float (f : float) : result Z :=
  match Prim2SF f with
  | S754_nan => Raise ValueError
  | S754_infinity _ => Raise OverflowError
  | S754_zero _ => Ok 0
  | S754_finite s m e =>
      let magnitude := if 0 <=? e then Z.pos m * 2 ^ e else Z.pos m / 2 ^ (- e) in
      Ok (if s then - magnitude else magnitude)
  end.

Section FunderReport.
Context `{RT : Runtime} `{IR : IntReader}.

(** [int(v)] *)
Definition py_int (v : value) : result Z :=
  match v with
  | VNone => Raise TypeError
  | VBool b => Ok (if b then 1 else 0)
  | VInt z => Ok z
  | VFloat f => int_of_float f
  | VStr s => match int_of_str s with Some z => Ok z | None => Raise ValueError end
  | VDict _ => Raise TypeError
  end.

(** [sum(int(o.get("beneficiaries", 0)) for o in outcomes)] *)
Definition total_beneficiaries (outcomes : list dict) : result Z :=
  do counts <- for_each (fun o => py_int (get_or o "beneficiaries" (VInt 0))) outcomes;
  Ok (foldl Z.add 0 counts).

(** An item handed to [", ".join]: it has to be a [str]. *)
Definition join_item (v : value) : result string :=
  match v with
  | VStr s => Ok s
  | _ => Raise TypeError
  end.

(** [", ".join(o.get("outcome", "") for o in outcomes if o.get("outcome"))] *)
Definition key_outcomes (outcomes : list dict) : result string :=
  do texts <- for_each (fun o => join_item (get_or o "outcome" (VStr "")))
                (List.filter (fun o => truthy (get o "outcome")) outcomes);
  Ok (join ", " texts).

Definition funder_report_text (award_id : string) (total : Z) (outcomes_text : string)
    (award_data : dict) : string :=
  ("Award " ++ award_id ++ " Report:" ++ nl
   ++ "- Total beneficiaries: " ++ str_of_Z total ++ nl
   ++ "- Key outcomes: " ++ outcomes_text ++ nl
   ++ "- Amount used: $" ++ py_str (get_or award_data "amount_used" (VInt 0))
   ++ " of $" ++ py_str (get_or award_data "amount_awarded" (VInt 0)) ++ nl)%string.

Definition report_to_funder_tool (award_id : string) (outcomes : list dict)
    (award_data : dict) : result dict :=
  do total <- total_beneficiaries outcomes;
  do outcomes_text <- key_outcomes outcomes;
  let report_text := funder_report_text award_id total outcomes_text award_data in
  Ok (<["award_id" := VStr award_id]>
      (<["summary_text" := VStr report_text]>
      (<["beneficiaries" := VInt total]>
      (<["outcomes_count" := VInt (Z.of_nat (length outcomes))]> ∅)))).
End FunderReport.

(** ** [generate_sample_users] of [main.py]

    The random generator is a state [rng] that every draw of
    [random.randint] reads and advances. *)

(** The returned dictionary: [{"error": ...}] or
    [{"users": ..., "count": ...}]. *)
Inductive sample_reply : Type :=
| SampleError (error : string)
| SampleUsers (users : list dict) (count : Z).

Section SampleUsers.
Context `{RT : Runtime} {rng : Type} (randint : Z -> Z -> rng -> Z * rng).

(** The dictionary built by iteration [i] of the loop. *)
Definition sample_user (clock : instant) (last_names domains : list string)
    (min_age max_age : Z) (i : nat) (first : string) (g : rng) : result (dict * rng) :=
  let last := nth (i mod length last_names) last_names EmptyString in
  let domain := nth (i mod length domains) domains EmptyString in
  let email := (lower first ++ "." ++ lower last ++ "@" ++ domain)%string in
  let '(suffix, g) := randint 100 999 g in
  let '(age, g) := randint min_age max_age g in
  let '(days, g) := randint 1 365 g in
  do registered <- add_days (datetime_now clock) (- days);
  Ok (<["id" := VInt (Z.of_nat i + 1)]>
      (<["firstName" := VStr first]>
      (<["lastName" := VStr last]>
      (<["email" := VStr email]>
      (<["username" := VStr (lower first ++ str_of_Z suffix)%string]>
      (<["age" := VInt age]>
      (<["registeredAt" := VStr (datetime_isoformat registered)]> ∅)))))), g).

(** The loop, from index [i] on. *)
Fixpoint sample_loop (clock : instant) (last_names domains : list string)
    (min_age max_age : Z) (i : nat) (first_names : list string) (g : rng)
  : result (list dict * rng) :=
  match first_names with
  | [] => Ok ([], g)
  | first :: rest =>
      do ug <- sample_user clock last_names domains min_age max_age i first g;
      do usg <- sample_loop clock last_names domains min_age max_age (S i) rest (snd ug);
      Ok (fst ug :: fst usg, snd usg)
  end.

Definition generate_sample_users (clock : instant)
    (first_names last_names domains : list string) (min_age max_age : Z) (g : rng)
  : result (sample_reply * rng) :=
  match first_names, last_names, domains with
  | [], _, _ => Ok (SampleError "first_names list cannot be empty", g)
  | _, [], _ => Ok (SampleError "last_names list cannot be empty", g)
  | _, _, [] => Ok (SampleError "domains list cannot be empty", g)
  | _, _, _ =>
      if max_age <? min_age then
        Ok (SampleError ("min_age (" ++ str_of_Z min_age
                         ++ ") cannot be greater than max_age (" ++ str_of_Z max_age ++ ")"), g)
      else if (min_age <? 0) || (max_age <? 0) then
        Ok (SampleError "ages must be non-negative", g)
      else
        do usg <- sample_loop clock last_names domains min_age max_age 0 first_names g;
        Ok (SampleUsers (fst usg) (Z.of_nat (length (fst usg))), snd usg)
  end.
End SampleUsers.

(** ** The dashboard step of [driver.py]

    [for i, opp in enumerate(opportunities): opp["fit_score"] = 80 - i * 10] *)
Definition assign_fit_scores (opportunities : list dict) : list dict :=
  imap (fun i opp => <["fit_score" := VInt (80 - Z.of_nat i * 10)]> opp) opportunities.

(** * Vocabulary of the properties *)

(** What the tracker echoes for [field]: the entry of [details], and
    [None] when there are no details or no such entry. *)
Definition echoed (details : option dict) (field : string) : value :=
  match details with
  | Some d => match d !! field with Some v => v | None => VNone end
  | None => VNone
  end.

(** The record of position [i], given the day its deadline falls on. *)
Definition opportunity_on (due : Z) (keywords_str region : string) (i : Z) : dict :=
  <["funder_name" := VStr ("Example Foundation " +:+ str_of_Z (i + 1))]>
  (<["mission_focus" := VStr ("Focus on: " +:+ keywords_str)]>
  (<["award_size_min" := VInt (5000 + i * 1000)]>
  (<["award_size_max" := VInt (25000 + i * 2000)]>
  (<["deadline" := VStr (isoformat due)]>
  (<["geographic_restriction" := VStr region]>
  (<["eligibility" :=
       VStr "501(c)(3) non-profit organisation supporting women scholars"]>
  (<["url" := VStr ("https://examplefoundation.org/apply/" +:+ str_of_Z (i + 1))]>
   ∅))))))).

Definition sf_rank (x : spec_float) : Z * Z * Z :=
  match x with
  | S754_nan => (0, 0, 0)
  | S754_zero _ => (0, 0, 0)
  | S754_infinity s => (if s then -2 else 2, 0, 0)
  | S754_finite s m e => if s then (-1, - e, Z.neg m) else (1, e, Z.pos m)
  end.

Definition lex3 (a b : Z * Z * Z) : comparison :=
  let '(a1, a2, a3) := a in
  let '(b1, b2, b3) := b in
  match a1 ?= b1 with
  | Eq => match a2 ?= b2 with Eq => a3 ?= b3 | c => c end
  | c => c
  end.

Ltac lex3_close :=
  intros ? ?; split; [congruence | intros ?; split; congruence].

Definition fcmp (x y : float) : comparison := lex3 (sf_rank (Prim2SF x)) (sf_rank (Prim2SF y)).

(** No element has a smaller key than one that follows it. *)
Definition descending {A : Type} (key : A -> float) (l : list A) : Prop :=
  forall (i j : nat) (a b : A),
    (i < j)%nat -> l !! i = Some a -> l !! j = Some b ->
    PrimFloat.leb (key b) (key a) = true.

(** The elements of [out] whose key equals [k] come in the order they
    have in [original], for every [k]. *)
Definition ties_keep_order {A : Type} (key : A -> float) (out original : list A) : Prop :=
  forall k : float,
    List.filter (fun a => PrimFloat.eqb (key a) k) out
    `prefix_of` List.filter (fun a => PrimFloat.eqb (key a) k) original.

(** [(now - parsed).days] for two naive values. *)
Definition days_since (clock : instant) (parsed : datetime) : Z :=
  (today clock - dt_date parsed) + (micro_of_day clock - dt_micro parsed) / MICROS_PER_DAY.

(** [item] is the copy of [d] that carries its score. *)
Definition scored_copy `{RT : Runtime} (clock : instant) (d item : dict) : Prop :=
  exists s : float,
    potential_score clock d = Ok s /\ item = <["potential_score" := VFloat s]> d.

(** The record's [potential_score] is a float equal to [k]. *)
Definition has_score (k : float) (item : dict) : bool :=
  match item !! "potential_score" with
  | Some (VFloat s) => PrimFloat.eqb s k
  | _ => false
  end.

(** A date as the number [yyyymmdd]. *)
Definition date_code (ordinal : Z) : Z :=
  let '(y, m, d) := ord2ymd ordinal in y * 10000 + m * 100 + d.

(** The fields of a date of the first 400 years. *)
Definition cycle_fields_ok (ordinal : Z) : bool :=
  let '(y, m, d) := ord2ymd ordinal in
  (1 <=? y) && (y <=? 400) && (1 <=? m) && (m <=? 12) && (1 <=? d) && (d <=? 31).

(** The [count] days after day [ordinal], whose code is [code], are
    well-formed and each later than the one before. *)
Fixpoint days_increase (count : nat) (ordinal code : Z) : bool :=
  match count with
  | O => true
  | S c =>
      let next := date_code (ordinal + 1) in
      cycle_fields_ok (ordinal + 1) && (code <? next) && days_increase c (ordinal + 1) next
  end.

(** A text read as a number in base 256. *)
Fixpoint str_value (s : string) : Z :=
  match s with
  | EmptyString => 0
  | String c s' => Z.of_nat (nat_of_ascii c) * 256 ^ Z.of_nat (String.length s') + str_value s'
  end.

(** [f] increases over the [count] steps that follow [x], where it is [fx]. *)
Fixpoint increasing_from (f : Z -> Z) (count : nat) (x fx : Z) : bool :=
  match count with
  | O => true
  | S c => let fy := f (x + 1) in (fx <? fy) && increasing_from f c (x + 1) fy
  end.

(** The mock donors of [driver.py]. *)
Definition donor (name kind industry : string) (amount : Z) (date region : string) : dict :=
  <["name" := VStr name]>
  (<["type" := VStr kind]>
  (<["industry" := VStr industry]>
  (<["last_gift_amount" := VInt amount]>
  (<["last_gift_date" := VStr date]>
  (<["region" := VStr region]> ∅))))).

Definition mock_donors : list dict :=
  [ donor "TechCorp Inc." "organization" "Technology" 20000 "2024-08-15" "NY, USA";
    donor "FinanceWorks LLC" "organization" "Finance" 15000 "2023-11-20" "NY, USA";
    donor "Alumni Jane Doe" "individual" "Education" 5000 "2024-05-30" "NY, USA" ].

(** Noon of 2025-01-01. *)
Definition mock_clock : instant := {| today := 739252; micro_of_day := 43200000000 |}.

Definition unwrap {A : Type} (r : result (list A)) : list A :=
  match r with
  | Ok l => l
  | Raise _ => []
  end.

Definition mock_opportunities : list dict :=
  Eval vm_compute in unwrap (grant_search mock_clock [] "NY, USA" 3).

Definition mock_ranking : list dict :=
  Eval vm_compute in
    unwrap (donor_prospect (RT := example_runtime) mock_clock mock_donors
              (Some ["finance"; "Technology"]%string) (Some "ny"%string) 5).

(** Three donors without dates whose last gifts are 1.0, NaN and 2.0,
    and the same donors with the scores 0.5, NaN and 1.0. *)
Definition gift (name : string) (amount : float) : dict :=
  <["name" := VStr name]> (<["last_gift_amount" := VFloat amount]> ∅).

Definition nan_donors : list dict := [gift "A" 1; gift "B" nan; gift "C" 2].

Definition nan_scored : list dict :=
  [ <["potential_score" := VFloat 0.5]> (gift "A" 1);
    <["potential_score" := VFloat nan]> (gift "B" nan);
    <["potential_score" := VFloat 1]> (gift "C" 2) ].

Definition mock_store_after : list dict :=
  Eval vm_compute in
    match donor_prospect_refs (RT := example_runtime) mock_clock mock_donors [0; 1; 2]%nat
            None (Some "NY, USA"%string) 3 with
    | Ok (_, h') => h'
    | Raise _ => []
    end.


(** A deadline, when the record has one, is text. *)
Definition deadline_is_text (opp : dict) : Prop :=
  match opp !! "deadline" with
  | Some v => exists s : string, v = VStr s
  | None => True
  end.



Definition deadline_key (x : dict) : value := get_or x "deadline" (VStr "").

Definition report_head (opportunities : list dict) : string :=
  "ðŸ” Funding Pipeline Summary:" ++ nl ++ nl
  ++ "â€¢ Opportunities in pipeline: " ++ str_of_Z (Z.of_nat (length opportunities)) ++ nl.

(** The text of the report, given its computed parts. *)
Definition report_text `{RT : Runtime} (opportunities by_deadline donor_prospects : list dict)
    (target_text projected_text gap_text : string) : string :=
  report_head opportunities
  ++ (match slice_to 3 by_deadline with
      | [] => ""
      | _ => "â€¢ Next upcoming deadlines:" ++ nl
             ++ String.concat "" (map deadline_line (slice_to 3 by_deadline))
      end)
  ++ nl ++ "â€¢ Top donor/sponsor prospects:" ++ nl
  ++ String.concat "" (map prospect_line (slice_to 3 donor_prospects))
  ++ nl ++ "â€¢ Event Revenue Projection:" ++ nl
  ++ "   Target: $" ++ target_text ++ nl
  ++ "   Projected: $" ++ projected_text ++ nl
  ++ gap_line gap_text
  ++ closing_text.

(** The event projection of [driver.py]. *)
Definition mock_projection : dict :=
  <["event_name" := VStr "Annual Scholarship Ball 2026"]>
  (<["target_revenue" := VInt 100000]>
  (<["projected_revenue" := VInt 65000]>
  (<["tickets_sold" := VInt 150]>
  (<["sponsorships_sold" := VInt 3]> ∅)))).

Definition text_of (r : result string) : string :=
  match r with
  | Ok s => s
  | Raise _ => EmptyString
  end.







(** The call can change what the cache holds for [key]. *)
Definition writes_to `{RT : Runtime} (key : string) (x : cache_call) : bool :=
  let a := lower (cache_action x) in
  String.eqb a "clear"
  || ((String.eqb a "set" || String.eqb a "delete") && String.eqb (cache_key x) key).

(** The number a run of decimal digits stands for, behind the digits
    already read. *)
Fixpoint uint_value (acc : Z) (u : Decimal.uint) : Z :=
  match u with
  | Decimal.Nil => acc
  | Decimal.D0 l => uint_value (acc * 10 + 0) l
  | Decimal.D1 l => uint_value (acc * 10 + 1) l
  | Decimal.D2 l => uint_value (acc * 10 + 2) l
  | Decimal.D3 l => uint_value (acc * 10 + 3) l
  | Decimal.D4 l => uint_value (acc * 10 + 4) l
  | Decimal.D5 l => uint_value (acc * 10 + 5) l
  | Decimal.D6 l => uint_value (acc * 10 + 6) l
  | Decimal.D7 l => uint_value (acc * 10 + 7) l
  | Decimal.D8 l => uint_value (acc * 10 + 8) l
  | Decimal.D9 l => uint_value (acc * 10 + 9) l
  end.

(** The date of day [n] has fields that name day [n] and a day its month
    has. *)
Definition date_reads_back (n : Z) : bool :=
  let '(y, m, d) := ord2ymd n in (ymd2ord y m d =? n) && (d <=? days_in_month y m).

Fixpoint all_from (p : Z -> bool) (count : nat) (x : Z) : bool :=
  match count with
  | O => true
  | S c => p x && all_from p c (x + 1)
  end.

(** The status of the task reads [done] or [completed], in any letter
    case. *)
Definition task_closed `{RT : Runtime} (t : dict) : bool :=
  in_set (lower (py_str (get_or t "status" (VStr "")))) ["done"; "completed"]%string.

(** No element has a deadline key that is a smaller text than the key of
    an element before it. *)
Definition deadlines_ascend (l : list dict) : Prop :=
  forall (i j : nat) (a b : dict) (s t : string),
    (i < j)%nat -> l !! i = Some a -> l !! j = Some b ->
    deadline_key a = VStr s -> deadline_key b = VStr t -> str_ltb t s = false.

(** The deadline of a record as a text, for records whose deadline is
    one. *)
Definition deadline_text (opp : dict) : string :=
  match deadline_key opp with
  | VStr s => s
  | _ => EmptyString
  end.

(** Tasks for the worked examples: one due in four days, one closed, one
    due on the day of [mock_clock], one without a deadline. *)
Definition task (title deadline status : string) : dict :=
  <["title" := VStr title]> (<["deadline" := VStr deadline]> (<["status" := VStr status]> ∅)).

Definition mock_tasks : list dict :=
  [ task "Submit grant" "2025-01-05" "open";
    task "Book venue" "2025-01-03" "Done";
    task "Thank donors" "2025-01-01" "open";
    <["title" := VStr "No date"]> ∅ ].

Definition no_reminders : reminders :=
  {| reminders_now := EmptyString; due_within_days := 0; upcoming := [] |}.

Definition reminders_of (r : result reminders) : reminders :=
  match r with
  | Ok x => x
  | Raise _ => no_reminders
  end.

Definition mock_reminders : reminders :=
  Eval vm_compute in
    reminders_of (task_reminder_tool (RT := example_runtime) mock_clock mock_tasks 7 None).

Definition mock_reminders_short : reminders :=
  Eval vm_compute in
    reminders_of (task_reminder_tool (RT := example_runtime) mock_clock mock_tasks 3 None).

(** Midnight of 2025-01-01. *)
Definition mock_midnight : instant := {| today := 739252; micro_of_day := 0 |}.

Definition midnight_reminders : reminders :=
  Eval vm_compute in
    reminders_of (task_reminder_tool (RT := example_runtime) mock_midnight mock_tasks 7 None).

Definition opportunity_reminders : reminders :=
  Eval vm_compute in
    reminders_of (task_reminder_tool (RT := example_runtime) mock_clock mock_opportunities
                    100 None).

(** A reader of [int] texts for the examples, which hold none. *)
Definition example_int_reader : IntReader := {| int_of_str := fun _ => None |}.

Definition dict_of (r : result dict) : dict :=
  match r with
  | Ok d => d
  | Raise _ => ∅
  end.

Definition mock_outcomes_spring : list dict :=
  [ <["outcome" := VStr "12 scholarships awarded"]> (<["beneficiaries" := VInt 12]> ∅);
    <["beneficiaries" := VInt 3]> ∅ ].

Definition mock_outcomes_autumn : list dict :=
  [ <["outcome" := VStr "Mentoring programme"]> (<["beneficiaries" := VInt 30]> ∅) ].

Definition mock_award : dict :=
  <["amount_used" := VInt 20000]> (<["amount_awarded" := VInt 25000]> ∅).

Definition mock_report_spring : dict :=
  Eval vm_compute in
    dict_of (report_to_funder_tool (RT := example_runtime) (IR := example_int_reader)
               "AWD-001" mock_outcomes_spring mock_award).

Definition mock_report_autumn : dict :=
  Eval vm_compute in
    dict_of (report_to_funder_tool (RT := example_runtime) (IR := example_int_reader)
               "AWD-001" mock_outcomes_autumn mock_award).


(** A generator for the examples: every draw is the lower bound. *)
Definition lowest_draw (a b : Z) (g : unit) : Z * unit := (a, g).

(** Two opportunities given latest first, and the report on them. *)
Definition mock_pipeline : list dict :=
  [ <["funder_name" := VStr "Late Fund"]> (<["deadline" := VStr "2025-09-01"]> ∅);
    <["funder_name" := VStr "Early Fund"]> (<["deadline" := VStr "2025-03-01"]> ∅) ].

Definition mock_pipeline_report : string :=
  Eval vm_compute in
    text_of (dashboard_summary (RT := example_runtime) mock_pipeline [] mock_projection).

(** The second of the mock opportunities. *)
Definition mock_second : dict :=
  Eval vm_compute in default ∅ (mock_opportunities !! 1%nat).

Definition mock_driver_report : string :=
  Eval vm_compute in
    text_of (dashboard_summary (RT := example_runtime) (assign_fit_scores mock_opportunities)
               mock_ranking mock_projection).

(** * Properties *)

(** ** Award Lifecycle Tracker *)

Lemma get_or_empty (details : option dict) (field : string) :
  get (or_empty details) field = echoed details field.
Proof.
  destruct details as [d|]; [|reflexivity].
  unfold or_empty, get, echoed; simpl.
  case_bool_decide as Hdom; simpl; [|destruct (d !! field); reflexivity].
  apply dom_empty_inv_L in Hdom. subst d.
  rewrite lookup_empty. reflexivity.
Qed.

Lemma snapshot_dom (award_id status field : string) (payload : value) :
  dom (snapshot award_id status field payload)
  = ({["award_id"; "status"; field]} : gset string).
Proof. unfold snapshot. rewrite !dom_insert_L, dom_empty_L. set_solver. Qed.



(** C2: the record returned by a call depends on that call's arguments
    alone, whatever calls came before; [record_deposit] after
    [register_award] for the same identifier returns exactly [award_id],
    the status "Deposit Recorded" and [deposit_amount], and nothing of the
    earlier registration. *)
Theorem deposit_tracker_keeps_no_memory
    (history : list tracker_call) (award_id : string)
    (registered deposited : option dict) :
  (forall c : tracker_call, last (run_session (history ++ [c])) = Some (run_call c))
  /\ let register := {| call_award_id := award_id; call_action := "register_award";
                        call_details := registered |} in
     let deposit := {| call_award_id := award_id; call_action := "record_deposit";
                       call_details := deposited |} in
     exists snap : dict,
       last (run_session (history ++ [register; deposit])) = Some snap
       /\ snap = <["award_id" := VStr award_id]>
                   (<["status" := VStr "Deposit Recorded"]>
                   (<["deposit_amount" := echoed deposited "deposit_amount"]> ∅))
       /\ dom snap = ({["award_id"; "status"; "deposit_amount"]} : gset string)
       /\ snap !! "amount_awarded" = None
       /\ snap !! "status" <> Some (VStr "Registered").
Proof.
  split.
  - intros c. unfold run_session. rewrite map_app. simpl. apply last_snoc.
  - simpl. eexists. split; [|split; [reflexivity|]].
    + unfold run_session. rewrite map_app. simpl.
      change [?a; ?b] with ([a] ++ [b]). rewrite app_assoc, last_snoc.
      unfold run_call, deposit_tracker. simpl. rewrite get_or_empty. reflexivity.
    + split; [|split].
      * apply (snapshot_dom award_id "Deposit Recorded" "deposit_amount").
      * reflexivity.
      * vm_compute. discriminate.
Qed.

(** ** Loops and ranges *)

Lemma for_each_Ok {A B : Type} (f : A -> result B) (l : list A) (ys : list B) :
  for_each f l = Ok ys <-> Forall2 (fun x y => f x = Ok y) l ys.
Proof.
  revert ys. induction l as [|x l IH]; intros ys; simpl.
  - split.
    + intros [= <-]. constructor.
    + intros H. inversion H. reflexivity.
  - split.
    + destruct (f x) as [y|e] eqn:Hx; simpl; [|discriminate].
      destruct (for_each f l) as [zs|e] eqn:Hl; simpl; [|discriminate].
      intros [= <-]. constructor; [assumption|]. apply IH. reflexivity.
    + intros H. inversion H as [|? y ? zs Hx Hl]; subst.
      rewrite Hx. simpl. apply IH in Hl. rewrite Hl. reflexivity.
Qed.

Lemma for_each_length {A B : Type} (f : A -> result B) (l : list A) (ys : list B) :
  for_each f l = Ok ys -> length ys = length l.
Proof.
  intros H. apply for_each_Ok in H. symmetry. eapply Forall2_length, H.
Qed.

Lemma for_each_total {A B : Type} (f : A -> result B) (l : list A) :
  Forall (fun x => exists y, f x = Ok y) l -> exists ys, for_each f l = Ok ys.
Proof.
  induction 1 as [|x l [y Hy] _ [ys Hys]]; simpl.
  - eexists. reflexivity.
  - rewrite Hy. simpl. rewrite Hys. simpl. eexists. reflexivity.
Qed.

Lemma for_each_Raise {A B : Type} (f : A -> result B) (l : list A) (e : exn) :
  for_each f l = Raise e -> exists x, x ∈ l /\ f x = Raise e.
Proof.
  induction l as [|x l IH]; simpl; [discriminate|].
  destruct (f x) as [y|e'] eqn:Hx; simpl.
  - destruct (for_each f l) as [ys|e'']; simpl; [discriminate|].
    intros [= ->]. destruct IH as (z & Hz & Hfz); [reflexivity|].
    exists z. split; [right; assumption | assumption].
  - intros [= ->]. exists x. split; [left | assumption].
Qed.

Lemma range_from_length (start : Z) (count : nat) :
  length (range_from start count) = count.
Proof. revert start. induction count; intros; simpl; [reflexivity | f_equal; auto]. Qed.

Lemma range_from_lookup (start : Z) (count i : nat) :
  (i < count)%nat -> range_from start count !! i = Some (start + Z.of_nat i).
Proof.
  revert start i. induction count as [|c IH]; intros start i Hi; [lia|].
  destruct i as [|i]; simpl.
  - f_equal. lia.
  - rewrite IH by lia. f_equal. lia.
Qed.

Lemma range_from_elem (start : Z) (count : nat) (x : Z) :
  x ∈ range_from start count -> start <= x < start + Z.of_nat count.
Proof.
  revert start. induction count as [|c IH]; intros start; simpl.
  - intros H. inversion H.
  - intros H. apply elem_of_cons in H as [-> | H]; [lia|].
    apply IH in H. lia.
Qed.

(** ** Opportunity Generator *)

Lemma add_days_Ok (dt : datetime) (k : Z) :
  1 <= dt_date dt + k <= MAXORDINAL -> 1 <= dt_date dt <= MAXORDINAL ->
  add_days dt k
  = Ok {| dt_date := dt_date dt + k; dt_micro := dt_micro dt; dt_offset := dt_offset dt |}.
Proof.
  unfold add_days, MAXORDINAL, MAX_DELTA_DAYS. intros H1 H2.
  destruct (Z.leb_spec (Z.abs k) 999999999); [|lia].
  destruct (Z.leb_spec 1 (dt_date dt + k)); [|lia].
  destruct (Z.leb_spec (dt_date dt + k) 3652059); [|lia].
  reflexivity.
Qed.

Lemma add_days_inv (dt dt' : datetime) (k : Z) :
  add_days dt k = Ok dt' ->
  dt_date dt' = dt_date dt + k /\ 1 <= dt_date dt + k <= MAXORDINAL.
Proof.
  unfold add_days, MAXORDINAL.
  destruct (Z.abs k <=? MAX_DELTA_DAYS); [|discriminate].
  destruct (Z.leb_spec 1 (dt_date dt + k)); [|discriminate].
  destruct (Z.leb_spec (dt_date dt + k) 3652059); [|discriminate].
  simpl. intros [= <-]. simpl. lia.
Qed.

Lemma add_days_Raise (dt : datetime) (k : Z) (e : exn) :
  add_days dt k = Raise e -> e = OverflowError.
Proof.
  unfold add_days.
  destruct (Z.abs k <=? MAX_DELTA_DAYS); [|congruence].
  destruct ((1 <=? dt_date dt + k) && (dt_date dt + k <=? MAXORDINAL)); congruence.
Qed.

Lemma opportunity_Ok (clock : instant) (keywords_str region : string) (i : Z) (r : dict) :
  opportunity clock keywords_str region i = Ok r ->
  r = opportunity_on (today clock + (90 + i * 15)) keywords_str region i
  /\ 1 <= today clock + (90 + i * 15) <= MAXORDINAL.
Proof.
  unfold opportunity.
  destruct (add_days (datetime_now clock) (90 + i * 15)) as [due|e] eqn:Hdue;
    simpl; [|discriminate].
  apply add_days_inv in Hdue as [Hdate Hrange]. simpl in Hdate, Hrange.
  intros [= <-]. rewrite Hdate. split; [reflexivity | assumption].
Qed.

Lemma opportunity_total (clock : instant) (keywords_str region : string) (i : Z) :
  1 <= today clock <= MAXORDINAL ->
  1 <= today clock + (90 + i * 15) <= MAXORDINAL ->
  opportunity clock keywords_str region i
  = Ok (opportunity_on (today clock + (90 + i * 15)) keywords_str region i).
Proof.
  intros Htoday Hdue. unfold opportunity.
  rewrite add_days_Ok by (simpl; assumption). reflexivity.
Qed.

Lemma grant_search_Raise (clock : instant) (kws : list string) (region : string)
    (max_results : Z) (e : exn) :
  grant_search clock kws region max_results = Raise e -> e = OverflowError.
Proof.
  unfold grant_search. intros H.
  apply for_each_Raise in H as (i & _ & Hi).
  unfold opportunity in Hi.
  destruct (add_days (datetime_now clock) (90 + i * 15)) as [due|e'] eqn:Hdue;
    simpl in Hi; [discriminate|].
  injection Hi as <-. eapply add_days_Raise, Hdue.
Qed.

Lemma grant_search_Ok_inv (clock : instant) (kws : list string) (region : string)
    (max_results : Z) (records : list dict) :
  grant_search clock kws region max_results = Ok records ->
  Z.of_nat (length records) = Z.max 1 max_results
  /\ forall i : nat, (i < length records)%nat ->
       1 <= today clock + (90 + Z.of_nat i * 15) <= MAXORDINAL
       /\ records !! i
          = Some (opportunity_on (today clock + (90 + Z.of_nat i * 15))
                    (keywords_text kws) region (Z.of_nat i)).
Proof.
  unfold grant_search. intros H.
  pose proof (for_each_length _ _ _ H) as Hlen.
  unfold range in Hlen. rewrite range_from_length in Hlen.
  split; [lia|].
  intros i Hi. apply for_each_Ok in H.
  destruct (lookup_lt_is_Some_2 records i Hi) as [r Hr].
  destruct (Forall2_lookup_r _ _ _ _ _ H Hr) as (x & Hx & Hfx).
  unfold range in Hx. rewrite range_from_lookup in Hx by lia.
  injection Hx as <-. rewrite Z.add_0_l in Hfx.
  apply opportunity_Ok in Hfx as [-> Hrange].
  split; [assumption | exact Hr].
Qed.

Lemma grant_search_total (clock : instant) (kws : list string) (region : string)
    (max_results : Z) :
  1 <= today clock <= MAXORDINAL ->
  today clock + 90 + 15 * (Z.max 1 max_results - 1) <= MAXORDINAL ->
  exists records, grant_search clock kws region max_results = Ok records.
Proof.
  intros Htoday Hlast. unfold grant_search.
  apply for_each_total, Forall_forall. intros i Hi.
  apply range_from_elem in Hi.
  eexists. apply opportunity_total; [assumption | lia].
Qed.

(** C4, as stated, fails: on 2025-01-01 a request for 200000 records
    returns no list but raises [OverflowError], because the deadline of
    position 194182 would fall after 9999-12-31, the last day a [datetime]
    can hold. *)
Lemma grant_search_count_counterexample :
  let clock := {| today := 739252; micro_of_day := 0 |} in
  grant_search clock [] "NY, USA" 200000 = Raise OverflowError
  /\ ~ (exists records, grant_search clock [] "NY, USA" 200000 = Ok records
                        /\ Z.of_nat (length records) = 200000).
Proof.
  intros clock.
  assert (Hno : forall records, grant_search clock [] "NY, USA" 200000 <> Ok records).
  { intros records H. apply grant_search_Ok_inv in H as [Hlen Hpos].
    destruct (Hpos (Z.to_nat 199999)) as [Hrange _]; [lia|].
    rewrite Z2Nat.id in Hrange by lia. unfold MAXORDINAL in Hrange. simpl in Hrange. lia. }
  split.
  - destruct (grant_search clock [] "NY, USA" 200000) as [records|e] eqn:H.
    + exfalso. eapply Hno. reflexivity.
    + f_equal. eapply grant_search_Raise, H.
  - intros (records & H & _). eapply Hno, H.
Qed.

(** C4, amended: for every keyword list, region and integer
    [max_results], when the deadline of the last position,
    [today + 90 + 15 * (max(1, max_results) - 1)] days, is no later than
    9999-12-31, the generator returns exactly [max(1, max_results)]
    records: [max_results] of them when [max_results >= 1] and one when
    [max_results <= 0]; beyond that it raises [OverflowError]. *)
Theorem grant_search_count (clock : instant) (kws : list string) (region : string)
    (max_results : Z) :
  1 <= today clock <= MAXORDINAL ->
  (today clock + 90 + 15 * (Z.max 1 max_results - 1) <= MAXORDINAL ->
   exists records,
     grant_search clock kws region max_results = Ok records
     /\ Z.of_nat (length records) = Z.max 1 max_results
     /\ (1 <= max_results -> Z.of_nat (length records) = max_results)
     /\ (max_results <= 0 -> length records = 1%nat))
  /\ (MAXORDINAL < today clock + 90 + 15 * (Z.max 1 max_results - 1) ->
      grant_search clock kws region max_results = Raise OverflowError).
Proof.
  intros Htoday. split.
  - intros Hlast.
    destruct (grant_search_total clock kws region max_results Htoday Hlast)
      as [records H].
    exists records. split; [assumption|].
    apply grant_search_Ok_inv in H as [Hlen _].
    repeat split; lia.
  - intros Hlast.
    destruct (grant_search clock kws region max_results) as [records|e] eqn:H.
    + exfalso. apply grant_search_Ok_inv in H as [Hlen Hpos].
      destruct (Hpos (Z.to_nat (Z.max 1 max_results - 1))) as [Hrange _]; [lia|].
      rewrite Z2Nat.id in Hrange by lia. lia.
    + f_equal. eapply grant_search_Raise, H.
Qed.

Lemma grant_search_count_witness :
  let clock := {| today := 739252; micro_of_day := 0 |} in
  (exists records, grant_search clock ["women leadership"%string] "NY, USA" 5 = Ok records
                   /\ length records = 5%nat)
  /\ (exists records, grant_search clock [] "NY, USA" (-2) = Ok records
                      /\ length records = 1%nat).
Proof.
  intros clock.
  assert (Htoday : 1 <= today clock <= MAXORDINAL) by (vm_compute; split; discriminate).
  split.
  - destruct (grant_search_count clock ["women leadership"%string] "NY, USA" 5 Htoday)
      as [Hok _].
    destruct Hok as (records & H & _ & Hn & _); [vm_compute; discriminate|].
    exists records. split; [assumption|]. specialize (Hn ltac:(lia)). lia.
  - destruct (grant_search_count clock [] "NY, USA" (-2) Htoday) as [Hok _].
    destruct Hok as (records & H & _ & _ & H1); [vm_compute; discriminate|].
    exists records. split; [assumption|]. apply H1. lia.
Defined.

(** ** Calendar *)

Lemma days_increase_spec (count : nat) :
  forall ordinal : Z,
    days_increase count ordinal (date_code ordinal) = true ->
    forall n : Z, ordinal <= n < ordinal + Z.of_nat count ->
      cycle_fields_ok (n + 1) = true /\ date_code n < date_code (n + 1).
Proof.
  induction count as [|c IH]; intros ordinal H n Hn; [lia|].
  cbn [days_increase] in H.
  apply andb_true_iff in H as [H Hrest]. apply andb_true_iff in H as [Hfields Hlt].
  destruct (Z.eq_dec n ordinal) as [->|Hne].
  - split; [assumption | lia].
  - apply (IH (ordinal + 1) Hrest). lia.
Qed.

Lemma cycle_days :
  forall n : Z, 1 <= n <= 146097 ->
    cycle_fields_ok n = true /\ (n < 146097 -> date_code n < date_code (n + 1)).
Proof.
  assert (H : days_increase (Z.to_nat 146096) 1 (date_code 1) = true)
    by (vm_cast_no_check (eq_refl true)).
  intros n Hn. split.
  - destruct (Z.eq_dec n 1) as [->|Hne]; [reflexivity|].
    replace n with (n - 1 + 1) by lia.
    apply (days_increase_spec _ _ H). lia.
  - intros Hlt. apply (days_increase_spec _ _ H). lia.
Qed.

Lemma ord2ymd_cycle (q r : Z) :
  0 <= r < 146097 ->
  ord2ymd (146097 * q + r + 1)
  = (let '(y, m, d) := ord2ymd (r + 1) in (y + 400 * q, m, d)).
Proof.
  intros Hr. unfold ord2ymd.
  replace (146097 * q + r + 1 - 1) with (r + q * 146097) by lia.
  replace (r + 1 - 1) with r by lia.
  rewrite Z.div_add, Z.mod_add by lia.
  rewrite (Z.div_small r 146097), (Z.mod_small r 146097) by lia.
  cbv zeta.
  repeat match goal with
         | |- context [if ?c then _ else _] => destruct c
         end; f_equal; try f_equal; lia.
Qed.

Lemma date_code_cycle (q r : Z) :
  0 <= r < 146097 ->
  date_code (146097 * q + r + 1) = date_code (r + 1) + 4000000 * q.
Proof.
  intros Hr. unfold date_code. rewrite ord2ymd_cycle by assumption.
  destruct (ord2ymd (r + 1)) as [[y m] d]. lia.
Qed.

Lemma date_code_succ (n : Z) : 1 <= n -> date_code n < date_code (n + 1).
Proof.
  intros Hn.
  pose proof (Z.div_mod (n - 1) 146097 ltac:(lia)) as Hdiv.
  pose proof (Z.mod_pos_bound (n - 1) 146097 ltac:(lia)) as Hmod.
  set (q := (n - 1) / 146097) in *. set (r := (n - 1) mod 146097) in *.
  replace n with (146097 * q + r + 1) by lia.
  rewrite date_code_cycle by lia.
  destruct (Z.eq_dec r 146096) as [Hlast|Hnot].
  - replace (146097 * q + r + 1 + 1) with (146097 * (q + 1) + 0 + 1) by lia.
    rewrite date_code_cycle by lia. rewrite Hlast.
    change (date_code (146096 + 1)) with 4001231.
    change (date_code (0 + 1)) with 10101. lia.
  - replace (146097 * q + r + 1 + 1) with (146097 * q + (r + 1) + 1) by lia.
    rewrite date_code_cycle by lia.
    destruct (cycle_days (r + 1)) as [_ Hlt]; [lia|].
    specialize (Hlt ltac:(lia)). lia.
Qed.

Lemma date_code_lt (a b : Z) : 1 <= a < b -> date_code a < date_code b.
Proof.
  intros [Ha Hab].
  replace b with (a + 1 + Z.of_nat (Z.to_nat (b - a - 1))) by lia.
  induction (Z.to_nat (b - a - 1)) as [|k IH].
  - rewrite Z.add_0_r. apply date_code_succ, Ha.
  - etransitivity; [exact IH|].
    replace (a + 1 + Z.of_nat (S k)) with (a + 1 + Z.of_nat k + 1) by lia.
    apply date_code_succ. lia.
Qed.

(** The fields of a date between 0001-01-01 and 9999-12-31. *)
Lemma ord2ymd_fields (n : Z) :
  1 <= n <= MAXORDINAL ->
  let '(y, m, d) := ord2ymd n in
  1 <= y <= 9999 /\ 1 <= m <= 12 /\ 1 <= d <= 31.
Proof.
  intros Hn.
  assert (Hcode : date_code n <= 99991231).
  { destruct (Z.eq_dec n MAXORDINAL) as [->|Hne]; [vm_compute; discriminate|].
    change 99991231 with (date_code MAXORDINAL).
    apply Z.lt_le_incl, date_code_lt. lia. }
  revert Hcode.
  pose proof (Z.div_mod (n - 1) 146097 ltac:(lia)) as Hdiv.
  pose proof (Z.mod_pos_bound (n - 1) 146097 ltac:(lia)) as Hmod.
  set (q := (n - 1) / 146097) in *. set (r := (n - 1) mod 146097) in *.
  assert (Hq : 0 <= q) by (apply Z.div_pos; lia).
  replace n with (146097 * q + r + 1) by lia.
  unfold date_code. rewrite ord2ymd_cycle by lia.
  destruct (cycle_days (r + 1)) as [Hfields _]; [lia|].
  unfold cycle_fields_ok in Hfields.
  destruct (ord2ymd (r + 1)) as [[y m] d].
  repeat (apply andb_true_iff in Hfields as [Hfields ?]).
  intros Hcode. lia.
Qed.

(** ** Order of texts of equal length *)

Lemma nat_of_ascii_bound (c : ascii) : (nat_of_ascii c < 256)%nat.
Proof. destruct c as [[] [] [] [] [] [] [] []]; vm_compute; lia. Qed.

Lemma str_value_bound (s : string) : 0 <= str_value s < 256 ^ Z.of_nat (String.length s).
Proof.
  induction s as [|c s IH]; [simpl; lia|].
  cbn [str_value String.length]. rewrite Nat2Z.inj_succ, Z.pow_succ_r by lia.
  pose proof (nat_of_ascii_bound c). nia.
Qed.

Lemma str_ltb_value (s t : string) :
  String.length s = String.length t -> str_ltb s t = (str_value s <? str_value t).
Proof.
  revert t. induction s as [|a s IH]; intros [|b t] Hlen; try discriminate.
  - reflexivity.
  - cbn [String.length] in Hlen. injection Hlen as Hlen.
    cbn [str_ltb str_value]. rewrite <- Hlen.
    pose proof (str_value_bound s) as Hs. pose proof (str_value_bound t) as Ht.
    rewrite <- Hlen in Ht. rewrite (IH t Hlen).
    set (w := 256 ^ Z.of_nat (String.length s)) in *.
    destruct (Nat.ltb_spec (nat_of_ascii a) (nat_of_ascii b)) as [Hab|Hab].
    + symmetry. apply Z.ltb_lt. nia.
    + destruct (Nat.ltb_spec (nat_of_ascii b) (nat_of_ascii a)) as [Hba|Hba].
      * symmetry. apply Z.ltb_ge. nia.
      * replace (nat_of_ascii b) with (nat_of_ascii a) by lia.
        destruct (Z.ltb_spec (str_value s) (str_value t));
          symmetry; [apply Z.ltb_lt | apply Z.ltb_ge]; nia.
Qed.

Lemma length_append (a b : string) :
  String.length (a ++ b) = (String.length a + String.length b)%nat.
Proof.
  induction a as [|c a IH]; [reflexivity|].
  change (String c a ++ b)%string with (String c (a ++ b)).
  cbn [String.length]. rewrite IH. reflexivity.
Qed.

Lemma str_value_append (a b : string) :
  str_value (a ++ b) = str_value a * 256 ^ Z.of_nat (String.length b) + str_value b.
Proof.
  induction a as [|c a IH]; [reflexivity|].
  change (String c a ++ b)%string with (String c (a ++ b)).
  cbn [str_value]. rewrite IH, length_append, Nat2Z.inj_add, Z.pow_add_r by lia. lia.
Qed.

Lemma increasing_from_spec (f : Z -> Z) (count : nat) :
  forall x : Z,
    increasing_from f count x (f x) = true ->
    forall a b : Z, x <= a < b -> b <= x + Z.of_nat count -> f a < f b.
Proof.
  induction count as [|c IH]; intros x H a b Hab Hb; [lia|].
  cbn [increasing_from] in H. apply andb_true_iff in H as [Hstep Hrest].
  apply Z.ltb_lt in Hstep.
  destruct (Z.eq_dec a x) as [->|Hne].
  - destruct (Z.eq_dec b (x + 1)) as [->|Hnb]; [assumption|].
    etransitivity; [exact Hstep|]. apply (IH (x + 1) Hrest); lia.
  - apply (IH (x + 1) Hrest); lia.
Qed.

Lemma forallb_range_from (p : Z -> bool) (start : Z) (count : nat) :
  forallb p (range_from start count) = true ->
  forall x : Z, start <= x < start + Z.of_nat count -> p x = true.
Proof.
  intros H x Hx. rewrite forallb_forall in H. apply H.
  apply list_elem_of_In, list_elem_of_lookup. exists (Z.to_nat (x - start)).
  rewrite range_from_lookup by lia. f_equal. lia.
Qed.

(** ** Zero-padded numbers *)

Lemma zero_pad4_length (v : Z) : 0 <= v <= 9999 -> String.length (zero_pad 4 v) = 4%nat.
Proof.
  intros Hv.
  assert (H : forallb (fun x => (String.length (zero_pad 4 x) =? 4)%nat)
                      (range_from 0 (Z.to_nat 10000)) = true)
    by (vm_cast_no_check (eq_refl true)).
  apply Nat.eqb_eq, (forallb_range_from _ _ _ H). lia.
Qed.

Lemma zero_pad2_length (v : Z) : 0 <= v <= 99 -> String.length (zero_pad 2 v) = 2%nat.
Proof.
  intros Hv.
  assert (H : forallb (fun x => (String.length (zero_pad 2 x) =? 2)%nat)
                      (range_from 0 (Z.to_nat 100)) = true)
    by (vm_cast_no_check (eq_refl true)).
  apply Nat.eqb_eq, (forallb_range_from _ _ _ H). lia.
Qed.

Lemma zero_pad4_lt (v w : Z) :
  0 <= v < w -> w <= 9999 -> str_value (zero_pad 4 v) < str_value (zero_pad 4 w).
Proof.
  intros Hv Hw.
  assert (H : increasing_from (fun x => str_value (zero_pad 4 x)) (Z.to_nat 9999) 0
                (str_value (zero_pad 4 0)) = true)
    by (vm_cast_no_check (eq_refl true)).
  apply (increasing_from_spec _ _ _ H); lia.
Qed.

Lemma zero_pad2_lt (v w : Z) :
  0 <= v < w -> w <= 99 -> str_value (zero_pad 2 v) < str_value (zero_pad 2 w).
Proof.
  intros Hv Hw.
  assert (H : increasing_from (fun x => str_value (zero_pad 2 x)) (Z.to_nat 99) 0
                (str_value (zero_pad 2 0)) = true)
    by (vm_cast_no_check (eq_refl true)).
  apply (increasing_from_spec _ _ _ H); lia.
Qed.

(** ** ISO dates *)

Lemma isoformat_length (n : Z) :
  1 <= n <= MAXORDINAL -> String.length (isoformat n) = 10%nat.
Proof.
  intros Hn. pose proof (ord2ymd_fields n Hn) as Hf. unfold isoformat.
  destruct (ord2ymd n) as [[y m] d]. destruct Hf as (Hy & Hm & Hd).
  rewrite !length_append, zero_pad4_length, !zero_pad2_length by lia. reflexivity.
Qed.

Lemma isoformat_value (n : Z) :
  1 <= n <= MAXORDINAL ->
  let '(y, m, d) := ord2ymd n in
  str_value (isoformat n)
  = str_value (zero_pad 4 y) * 256 ^ 6 + 45 * 256 ^ 5
    + str_value (zero_pad 2 m) * 256 ^ 3 + 45 * 256 ^ 2 + str_value (zero_pad 2 d).
Proof.
  intros Hn. pose proof (ord2ymd_fields n Hn) as Hf. unfold isoformat.
  destruct (ord2ymd n) as [[y m] d]. destruct Hf as (Hy & Hm & Hd).
  rewrite !str_value_append, !length_append, !zero_pad2_length by lia.
  change (String.length "-") with 1%nat. change (str_value "-") with 45.
  change (Z.of_nat (2 + (1 + 2))) with 5. change (Z.of_nat (1 + (2 + (1 + 2)))) with 6.
  change (Z.of_nat (1 + 2)) with 3. change (Z.of_nat 2) with 2. lia.
Qed.

(** ISO texts of dates compare like the dates. *)
Lemma isoformat_lt (a b : Z) :
  1 <= a < b -> b <= MAXORDINAL -> str_ltb (isoformat a) (isoformat b) = true.
Proof.
  intros Hab Hb.
  rewrite str_ltb_value by (rewrite !isoformat_length by lia; reflexivity).
  apply Z.ltb_lt.
  pose proof (date_code_lt a b Hab) as Hcode. unfold date_code in Hcode.
  pose proof (isoformat_value a ltac:(lia)) as Ha.
  pose proof (isoformat_value b ltac:(lia)) as Hvb.
  pose proof (ord2ymd_fields a ltac:(lia)) as Hfa.
  pose proof (ord2ymd_fields b ltac:(lia)) as Hfb.
  destruct (ord2ymd a) as [[ya ma] da]. destruct (ord2ymd b) as [[yb mb] db].
  destruct Hfa as (Hya & Hma & Hda). destruct Hfb as (Hyb & Hmb & Hdb).
  rewrite Ha, Hvb.
  pose proof (str_value_bound (zero_pad 2 ma)) as Bma.
  pose proof (str_value_bound (zero_pad 2 da)) as Bda.
  pose proof (str_value_bound (zero_pad 2 mb)) as Bmb.
  pose proof (str_value_bound (zero_pad 2 db)) as Bdb.
  rewrite zero_pad2_length in Bma, Bda, Bmb, Bdb by lia.
  change (256 ^ Z.of_nat 2) with 65536 in *.
  change (256 ^ 6) with 281474976710656. change (256 ^ 5) with 1099511627776.
  change (256 ^ 3) with 16777216. change (256 ^ 2) with 65536.
  destruct (Z.lt_trichotomy ya yb) as [Hy | [Hy | Hy]]; [|subst yb|lia].
  - pose proof (zero_pad4_lt ya yb ltac:(lia) ltac:(lia)). lia.
  - destruct (Z.lt_trichotomy ma mb) as [Hm | [Hm | Hm]]; [|subst mb|lia].
    + pose proof (zero_pad2_lt ma mb ltac:(lia) ltac:(lia)). lia.
    + pose proof (zero_pad2_lt da db ltac:(lia) ltac:(lia)). lia.
Qed.

Lemma opportunity_on_fields (due : Z) (keywords_str region : string) (i : Z) :
  opportunity_on due keywords_str region i !! "award_size_min" = Some (VInt (5000 + i * 1000))
  /\ opportunity_on due keywords_str region i !! "award_size_max"
     = Some (VInt (25000 + i * 2000))
  /\ opportunity_on due keywords_str region i !! "deadline" = Some (VStr (isoformat due)).
Proof. repeat split. Qed.

(** C5: in every list the Opportunity Generator returns, the record at
    position [i] has [award_size_min = 5000 + 1000 i],
    [award_size_max = 25000 + 2000 i] and, as its deadline, the ISO text of
    the day [today + (90 + 15 i)]; so from one position to a later one the
    minimum, the ceiling and the deadline strictly increase, the deadline
    both as a day and as the text the record holds (texts compared the way
    Python compares strings). *)
Theorem grant_search_positions (clock : instant) (kws : list string) (region : string)
    (max_results : Z) (records : list dict) :
  grant_search clock kws region max_results = Ok records ->
  (forall (i : nat) (r : dict), records !! i = Some r ->
     r !! "award_size_min" = Some (VInt (5000 + 1000 * Z.of_nat i))
     /\ r !! "award_size_max" = Some (VInt (25000 + 2000 * Z.of_nat i))
     /\ r !! "deadline" = Some (VStr (isoformat (today clock + (90 + 15 * Z.of_nat i)))))
  /\ (forall (i j : nat) (ri rj : dict),
        (i < j)%nat -> records !! i = Some ri -> records !! j = Some rj ->
        exists lo_i lo_j hi_i hi_j day_i day_j : Z,
          ri !! "award_size_min" = Some (VInt lo_i)
          /\ rj !! "award_size_min" = Some (VInt lo_j)
          /\ ri !! "award_size_max" = Some (VInt hi_i)
          /\ rj !! "award_size_max" = Some (VInt hi_j)
          /\ ri !! "deadline" = Some (VStr (isoformat day_i))
          /\ rj !! "deadline" = Some (VStr (isoformat day_j))
          /\ lo_i < lo_j /\ hi_i < hi_j /\ day_i < day_j
          /\ str_ltb (isoformat day_i) (isoformat day_j) = true).
Proof.
  intros H. apply grant_search_Ok_inv in H as [_ Hpos].
  assert (Hfields : forall (i : nat) (r : dict), records !! i = Some r ->
     1 <= today clock + (90 + 15 * Z.of_nat i) <= MAXORDINAL
     /\ r !! "award_size_min" = Some (VInt (5000 + 1000 * Z.of_nat i))
     /\ r !! "award_size_max" = Some (VInt (25000 + 2000 * Z.of_nat i))
     /\ r !! "deadline" = Some (VStr (isoformat (today clock + (90 + 15 * Z.of_nat i))))).
  { intros i r Hr.
    destruct (Hpos i) as [Hrange Hi]; [eapply lookup_lt_Some, Hr|].
    rewrite Hr in Hi. injection Hi as ->.
    replace (1000 * Z.of_nat i) with (Z.of_nat i * 1000) by lia.
    replace (2000 * Z.of_nat i) with (Z.of_nat i * 2000) by lia.
    replace (15 * Z.of_nat i) with (Z.of_nat i * 15) by lia.
    split; [assumption | apply opportunity_on_fields]. }
  split; [intros i r Hr; apply (Hfields i r Hr)|].
  intros i j ri rj Hij Hi Hj.
  destruct (Hfields i ri Hi) as (Hrange_i & Hlo_i & Hhi_i & Hday_i).
  destruct (Hfields j rj Hj) as (Hrange_j & Hlo_j & Hhi_j & Hday_j).
  do 6 eexists.
  do 6 (split; [eassumption|]).
  split; [lia|]. split; [lia|]. split; [lia|].
  apply isoformat_lt; lia.
Qed.

Lemma grant_search_positions_witness :
  exists r : dict,
    mock_opportunities !! 2%nat = Some r
    /\ r !! "award_size_min" = Some (VInt 7000)
    /\ r !! "award_size_max" = Some (VInt 29000)
    /\ r !! "deadline" = Some (VStr "2025-05-01").
Proof.
  assert (H : grant_search mock_clock [] "NY, USA" 3 = Ok mock_opportunities)
    by (vm_cast_no_check (eq_refl (Ok mock_opportunities))).
  eexists. split; [reflexivity|].
  exact (proj1 (grant_search_positions mock_clock [] "NY, USA" 3 mock_opportunities H)
           2%nat _ eq_refl).
Defined.

(** ** The order of floats *)

Lemma SFcompare_rank (x y : spec_float) :
  x <> S754_nan -> y <> S754_nan ->
  SFcompare x y = Some (lex3 (sf_rank x) (sf_rank y)).
Proof.
  intros Hx Hy.
  destruct x as [sx|sx| |sx mx ex], y as [sy|sy| |sy my ey]; try congruence;
    try (destruct sx; reflexivity); try (destruct sy; reflexivity);
    try (destruct sx, sy; reflexivity).
  destruct sx, sy; try reflexivity; simpl.
  rewrite Z.compare_opp, (Z.compare_antisym ex ey).
  destruct (ex ?= ey); reflexivity.
Qed.

Lemma lex3_refl (a : Z * Z * Z) : lex3 a a = Eq.
Proof. destruct a as [[a1 a2] a3]. simpl. rewrite !Z.compare_refl. reflexivity. Qed.

Lemma lex3_antisym (a b : Z * Z * Z) : lex3 b a = CompOpp (lex3 a b).
Proof.
  destruct a as [[a1 a2] a3], b as [[b1 b2] b3]. simpl.
  rewrite (Z.compare_antisym a1 b1), (Z.compare_antisym a2 b2), (Z.compare_antisym a3 b3).
  destruct (a1 ?= b1), (a2 ?= b2), (a3 ?= b3); reflexivity.
Qed.

Lemma lex3_trans (a b c : Z * Z * Z) :
  lex3 a b <> Gt -> lex3 b c <> Gt ->
  lex3 a c <> Gt /\ (lex3 a c = Eq -> lex3 a b = Eq /\ lex3 b c = Eq).
Proof.
  destruct a as [[a1 a2] a3], b as [[b1 b2] b3], c as [[c1 c2] c3]. simpl.
  destruct (Z.compare_spec a1 b1), (Z.compare_spec b1 c1), (Z.compare_spec a1 c1);
    try lia; try lex3_close;
  destruct (Z.compare_spec a2 b2), (Z.compare_spec b2 c2), (Z.compare_spec a2 c2);
    try lia; try lex3_close;
  destruct (Z.compare_spec a3 b3), (Z.compare_spec b3 c3), (Z.compare_spec a3 c3);
    try lia; lex3_close.
Qed.

Lemma is_nan_false (x : float) : is_nan x = false <-> Prim2SF x <> S754_nan.
Proof.
  unfold is_nan. rewrite FloatAxioms.eqb_spec. unfold SFeqb. split.
  - intros H Hnan. rewrite Hnan in H. discriminate.
  - intros H. rewrite SFcompare_rank, lex3_refl by assumption. reflexivity.
Qed.

Lemma ltb_fcmp (x y : float) :
  is_nan x = false -> is_nan y = false ->
  PrimFloat.ltb x y = match fcmp x y with Lt => true | _ => false end.
Proof.
  intros Hx%is_nan_false Hy%is_nan_false.
  rewrite FloatAxioms.ltb_spec. unfold SFltb. rewrite SFcompare_rank by assumption. reflexivity.
Qed.

Lemma leb_fcmp (x y : float) :
  is_nan x = false -> is_nan y = false ->
  PrimFloat.leb x y = match fcmp x y with Gt => false | _ => true end.
Proof.
  intros Hx%is_nan_false Hy%is_nan_false.
  rewrite FloatAxioms.leb_spec. unfold SFleb. rewrite SFcompare_rank by assumption.
  unfold fcmp. destruct (lex3 _ _); reflexivity.
Qed.

Lemma eqb_fcmp (x y : float) :
  is_nan x = false -> is_nan y = false ->
  PrimFloat.eqb x y = match fcmp x y with Eq => true | _ => false end.
Proof.
  intros Hx%is_nan_false Hy%is_nan_false.
  rewrite FloatAxioms.eqb_spec. unfold SFeqb. rewrite SFcompare_rank by assumption. reflexivity.
Qed.

Lemma SFcompare_Some (x y : spec_float) (c : comparison) :
  SFcompare x y = Some c -> x <> S754_nan /\ y <> S754_nan.
Proof. destruct x, y; simpl; intros H; split; congruence. Qed.

Lemma ltb_true_not_nan (x y : float) :
  PrimFloat.ltb x y = true -> is_nan x = false /\ is_nan y = false.
Proof.
  rewrite FloatAxioms.ltb_spec, !is_nan_false. unfold SFltb.
  destruct (SFcompare _ _) as [c|] eqn:E; [|discriminate].
  intros _. eapply SFcompare_Some, E.
Qed.

Lemma leb_true_not_nan (x y : float) :
  PrimFloat.leb x y = true -> is_nan x = false /\ is_nan y = false.
Proof.
  rewrite FloatAxioms.leb_spec, !is_nan_false. unfold SFleb.
  destruct (SFcompare _ _) as [c|] eqn:E; [|discriminate].
  intros _. eapply SFcompare_Some, E.
Qed.

Lemma eqb_true_not_nan (x y : float) :
  PrimFloat.eqb x y = true -> is_nan x = false /\ is_nan y = false.
Proof.
  rewrite FloatAxioms.eqb_spec, !is_nan_false. unfold SFeqb.
  destruct (SFcompare _ _) as [c|] eqn:E; [|discriminate].
  intros _. eapply SFcompare_Some, E.
Qed.

Lemma float_nlt_ge (x y : float) :
  is_nan x = false -> is_nan y = false ->
  PrimFloat.ltb x y = false -> PrimFloat.leb y x = true.
Proof.
  intros Hx Hy. rewrite ltb_fcmp, leb_fcmp by assumption.
  unfold fcmp. rewrite (lex3_antisym (sf_rank (Prim2SF x))).
  destruct (lex3 _ _); simpl; congruence.
Qed.

Lemma float_lt_le (x y : float) :
  PrimFloat.ltb x y = true -> PrimFloat.leb x y = true.
Proof.
  intros H. destruct (ltb_true_not_nan x y H) as [Hx Hy]. revert H.
  rewrite ltb_fcmp, leb_fcmp by assumption.
  destruct (fcmp x y); congruence.
Qed.

Lemma float_le_trans (x y z : float) :
  PrimFloat.leb x y = true -> PrimFloat.leb y z = true -> PrimFloat.leb x z = true.
Proof.
  intros H1 H2. destruct (leb_true_not_nan x y H1) as [Hx Hy].
  destruct (leb_true_not_nan y z H2) as [_ Hz]. revert H1 H2.
  rewrite !leb_fcmp by assumption. unfold fcmp.
  set (rx := sf_rank (Prim2SF x)). set (ry := sf_rank (Prim2SF y)).
  set (rz := sf_rank (Prim2SF z)).
  intros Hxy Hyz.
  destruct (lex3_trans rx ry rz) as [Hxz _].
  - intros E. rewrite E in Hxy. discriminate.
  - intros E. rewrite E in Hyz. discriminate.
  - destruct (lex3 rx rz); congruence.
Qed.

(** Two keys equal to a third are not strictly ordered. *)
Lemma float_eq_not_lt (x y k : float) :
  PrimFloat.eqb x k = true -> PrimFloat.eqb y k = true -> PrimFloat.ltb x y = false.
Proof.
  intros H1 H2. destruct (eqb_true_not_nan x k H1) as [Hx Hk].
  destruct (eqb_true_not_nan y k H2) as [Hy _]. revert H1 H2.
  rewrite !eqb_fcmp, ltb_fcmp by assumption. unfold fcmp.
  set (rx := sf_rank (Prim2SF x)). set (ry := sf_rank (Prim2SF y)).
  set (rk := sf_rank (Prim2SF k)).
  intros Hxk Hyk.
  assert (Exk : lex3 rx rk = Eq) by (destruct (lex3 rx rk); congruence).
  assert (Eyk : lex3 ry rk = Eq) by (destruct (lex3 ry rk); congruence).
  destruct (lex3_trans ry rk rx) as [Hyx _].
  - congruence.
  - rewrite (lex3_antisym rx rk), Exk. discriminate.
  - rewrite (lex3_antisym rx ry) in Hyx.
    destruct (lex3 rx ry); simpl in Hyx; congruence.
Qed.

(** ** Stable descending sort *)

Section SortedDesc.
Context {A : Type} (key : A -> float).

Lemma insert_desc_perm (x : A) (l : list A) : insert_desc key x l ≡ₚ x :: l.
Proof.
  induction l as [|y l IH]; simpl; [reflexivity|].
  destruct (PrimFloat.ltb (key x) (key y)); [|reflexivity].
  rewrite IH. apply Permutation_swap.
Qed.

Lemma stable_desc_perm (l : list A) : stable_desc key l ≡ₚ l.
Proof.
  induction l as [|x l IH]; simpl; [reflexivity|].
  rewrite insert_desc_perm. f_equiv. exact IH.
Qed.

Lemma stable_desc_length (l : list A) : length (stable_desc key l) = length l.
Proof. apply Permutation_length, stable_desc_perm. Qed.

Let before (a b : A) : Prop := PrimFloat.leb (key b) (key a) = true.

Lemma insert_desc_sorted (x : A) (l : list A) :
  is_nan (key x) = false -> Forall (fun a => is_nan (key a) = false) l ->
  StronglySorted before l -> StronglySorted before (insert_desc key x l).
Proof.
  intros Hx Hl Hs. induction Hs as [|y l Hs IH Hy]; simpl.
  - repeat constructor.
  - inversion Hl as [|? ? Hny Hnl]; subst.
    destruct (PrimFloat.ltb (key x) (key y)) eqn:Hlt.
    + constructor; [apply IH, Hnl|].
      rewrite insert_desc_perm. constructor; [|exact Hy].
      apply float_lt_le, Hlt.
    + constructor; [constructor; assumption|].
      assert (Hyx : before x y) by (apply float_nlt_ge; assumption).
      constructor; [exact Hyx|].
      eapply Forall_impl; [exact Hy|]. intros z Hz. unfold before in *.
      eapply float_le_trans; eassumption.
Qed.

Lemma stable_desc_sorted (l : list A) :
  Forall (fun a => is_nan (key a) = false) l ->
  StronglySorted before (stable_desc key l).
Proof.
  induction 1 as [|x l Hx Hl IH]; simpl; [constructor|].
  apply insert_desc_sorted; [assumption | | assumption].
  rewrite stable_desc_perm. assumption.
Qed.

Lemma strongly_sorted_descending (l : list A) :
  StronglySorted before l -> descending key l.
Proof.
  intros Hs i j a b Hij Hi Hj.
  revert i j Hij Hi Hj. induction Hs as [|y l Hs IH Hy]; intros i j Hij Hi Hj.
  - rewrite lookup_nil in Hi. discriminate.
  - destruct j as [|j]; [lia|]. simpl in Hj.
    destruct i as [|i]; simpl in Hi.
    + injection Hi as ->. rewrite Forall_forall in Hy.
      apply Hy. eapply list_elem_of_lookup_2, Hj.
    + eapply IH; [|eassumption..]. lia.
Qed.

Lemma descending_take (n : nat) (l : list A) : descending key l -> descending key (take n l).
Proof.
  intros H i j a b Hij Hi Hj.
  apply lookup_take_Some in Hi as [Hi _]. apply lookup_take_Some in Hj as [Hj _].
  eapply H; eassumption.
Qed.

Lemma filter_insert_desc (k : float) (x : A) (l : list A) :
  List.filter (fun a => PrimFloat.eqb (key a) k) (insert_desc key x l)
  = List.filter (fun a => PrimFloat.eqb (key a) k) (x :: l).
Proof.
  induction l as [|y l IH]; [reflexivity|].
  cbn [insert_desc].
  destruct (PrimFloat.ltb (key x) (key y)) eqn:Hlt; [|reflexivity].
  cbn [List.filter] in *. rewrite IH.
  destruct (PrimFloat.eqb (key x) k) eqn:Ex, (PrimFloat.eqb (key y) k) eqn:Ey;
    try reflexivity.
  rewrite (float_eq_not_lt _ _ _ Ex Ey) in Hlt. discriminate.
Qed.

Lemma filter_stable_desc (k : float) (l : list A) :
  List.filter (fun a => PrimFloat.eqb (key a) k) (stable_desc key l)
  = List.filter (fun a => PrimFloat.eqb (key a) k) l.
Proof.
  induction l as [|x l IH]; [reflexivity|].
  cbn [stable_desc foldr]. rewrite filter_insert_desc.
  cbn [List.filter]. fold (stable_desc key l). rewrite IH. reflexivity.
Qed.

Lemma filter_take_prefix (p : A -> bool) (n : nat) (l : list A) :
  List.filter p (take n l) `prefix_of` List.filter p l.
Proof.
  rewrite <- (take_drop n l) at 2. rewrite List.filter_app.
  apply prefix_app_r. reflexivity.
Qed.

Lemma stable_desc_ties (n : nat) (l : list A) :
  ties_keep_order key (take n (stable_desc key l)) l.
Proof.
  intros k. rewrite <- (filter_stable_desc k l). apply filter_take_prefix.
Qed.

Lemma stable_desc_map {B : Type} (f : B -> A) (l : list B) :
  map f (stable_desc (fun b => key (f b)) l) = stable_desc key (map f l).
Proof.
  induction l as [|x l IH]; [reflexivity|].
  cbn [stable_desc foldr map].
  fold (stable_desc (fun b => key (f b)) l). fold (stable_desc key (map f l)).
  rewrite <- IH. generalize (stable_desc (fun b => key (f b)) l) as s.
  induction s as [|y s IHs]; [reflexivity|]. cbn [insert_desc map].
  destruct (PrimFloat.ltb (key (f x)) (key (f y))); [|reflexivity].
  cbn [map]. rewrite IHs. reflexivity.
Qed.
End SortedDesc.

(** ** The runtime's sort *)

Lemma omap_cons {A B : Type} (f : A -> option B) (x : A) (l : list A) :
  omap f (x :: l) = match f x with
                    | Some y => y :: omap f l
                    | None => omap f l
                    end.
Proof. reflexivity. Qed.

Lemma omap_lookup_shift {A : Type} (x : A) (l : list A) (positions : list nat) :
  omap (fun i => (x :: l) !! i) (map S positions) = omap (fun i => l !! i) positions.
Proof.
  induction positions as [|i positions IH]; [reflexivity|].
  cbn [map]. rewrite !omap_cons, IH. reflexivity.
Qed.

Lemma lookup_all_positions {A : Type} (l : list A) :
  omap (fun i => l !! i) (seq 0 (length l)) = l.
Proof.
  induction l as [|x l IH]; [reflexivity|].
  cbn [length seq]. rewrite omap_cons, <- seq_shift, omap_lookup_shift, IH. reflexivity.
Qed.

Section SortedByRuntime.
Context `{RT : Runtime} {A : Type} (key : A -> float).

Lemma sorted_desc_perm (l : list A) : sorted_desc key l ≡ₚ l.
Proof.
  unfold sorted_desc. rewrite sort_order_perm, length_map. rewrite lookup_all_positions.
  reflexivity.
Qed.

Lemma sorted_desc_length (l : list A) : length (sorted_desc key l) = length l.
Proof. apply Permutation_length, sorted_desc_perm. Qed.

Lemma sorted_desc_map {B : Type} (f : B -> A) (l : list B) :
  map f (sorted_desc (fun b => key (f b)) l) = sorted_desc key (map f l).
Proof.
  unfold sorted_desc. rewrite (map_map f key).
  generalize (sort_order (map (fun b => key (f b)) l)) as order.
  intros order. induction order as [|i order IH]; [reflexivity|].
  rewrite !omap_cons, list_lookup_fmap.
  destruct (l !! i) as [b|]; cbn [fmap option_fmap option_map map]; [f_equal|]; exact IH.
Qed.

(** Picking the elements at positions in stable order gives the elements
    in stable order. *)
Lemma stable_desc_positions (l : list A) (positions : list nat) :
  Forall (fun i => (i < length l)%nat) positions ->
  omap (fun i => l !! i)
    (stable_desc (fun i => default nan (map key l !! i)) positions)
  = stable_desc key (omap (fun i => l !! i) positions).
Proof.
  induction 1 as [|i positions Hi Hvalid IH]; [reflexivity|].
  destruct (lookup_lt_is_Some_2 l i Hi) as [x Hx].
  rewrite omap_cons, Hx. cbn [stable_desc foldr].
  fold (stable_desc (fun i => default nan (map key l !! i)) positions).
  fold (stable_desc key (omap (fun i => l !! i) positions)).
  rewrite <- IH.
  assert (Hs : Forall (fun i => (i < length l)%nat)
                 (stable_desc (fun i => default nan (map key l !! i)) positions))
    by (rewrite stable_desc_perm; exact Hvalid).
  revert Hs.
  generalize (stable_desc (fun i => default nan (map key l !! i)) positions) as s.
  set (kidx := fun i : nat => default nan (map key l !! i)).
  assert (Hkx : kidx i = key x).
  { unfold kidx. rewrite list_lookup_fmap, Hx. reflexivity. }
  intros s Hs. induction Hs as [|j s Hj Hs IHs]; cbn [insert_desc].
  - rewrite omap_cons, Hx. reflexivity.
  - destruct (lookup_lt_is_Some_2 l j Hj) as [y Hy].
    assert (Hky : kidx j = key y).
    { unfold kidx. rewrite list_lookup_fmap, Hy. reflexivity. }
    rewrite Hkx, Hky, (omap_cons _ j s), Hy. cbn [insert_desc].
    destruct (PrimFloat.ltb (key x) (key y)).
    + rewrite omap_cons, Hy, IHs. reflexivity.
    + rewrite !omap_cons, Hx, Hy. reflexivity.
Qed.

(** When no key is NaN the sort is the stable descending one. *)
Lemma sorted_desc_stable (l : list A) :
  Forall (fun a => is_nan (key a) = false) l -> sorted_desc key l = stable_desc key l.
Proof.
  intros Hnan. unfold sorted_desc. rewrite sort_order_stable.
  - unfold stable_order. rewrite length_map, stable_desc_positions.
    + rewrite lookup_all_positions. reflexivity.
    + apply Forall_forall. intros i Hi. apply elem_of_seq in Hi. lia.
  - apply forallb_forall. intros k Hk. apply in_map_iff in Hk as (a & <- & Ha).
    rewrite Forall_forall in Hnan. apply negb_true_iff, Hnan, list_elem_of_In, Ha.
Qed.
End SortedByRuntime.

Lemma slice_to_max0 {A : Type} (n : Z) (l : list A) :
  slice_to (Z.max 0 n) l = take (Z.to_nat (Z.max 0 n)) l.
Proof. unfold slice_to. destruct (Z.leb_spec 0 (Z.max 0 n)); [reflexivity | lia]. Qed.

(** ** Donor Scorer *)

Section DonorFacts.
Context `{RT : Runtime}.

Lemma apply_filters_subset {A : Type} (read : A -> dict)
    (industry_filter : option (list string)) (region : option string)
    (l : list A) (x : A) :
  x ∈ apply_filters read industry_filter region l -> x ∈ l.
Proof.
  unfold apply_filters. intros H.
  assert (Hsub : forall (p : A -> bool) (l' : list A), x ∈ List.filter p l' -> x ∈ l').
  { intros p l' Hx. apply list_elem_of_In in Hx. apply List.filter_In in Hx as [Hx _].
    apply list_elem_of_In, Hx. }
  destruct industry_filter as [[|n names]|], region as [[|c r]|];
    repeat (apply Hsub in H); exact H.
Qed.

Lemma apply_filters_length {A : Type} (read : A -> dict)
    (industry_filter : option (list string)) (region : option string) (l : list A) :
  (length (apply_filters read industry_filter region l) <= length l)%nat.
Proof.
  unfold apply_filters.
  assert (Hlen : forall (p : A -> bool) (l' : list A),
             (length (List.filter p l') <= length l')%nat).
  { intros p l'. induction l' as [|y l' IH]; simpl; [lia|]. destruct (p y); simpl; lia. }
  destruct industry_filter as [[|n names]|], region as [[|c r]|];
    repeat (etransitivity; [apply Hlen|]); lia.
Qed.

Lemma filter_map_read {A : Type} (read : A -> dict) (p : dict -> bool) (l : list A) :
  map read (List.filter (fun x => p (read x)) l) = List.filter p (map read l).
Proof.
  induction l as [|x l IH]; [reflexivity|]. simpl.
  destruct (p (read x)); simpl; rewrite IH; reflexivity.
Qed.

Lemma apply_filters_map {A : Type} (read : A -> dict)
    (industry_filter : option (list string)) (region : option string) (l : list A) :
  map read (apply_filters read industry_filter region l)
  = apply_filters (fun d => d) industry_filter region (map read l).
Proof.
  unfold apply_filters.
  destruct industry_filter as [[|n names]|], region as [[|c r]|];
    rewrite ?filter_map_read; reflexivity.
Qed.

Lemma recency_bonus_cases (clock : instant) (d : dict) :
  match d !! "last_gift_date" with
  | None => recency_bonus clock d = 0%float
  | Some v =>
      if truthy v then
        match fromisoformat (py_str v) with
        | None => recency_bonus clock d = 0%float
        | Some parsed =>
            match dt_offset parsed with
            | Some _ => recency_bonus clock d = 0%float
            | None =>
                recency_bonus clock d
                = true_div 1000 (Z.to_pos (Z.max 1 (days_since clock parsed)))
            end
        end
      else recency_bonus clock d = 0%float
  end.
Proof.
  unfold recency_bonus, recency_try, get.
  destruct (d !! "last_gift_date") as [v|]; simpl; [|reflexivity].
  destruct (truthy v); [|reflexivity].
  destruct (fromisoformat (py_str v)) as [parsed|]; [|reflexivity].
  unfold days_between, datetime_now; simpl.
  destruct (dt_offset parsed); reflexivity.
Qed.

Lemma score_key_scored (d : dict) (s : float) :
  score_key (<["potential_score" := VFloat s]> d) = s.
Proof. unfold score_key. rewrite lookup_insert_eq. reflexivity. Qed.

Lemma eqb_nan (k : float) : PrimFloat.eqb nan k = false.
Proof. rewrite FloatAxioms.eqb_spec. reflexivity. Qed.

Lemma has_score_key (k : float) (item : dict) :
  has_score k item = PrimFloat.eqb (score_key item) k.
Proof.
  unfold has_score, score_key.
  destruct (item !! "potential_score") as [[|b|z|f|t|d]|]; rewrite ?eqb_nan; reflexivity.
Qed.

Lemma scored_item_copy (clock : instant) (d item : dict) :
  scored_item clock d = Ok item <-> scored_copy clock d item.
Proof.
  unfold scored_item, scored_copy. split.
  - destruct (potential_score clock d) as [s|e]; simpl; [|discriminate].
    intros [= <-]. exists s. split; reflexivity.
  - intros (s & -> & ->). reflexivity.
Qed.

Lemma donor_prospect_inv (clock : instant) (past_donors : list dict)
    (industry_filter : option (list string)) (region : option string) (top_n : Z)
    (out : list dict) :
  donor_prospect clock past_donors industry_filter region top_n = Ok out ->
  exists scored : list dict,
    Forall2 (scored_copy clock)
      (apply_filters (fun d => d) industry_filter region past_donors) scored
    /\ out = take (Z.to_nat (Z.max 0 top_n)) (sorted_desc score_key scored).
Proof.
  unfold donor_prospect.
  destruct (for_each _ _) as [scored|e] eqn:H; simpl; [|discriminate].
  intros [= <-]. exists scored. split.
  - apply for_each_Ok in H. eapply Forall2_impl; [exact H|].
    intros d item. apply scored_item_copy.
  - apply slice_to_max0.
Qed.

Lemma donor_prospect_total (clock : instant) (past_donors : list dict)
    (industry_filter : option (list string)) (region : option string) (top_n : Z) :
  Forall (fun d => exists base, base_amount d = Ok base)
    (apply_filters (fun d => d) industry_filter region past_donors) ->
  exists out, donor_prospect clock past_donors industry_filter region top_n = Ok out.
Proof.
  intros H. unfold donor_prospect.
  destruct (for_each_total (scored_item clock)
              (apply_filters (fun d => d) industry_filter region past_donors))
    as [scored Hs].
  - eapply Forall_impl; [exact H|]. intros d [base Hb].
    unfold scored_item, potential_score. rewrite Hb. simpl. eexists. reflexivity.
  - rewrite Hs. simpl. eexists. reflexivity.
Qed.
End DonorFacts.

Section DonorClaims.
Context `{RT : Runtime}.

(** C1, amended: for every donor record whose amount converts to a
    float [base], the derived [potential_score] is
    [round(0.5 * base + bonus, 2)].  The bonus is [1000 / max(1, days)],
    [days] being the whole days from the gift to now, when
    [last_gift_date] parses as an ISO date or datetime without UTC offset;
    it is 0 when the field is absent, empty, unparseable, or parses to a
    value with a UTC offset.  No date makes the computation raise, and
    every record the Donor Scorer returns is an input record with its own
    score added. *)
Theorem potential_score_formula (clock : instant) (d : dict) (base : float) :
  base_amount d = Ok base ->
  exists bonus : float,
    potential_score clock d = Ok (py_round2 (base * 0.5 + bonus))
    /\ (d !! "last_gift_date" = None -> bonus = 0%float)
    /\ (forall v, d !! "last_gift_date" = Some v -> truthy v = false -> bonus = 0%float)
    /\ (forall v, d !! "last_gift_date" = Some v -> truthy v = true ->
          fromisoformat (py_str v) = None -> bonus = 0%float)
    /\ (forall v parsed offset,
          d !! "last_gift_date" = Some v -> truthy v = true ->
          fromisoformat (py_str v) = Some parsed -> dt_offset parsed = Some offset ->
          bonus = 0%float)
    /\ (forall v parsed,
          d !! "last_gift_date" = Some v -> truthy v = true ->
          fromisoformat (py_str v) = Some parsed -> dt_offset parsed = None ->
          bonus = true_div 1000 (Z.to_pos (Z.max 1 (days_since clock parsed))))
    /\ (forall past_donors industry_filter region top_n out item,
          donor_prospect clock past_donors industry_filter region top_n = Ok out ->
          item ∈ out ->
          exists d' s, d' ∈ past_donors /\ potential_score clock d' = Ok s
                       /\ item = <["potential_score" := VFloat s]> d').
Proof.
  intros Hbase. exists (recency_bonus clock d).
  split; [unfold potential_score; rewrite Hbase; reflexivity|].
  pose proof (recency_bonus_cases clock d) as Hcases.
  repeat split.
  - intros E. rewrite E in Hcases. exact Hcases.
  - intros v E Hv. rewrite E, Hv in Hcases. exact Hcases.
  - intros v E Hv Hp. rewrite E, Hv, Hp in Hcases. exact Hcases.
  - intros v parsed offset E Hv Hp Ho. rewrite E, Hv, Hp, Ho in Hcases. exact Hcases.
  - intros v parsed E Hv Hp Ho. rewrite E, Hv, Hp, Ho in Hcases. exact Hcases.
  - intros past_donors industry_filter region top_n out item Hout Hitem.
    apply donor_prospect_inv in Hout as (scored & Hscored & ->).
    apply elem_of_take in Hitem as (i & Hi & _).
    apply list_elem_of_lookup_2 in Hi. rewrite sorted_desc_perm in Hi.
    apply list_elem_of_lookup_1 in Hi as [j Hj].
    destruct (Forall2_lookup_r _ _ _ _ _ Hscored Hj) as (d' & Hd' & s & Hs & ->).
    exists d', s. repeat split; [|assumption].
    eapply apply_filters_subset, list_elem_of_lookup_2, Hd'.
Qed.

(** C10: an empty industry allow-list and an empty region string filter
    nothing: the Donor Scorer returns what it returns when the filter is
    [None], on records taken as values and as objects, and with both
    filters empty every donor survives. *)
Theorem empty_filters_do_not_filter (clock : instant) (past_donors : list dict)
    (industry_filter : option (list string)) (region : option string) (top_n : Z) :
  donor_prospect clock past_donors (Some []) region top_n
  = donor_prospect clock past_donors None region top_n
  /\ donor_prospect clock past_donors industry_filter (Some ""%string) top_n
     = donor_prospect clock past_donors industry_filter None top_n
  /\ apply_filters (fun d => d) (Some []) (Some ""%string) past_donors = past_donors
  /\ (forall (h : list dict) (refs : list nat),
        donor_prospect_refs clock h refs (Some []) region top_n
        = donor_prospect_refs clock h refs None region top_n
        /\ donor_prospect_refs clock h refs industry_filter (Some ""%string) top_n
           = donor_prospect_refs clock h refs industry_filter None top_n).
Proof. repeat split. Qed.

(** C6, amended: whenever the Donor Scorer returns, its output has at most
    [max(0, top_n)] records, none when [top_n] is negative, and at most as
    many as survive the filters, and it is drawn from the scored copies of
    the surviving records.  When no surviving record has a NaN score, the
    [potential_score] of a record of the output is never smaller than that
    of a record after it, and for every score the records of the output
    with that score are the first records with that score of the input, in
    the order of the input. *)
Theorem donor_prospect_ranking (clock : instant) (past_donors : list dict)
    (industry_filter : option (list string)) (region : option string) (top_n : Z)
    (out : list dict) :
  donor_prospect clock past_donors industry_filter region top_n = Ok out ->
  let survivors := apply_filters (fun d => d) industry_filter region past_donors in
  (length out <= Z.to_nat (Z.max 0 top_n))%nat
  /\ (length out <= length survivors)%nat
  /\ (top_n < 0 -> out = [])
  /\ (exists scored : list dict,
        Forall2 (scored_copy clock) survivors scored
        /\ out ⊆+ scored
        /\ ((forall d s, d ∈ survivors -> potential_score clock d = Ok s -> is_nan s = false) ->
            (forall (i j : nat) (a b : dict),
               (i < j)%nat -> out !! i = Some a -> out !! j = Some b ->
               exists sa sb : float,
                 a !! "potential_score" = Some (VFloat sa)
                 /\ b !! "potential_score" = Some (VFloat sb)
                 /\ PrimFloat.leb sb sa = true)
            /\ (forall k : float,
                  List.filter (has_score k) out
                  `prefix_of` List.filter (has_score k) scored))).
Proof.
  intros Hout survivors.
  apply donor_prospect_inv in Hout as (scored & Hscored & ->).
  fold survivors in Hscored.
  pose proof (Forall2_length _ _ _ Hscored) as Hlen.
  split; [rewrite length_take; lia|].
  split; [rewrite length_take, sorted_desc_length; lia|].
  split; [intros Hneg; replace (Z.max 0 top_n) with 0 by lia; reflexivity|].
  exists scored. split; [assumption|].
  split.
  { rewrite <- (sorted_desc_perm score_key scored) at 2.
    apply sublist_submseteq, sublist_take. }
  intros Hnan.
  assert (Hitems : forall item, item ∈ scored ->
            item !! "potential_score" = Some (VFloat (score_key item))
            /\ is_nan (score_key item) = false).
  { intros item Hitem. apply list_elem_of_lookup_1 in Hitem as [j Hj].
    destruct (Forall2_lookup_r _ _ _ _ _ Hscored Hj) as (d & Hd & s & Hs & ->).
    rewrite score_key_scored, lookup_insert_eq. split; [reflexivity|].
    eapply Hnan; [|exact Hs]. eapply list_elem_of_lookup_2, Hd. }
  assert (Hstable : sorted_desc score_key scored = stable_desc score_key scored).
  { apply sorted_desc_stable, Forall_forall. intros item Hitem. apply Hitems, Hitem. }
  rewrite Hstable. split.
  - intros i j a b Hij Ha Hb.
    assert (Hin : forall x, x ∈ take (Z.to_nat (Z.max 0 top_n)) (stable_desc score_key scored)
                    -> x ∈ scored).
    { intros x Hx. apply elem_of_take in Hx as (n & Hx & _).
      apply list_elem_of_lookup_2 in Hx. rewrite stable_desc_perm in Hx. exact Hx. }
    exists (score_key a), (score_key b).
    split; [apply Hitems, Hin; eapply list_elem_of_lookup_2, Ha|].
    split; [apply Hitems, Hin; eapply list_elem_of_lookup_2, Hb|].
    assert (Hdesc : descending score_key
                      (take (Z.to_nat (Z.max 0 top_n)) (stable_desc score_key scored))).
    { apply descending_take, strongly_sorted_descending, stable_desc_sorted.
      apply Forall_forall. intros item Hitem. apply Hitems, Hitem. }
    exact (Hdesc i j a b Hij Ha Hb).
  - intros k.
    rewrite (List.filter_ext (has_score k) (fun a => PrimFloat.eqb (score_key a) k)
               (has_score_key k)).
    rewrite (List.filter_ext (has_score k) (fun a => PrimFloat.eqb (score_key a) k)
               (has_score_key k) scored).
    apply stable_desc_ties.
Qed.
End DonorClaims.

(** C1, as stated, fails: the text [2024-08-15T00:00:00+00:00] parses as
    a valid ISO date, 139 days before the clock, yet a gift of 100 scores
    50.0 and not [round(50 + 1000 / 139, 2) = 57.19]: subtracting the
    parsed value, which carries a UTC offset, from [now] raises a
    [TypeError] that the [try] swallows. *)
Lemma potential_score_formula_counterexample :
  let d : dict := <["last_gift_amount" := VInt 100]>
                  (<["last_gift_date" := VStr "2024-08-15T00:00:00+00:00"]> ∅) in
  (exists parsed, fromisoformat_basic "2024-08-15T00:00:00+00:00" = Some parsed
                  /\ dt_date parsed = ymd2ord 2024 8 15)
  /\ potential_score (RT := example_runtime) mock_clock d = Ok 50%float
  /\ py_round2 (100 * 0.5
                + true_div 1000 (Z.to_pos (Z.max 1 (today mock_clock - ymd2ord 2024 8 15))))
     = 57.19%float
  /\ PrimFloat.eqb 50 57.19 = false.
Proof.
  intros d. split; [|repeat split; vm_compute; reflexivity].
  eexists. split; vm_compute; reflexivity.
Qed.

Lemma potential_score_formula_witness :
  potential_score (RT := example_runtime) mock_clock
    (donor "TechCorp Inc." "organization" "Technology" 20000 "2024-08-15" "NY, USA")
  = Ok 10007.19%float.
Proof.
  destruct (potential_score_formula (RT := example_runtime) mock_clock
              (donor "TechCorp Inc." "organization" "Technology" 20000 "2024-08-15" "NY, USA")
              20000%float)
    as (bonus & Hscore & _ & _ & _ & _ & Hnaive & _); [vm_compute; reflexivity|].
  rewrite Hscore.
  rewrite (Hnaive (VStr "2024-08-15")
             {| dt_date := 739113; dt_micro := 0; dt_offset := None |});
    vm_compute; reflexivity.
Defined.

Lemma nan_free_by_check `{RT : Runtime} (clock : instant) (l : list dict) :
  forallb (fun d => match potential_score clock d with
                    | Ok s => negb (is_nan s)
                    | Raise _ => true
                    end) l = true ->
  forall d s, d ∈ l -> potential_score clock d = Ok s -> is_nan s = false.
Proof.
  intros H d s Hd Hs. rewrite forallb_forall in H.
  apply list_elem_of_In, H in Hd. rewrite Hs in Hd.
  apply negb_true_iff, Hd.
Qed.

(** Whatever the runtime and the clock, the donors with the gifts 1.0,
    NaN and 2.0 come back in the order of the input: their scores 0.5, NaN
    and 1.0 have no neighbours of which the first is smaller. *)
Lemma nan_score_keeps_input_order `{RT : Runtime} (clock : instant) :
  donor_prospect clock nan_donors None None 5 = Ok nan_scored.
Proof.
  unfold donor_prospect.
  assert (Hscored : for_each (scored_item clock)
                      (apply_filters (fun d => d) None None nan_donors)
                    = Ok nan_scored) by (vm_compute; reflexivity).
  rewrite Hscored. cbn [bind]. unfold sorted_desc.
  assert (Hkeys : map score_key nan_scored = [0.5; nan; 1]%float)
    by (vm_compute; reflexivity).
  rewrite Hkeys, sort_order_run by reflexivity.
  reflexivity.
Qed.

(** C6, as stated, fails: of three donors whose last gifts are 1.0, NaN
    and 2.0 the Donor Scorer returns the scores 0.5, NaN and 1.0 in this
    order, the order of the input, so the first record scores less than
    the last. *)
Lemma donor_prospect_ranking_counterexample :
  donor_prospect (RT := example_runtime) mock_clock nan_donors None None 5 = Ok nan_scored
  /\ map score_key nan_scored = [0.5; nan; 1]%float
  /\ (exists a b : dict,
        nan_scored !! 0%nat = Some a /\ nan_scored !! 2%nat = Some b
        /\ a !! "potential_score" = Some (VFloat 0.5)
        /\ b !! "potential_score" = Some (VFloat 1))
  /\ PrimFloat.ltb 0.5 1 = true
  /\ PrimFloat.leb 1 0.5 = false.
Proof.
  split; [apply nan_score_keeps_input_order|].
  split; [vm_compute; reflexivity|].
  split; [|split; reflexivity].
  do 2 eexists. repeat split; vm_compute; reflexivity.
Qed.

Lemma donor_prospect_ranking_witness :
  exists (a b : dict) (sa sb : float),
    mock_ranking !! 0%nat = Some a /\ mock_ranking !! 1%nat = Some b
    /\ a !! "potential_score" = Some (VFloat sa)
    /\ b !! "potential_score" = Some (VFloat sb)
    /\ PrimFloat.leb sb sa = true.
Proof.
  assert (H : donor_prospect (RT := example_runtime) mock_clock mock_donors
                (Some ["finance"; "Technology"]%string) (Some "ny"%string) 5
              = Ok mock_ranking) by (vm_cast_no_check (eq_refl (Ok mock_ranking))).
  pose proof (donor_prospect_ranking (RT := example_runtime) _ _ _ _ _ _ H)
    as (_ & _ & _ & scored & _ & _ & Hsorted).
  destruct Hsorted as [Hdesc _]; [apply nan_free_by_check; vm_compute; reflexivity|].
  exists (default ∅ (mock_ranking !! 0%nat)), (default ∅ (mock_ranking !! 1%nat)).
  destruct (Hdesc 0%nat 1%nat (default ∅ (mock_ranking !! 0%nat))
              (default ∅ (mock_ranking !! 1%nat))) as (sa & sb & Ha & Hb & Hle);
    [lia | reflexivity | reflexivity |].
  exists sa, sb. repeat split; assumption.
Defined.

Section DonorObjects.
Context `{RT : Runtime}.

Lemma deref_app_l (h extra : list dict) (r : nat) :
  (r < length h)%nat -> deref (h ++ extra) r = deref h r.
Proof. intros Hr. unfold deref. rewrite lookup_app_l by assumption. reflexivity. Qed.

Lemma map_deref_app_l (h extra : list dict) (refs : list nat) :
  Forall (fun r => (r < length h)%nat) refs ->
  map (deref (h ++ extra)) refs = map (deref h) refs.
Proof.
  induction 1 as [|r refs Hr _ IH]; [reflexivity|].
  simpl. rewrite deref_app_l by assumption. f_equal. exact IH.
Qed.

Lemma scored_item_ref_spec (clock : instant) (h : list dict) (r : nat) :
  scored_item_ref clock h r
  = do item <- scored_item clock (deref h r); Ok (length h, h ++ [item]).
Proof.
  unfold scored_item_ref, scored_item.
  destruct (potential_score clock (deref h r)) as [s|e]; simpl; [|reflexivity].
  unfold deref at 1. rewrite list_lookup_middle by reflexivity. simpl.
  rewrite insert_app_r_alt by lia. rewrite Nat.sub_diag. reflexivity.
Qed.

(** The loop over references allocates, in order, the items that the
    loop over values computes. *)
Lemma score_loop_for_each (clock : instant) (filtered : list nat) :
  forall h : list dict,
    Forall (fun r => (r < length h)%nat) filtered ->
    score_loop clock h filtered
    = do scored <- for_each (scored_item clock) (map (deref h) filtered);
      Ok (seq (length h) (length filtered), h ++ scored).
Proof.
  induction filtered as [|r rest IH]; intros h Hvalid.
  - simpl. rewrite app_nil_r. reflexivity.
  - inversion Hvalid as [|? ? Hr Hrest]; subst.
    cbn [score_loop map for_each]. rewrite scored_item_ref_spec.
    destruct (scored_item clock (deref h r)) as [item|e]; [|reflexivity].
    cbn [bind fst snd]. rewrite IH.
    + rewrite map_deref_app_l by assumption.
      destruct (for_each (scored_item clock) (map (deref h) rest)) as [scored|e];
        [|reflexivity].
      cbn [bind fst snd]. rewrite length_app, <- app_assoc. simpl.
      replace (length h + 1)%nat with (S (length h)) by lia. reflexivity.
    + eapply Forall_impl; [exact Hrest|].
      intros r0 Hr0. cbv beta in Hr0. rewrite length_app. simpl. lia.
Qed.

Lemma deref_fresh (h scored : list dict) (i : nat) (item : dict) :
  scored !! i = Some item -> deref (h ++ scored) (length h + i) = item.
Proof.
  intros Hi. unfold deref. rewrite lookup_app_r by lia.
  replace (length h + i - length h)%nat with i by lia. rewrite Hi. reflexivity.
Qed.

Lemma map_deref_fresh (h scored : list dict) :
  map (deref (h ++ scored)) (seq (length h) (length scored)) = scored.
Proof.
  apply list_eq. intros i. rewrite list_lookup_fmap.
  destruct (scored !! i) as [item|] eqn:Hi.
  - rewrite (lookup_seq_lt _ _ _ (lookup_lt_Some _ _ _ Hi)). simpl.
    f_equal. apply deref_fresh, Hi.
  - rewrite lookup_seq_ge by (eapply lookup_ge_None, Hi). reflexivity.
Qed.

(** The tool on objects and the tool on values: the records behind the
    returned references are the returned records, the store grows by the
    scored copies and an exception of one is the exception of the other. *)
Lemma donor_prospect_refs_values (clock : instant) (h : list dict)
    (past_donors : list nat) (industry_filter : option (list string))
    (region : option string) (top_n : Z) :
  Forall (fun r => (r < length h)%nat) past_donors ->
  match donor_prospect_refs clock h past_donors industry_filter region top_n with
  | Ok (out, h') =>
      donor_prospect clock (map (deref h) past_donors) industry_filter region top_n
      = Ok (map (deref h') out)
      /\ exists scored : list dict,
           h' = h ++ scored
           /\ Forall2 (scored_copy clock)
                (map (deref h) (apply_filters (deref h) industry_filter region past_donors))
                scored
           /\ out = take (Z.to_nat (Z.max 0 top_n))
                      (sorted_desc (fun r => score_key (deref h' r))
                         (seq (length h) (length scored)))
  | Raise e =>
      donor_prospect clock (map (deref h) past_donors) industry_filter region top_n
      = Raise e
  end.
Proof.
  intros Hvalid. unfold donor_prospect_refs, donor_prospect.
  rewrite <- apply_filters_map.
  set (filtered := apply_filters (deref h) industry_filter region past_donors).
  assert (Hfiltered : Forall (fun r => (r < length h)%nat) filtered).
  { apply Forall_forall. intros r Hr. rewrite Forall_forall in Hvalid.
    eapply Hvalid, apply_filters_subset, Hr. }
  rewrite score_loop_for_each by assumption.
  destruct (for_each (scored_item clock) (map (deref h) filtered)) as [scored|e] eqn:Hloop;
    [|reflexivity].
  cbn [bind fst snd].
  pose proof (for_each_length _ _ _ Hloop) as Hlen. rewrite length_map in Hlen.
  rewrite <- Hlen, !slice_to_max0. split.
  - f_equal. rewrite <- (firstn_map (deref (h ++ scored))).
    f_equal. rewrite (sorted_desc_map score_key (deref (h ++ scored))).
    rewrite map_deref_fresh. reflexivity.
  - exists scored. repeat split.
    apply for_each_Ok in Hloop. eapply Forall2_impl; [exact Hloop|].
    intros d item. apply scored_item_copy.
Qed.

(** C7: the Donor Scorer never mutates the caller's records.  After the
    call every object that existed before it holds the fields and values it
    held; the returned references are distinct, fresh objects, and each
    holds a copy of one input record in which [potential_score] is set and
    every other field is as in the input. *)
Theorem donor_prospect_leaves_inputs (clock : instant) (h : list dict)
    (past_donors : list nat) (industry_filter : option (list string))
    (region : option string) (top_n : Z) (out : list nat) (h' : list dict) :
  Forall (fun r => (r < length h)%nat) past_donors ->
  donor_prospect_refs clock h past_donors industry_filter region top_n = Ok (out, h') ->
  (forall r : nat, (r < length h)%nat -> h' !! r = h !! r)
  /\ NoDup out
  /\ (forall item : nat, item ∈ out ->
        (length h <= item)%nat
        /\ exists (r : nat) (s : float),
             r ∈ past_donors
             /\ potential_score clock (deref h r) = Ok s
             /\ h' !! item = Some (<["potential_score" := VFloat s]> (deref h r))
             /\ dom (deref h' item) = {["potential_score"]} ∪ dom (deref h r)
             /\ forall k : string, k <> "potential_score" ->
                  deref h' item !! k = deref h r !! k).
Proof.
  intros Hvalid Hcall.
  pose proof (donor_prospect_refs_values clock h past_donors industry_filter region top_n
                Hvalid) as Hspec.
  rewrite Hcall in Hspec. destruct Hspec as (_ & scored & -> & Hscored & ->).
  assert (Hperm : forall item,
             item ∈ take (Z.to_nat (Z.max 0 top_n))
                      (sorted_desc (fun r => score_key (deref (h ++ scored) r))
                         (seq (length h) (length scored))) ->
             item ∈ seq (length h) (length scored)).
  { intros item Hitem. apply elem_of_take in Hitem as (i & Hi & _).
    apply list_elem_of_lookup_2 in Hi. rewrite sorted_desc_perm in Hi. exact Hi. }
  split; [intros r Hr; apply lookup_app_l, Hr|].
  split.
  - eapply sublist_NoDup; [|apply sublist_take].
    rewrite sorted_desc_perm. apply NoDup_seq.
  - intros item Hitem. apply Hperm, elem_of_seq in Hitem.
    split; [lia|].
    destruct (lookup_lt_is_Some_2 scored (item - length h)) as [copy Hcopy]; [lia|].
    destruct (Forall2_lookup_r _ _ _ _ _ Hscored Hcopy) as (d & Hd & s & Hs & ->).
    apply list_lookup_fmap_Some in Hd as (r & -> & Hr).
    assert (Hitem' : (h ++ scored) !! item
                     = Some (<["potential_score" := VFloat s]> (deref h r))).
    { rewrite lookup_app_r by lia. exact Hcopy. }
    exists r, s. split; [eapply apply_filters_subset, list_elem_of_lookup_2, Hr|].
    split; [assumption|]. split; [exact Hitem'|].
    unfold deref at 1 3. rewrite Hitem'. simpl.
    split; [apply dom_insert_L|].
    intros k Hk. apply lookup_insert_ne. congruence.
Qed.
End DonorObjects.

Lemma donor_prospect_leaves_inputs_witness :
  mock_store_after !! 0%nat = mock_donors !! 0%nat
  /\ mock_store_after !! 1%nat = mock_donors !! 1%nat
  /\ mock_store_after !! 2%nat = mock_donors !! 2%nat
  /\ NoDup [3; 4; 5]%nat.
Proof.
  assert (Hcall : donor_prospect_refs (RT := example_runtime) mock_clock mock_donors
                    [0; 1; 2]%nat None (Some "NY, USA"%string) 3
                  = Ok ([3; 4; 5]%nat, mock_store_after))
    by (vm_cast_no_check (eq_refl (Ok ([3; 4; 5]%nat, mock_store_after)))).
  assert (Hvalid : Forall (fun r => (r < length mock_donors)%nat) [0; 1; 2]%nat)
    by (repeat constructor).
  destruct (donor_prospect_leaves_inputs (RT := example_runtime) _ _ _ _ _ _ _ _
              Hvalid Hcall) as (Hsame & Hnodup & _).
  repeat split; [apply Hsame; simpl; lia.. | exact Hnodup].
Defined.

(** ** Text *)

Lemma append_cons (x : ascii) (a b : string) :
  (String x a ++ b)%string = String x (a ++ b)%string.
Proof. reflexivity. Qed.

Lemma append_assoc (a b c : string) : ((a ++ b) ++ c = a ++ (b ++ c))%string.
Proof.
  induction a as [|x a IH]; [reflexivity|]. rewrite !append_cons, IH. reflexivity.
Qed.

Lemma append_nil_r (a : string) : (a ++ "")%string = a.
Proof.
  induction a as [|x a IH]; [reflexivity|]. rewrite append_cons, IH. reflexivity.
Qed.

Lemma occurs_in_refl (s : string) : occurs_in s s.
Proof. exists ""%string, ""%string. cbn [append]. rewrite append_nil_r. reflexivity. Qed.

Lemma occurs_in_append_l (s a t : string) : occurs_in s t -> occurs_in s (a ++ t)%string.
Proof.
  intros (pre & post & ->). exists (a ++ pre)%string, post.
  rewrite append_assoc. reflexivity.
Qed.

Lemma occurs_in_append_r (s t b : string) : occurs_in s t -> occurs_in s (t ++ b)%string.
Proof.
  intros (pre & post & ->). exists pre, (post ++ b)%string.
  rewrite !append_assoc. reflexivity.
Qed.


Lemma starts_with_spec (p s : string) :
  starts_with p s = true -> exists post, s = (p ++ post)%string.
Proof.
  revert s. induction p as [|a p IH]; intros s H.
  - exists s. reflexivity.
  - destruct s as [|b s]; [discriminate|]. cbn [starts_with] in H.
    destruct (Ascii.eqb_spec a b) as [<-|]; [|discriminate].
    destruct (IH s H) as [post ->]. exists post. reflexivity.
Qed.

Lemma contains_occurs_in (r s : string) : contains r s = true -> occurs_in r s.
Proof.
  induction s as [|c s IH]; intros H.
  - destruct r; [apply occurs_in_refl | discriminate].
  - cbn [contains] in H. apply orb_true_iff in H as [H | H].
    + apply starts_with_spec in H as [post Hpost]. exists ""%string, post. exact Hpost.
    + destruct (IH H) as (pre & post & ->). exists (String c pre), post. reflexivity.
Qed.

Lemma starts_with_append (p s : string) : starts_with p (p ++ s)%string = true.
Proof.
  induction p as [|a p IH]; [reflexivity|].
  rewrite append_cons. cbn [starts_with]. rewrite Ascii.eqb_refl. exact IH.
Qed.


(** ** Grouped numbers *)






(** ** Dashboard Aggregator *)

Section SortedAsc.
Context {A : Type} (key : A -> value).

Let textual (x : A) : Prop := exists s : string, key x = VStr s.

Lemma insert_asc_text (x : A) (l : list A) :
  textual x -> Forall textual l ->
  exists r, insert_asc key x l = Ok r /\ r ≡ₚ x :: l.
Proof.
  intros [s Hs] Hl. induction Hl as [|y l [t Ht] Hl IH]; cbn [insert_asc].
  - eexists. split; reflexivity.
  - rewrite Ht, Hs. cbn [py_lt bind].
    destruct (str_ltb t s).
    + destruct IH as (r & -> & Hr). cbn [bind]. eexists. split; [reflexivity|].
      rewrite Hr. apply Permutation_swap.
    + eexists. split; reflexivity.
Qed.

Lemma sorted_asc_text (l : list A) :
  Forall textual l -> exists r, sorted_asc key l = Ok r /\ r ≡ₚ l.
Proof.
  induction 1 as [|x l Hx Hl (r & Hr & Hperm)]; cbn [sorted_asc].
  - eexists. split; reflexivity.
  - rewrite Hr. cbn [bind].
    destruct (insert_asc_text x r Hx) as (r' & Hr' & Hperm').
    + rewrite Hperm. exact Hl.
    + exists r'. split; [assumption|]. rewrite Hperm', Hperm. reflexivity.
Qed.
End SortedAsc.

Section DashboardClaims.
Context `{RT : Runtime}.
Local Open Scope string_scope.

Lemma deadline_key_text (opp : dict) :
  deadline_is_text opp -> exists s, deadline_key opp = VStr s.
Proof.
  unfold deadline_is_text, deadline_key, get_or.
  destruct (opp !! "deadline") as [v|]; simpl; [tauto|]. intros _. eexists. reflexivity.
Qed.

(** The report in terms of its parts: the call returns exactly when the
    sort, the three formattings and the subtraction do. *)
Lemma dashboard_summary_parts (opportunities donor_prospects : list dict)
    (event_projection : dict) :
  dashboard_summary opportunities donor_prospects event_projection
  = (let target := get_or event_projection "target_revenue" (VInt 0) in
     let projected := get_or event_projection "projected_revenue" (VInt 0) in
     do by_deadline <- sorted_asc deadline_key opportunities;
     do target_text <- format_comma target;
     do projected_text <- format_comma projected;
     do gap <- py_sub target projected;
     do gap_text <- format_comma gap;
     Ok (report_text opportunities by_deadline donor_prospects
           target_text projected_text gap_text)).
Proof.
  unfold dashboard_summary. fold deadline_key. cbv zeta.
  destruct (sorted_asc deadline_key opportunities) as [by_deadline|e]; [|reflexivity].
  cbn [bind].
  destruct (format_comma (get_or event_projection "target_revenue" (VInt 0)))
    as [target_text|e]; [|reflexivity].
  destruct (format_comma (get_or event_projection "projected_revenue" (VInt 0)))
    as [projected_text|e]; [|reflexivity].
  cbn [bind].
  destruct (py_sub _ _) as [gap|e]; [|reflexivity]. cbn [bind].
  destruct (format_comma gap) as [gap_text|e]; [|reflexivity]. cbn [bind].
  f_equal. unfold report_text, report_head.
  destruct (slice_to 3 by_deadline); rewrite !append_assoc; reflexivity.
Qed.

Lemma occurs_in_head (s t : string) : starts_with s t = true -> occurs_in s t.
Proof. intros H. apply starts_with_spec in H as [post ->]. exists "", post. reflexivity. Qed.










End DashboardClaims.





(** * Properties of the tools around the core *)

(** ** The fallback decorator *)

(** X1: under the fallback [tool], [@tool] leaves the function as it is and
    [tool()] gives a decorator that does the same, but
    [tool(name, description=...)] returns the text [name], which is not
    callable: a definition decorated that way raises [TypeError] instead of
    binding the function. *)
Theorem tool_fallback_sites {F : Type} (run : F -> pyobj F -> result (pyobj F))
    (name : string) (f : F) :
  decorated_bare f = Ok (Fn f)
  /\ call run (tool (F := F) None) (Fn f) = Ok (Fn f)
  /\ tool (F := F) (Some (Text name)) = Text name
  /\ decorated_named run name f = Raise TypeError.
Proof. repeat split. Qed.

(** ** The cache *)

Lemma cache_tool_lookup `{RT : Runtime} (cache : dict) (x : cache_call) (key : string) :
  writes_to key x = false ->
  snd (cache_tool cache (cache_action x) (cache_key x) (cache_value x) (cache_ttl x)) !! key
  = cache !! key.
Proof.
  unfold writes_to, cache_tool. intros H.
  destruct (String.eqb (lower (cache_action x)) "get") eqn:Hget; [reflexivity|].
  destruct (String.eqb (lower (cache_action x)) "clear") eqn:Hclear; [discriminate|].
  destruct (String.eqb (lower (cache_action x)) "set") eqn:Hset; simpl in *.
  - apply String.eqb_neq in H. apply lookup_insert_ne. exact H.
  - destruct (String.eqb (lower (cache_action x)) "delete") eqn:Hdel; simpl in *;
      [|reflexivity].
    apply String.eqb_neq in H. apply lookup_delete_ne. exact H.
Qed.

Lemma cache_after_lookup `{RT : Runtime} (calls : list cache_call) (cache : dict)
    (key : string) :
  forallb (fun x => negb (writes_to key x)) calls = true ->
  cache_after cache calls !! key = cache !! key.
Proof.
  revert cache. induction calls as [|x calls IH]; intros cache H; [reflexivity|].
  simpl in H. apply andb_true_iff in H as [Hx H].
  apply negb_true_iff in Hx.
  unfold cache_after in *. simpl. rewrite IH by assumption.
  apply cache_tool_lookup, Hx.
Qed.

(** X2: after [set key val], with any [ttl_seconds], and whatever calls
    follow that do not write to [key], a [get] of [key] is a hit that
    returns [val]; actions are read in any letter case. *)
Theorem cache_set_then_get `{RT : Runtime} (cache : dict) (key : string) (val : value)
    (ttl : option Z) (set_action get_action : string) (calls : list cache_call)
    (val' : value) (ttl' : option Z) :
  lower set_action = "set"%string -> lower get_action = "get"%string ->
  forallb (fun x => negb (writes_to key x)) calls = true ->
  let stored := snd (cache_tool cache set_action key val ttl) in
  let later := cache_after stored calls in
  cache_tool later get_action key val' ttl'
  = (<["hit" := VBool true]> (<["key" := VStr key]> (<["value" := val]> ∅)), later).
Proof.
  intros Hset Hget Hcalls stored later.
  assert (Hlater : later !! key = Some val).
  { unfold later. rewrite cache_after_lookup by assumption.
    unfold stored, cache_tool. rewrite Hset. simpl. apply lookup_insert_eq. }
  unfold cache_tool, get. rewrite Hget, Hlater. reflexivity.
Qed.

(** X3: after [delete key] or [clear], and whatever calls follow that do
    not write to [key], a [get] of [key] is a miss with the value [None];
    deleting a key the cache does not hold is answered like any other
    deletion, and [delete] leaves the other keys as they are. *)
Theorem cache_delete_then_get `{RT : Runtime} (cache : dict) (key : string) (val : value)
    (ttl : option Z) (drop_action get_action : string) (calls : list cache_call)
    (val' : value) (ttl' : option Z) :
  lower drop_action = "delete"%string \/ lower drop_action = "clear"%string ->
  lower get_action = "get"%string ->
  forallb (fun x => negb (writes_to key x)) calls = true ->
  let dropped := snd (cache_tool cache drop_action key val ttl) in
  let later := cache_after dropped calls in
  fst (cache_tool cache drop_action key val ttl) !! "ok" = Some (VBool true)
  /\ cache_tool later get_action key val' ttl'
     = (<["hit" := VBool false]> (<["key" := VStr key]> (<["value" := VNone]> ∅)), later)
  /\ (lower drop_action = "delete"%string ->
      forall other, other <> key -> dropped !! other = cache !! other).
Proof.
  intros Hdrop Hget Hcalls dropped later.
  assert (Hlater : later !! key = None).
  { unfold later. rewrite cache_after_lookup by assumption.
    unfold dropped, cache_tool.
    destruct Hdrop as [-> | ->]; simpl; [apply lookup_delete_eq | apply lookup_empty]. }
  split; [unfold cache_tool; destruct Hdrop as [-> | ->]; reflexivity|].
  split.
  - unfold cache_tool, get. rewrite Hget, Hlater. reflexivity.
  - intros Hdel other Hother. unfold dropped, cache_tool. rewrite Hdel. simpl.
    apply lookup_delete_ne. congruence.
Qed.

(** ** Reading back printed numbers *)

Lemma read_digits_uint (u : Decimal.uint) (acc : Z) (rest : string) :
  read_digits (Decimal.nb_digits u) acc (NilEmpty.string_of_uint u ++ rest)%string
  = Some (uint_value acc u, rest).
Proof.
  revert acc. induction u; intros acc; [reflexivity|..]; simpl; apply IHu.
Qed.

Lemma uint_value_acc (u : Decimal.uint) (acc : Z) :
  uint_value acc u = acc * 10 ^ Z.of_nat (Decimal.nb_digits u) + uint_value 0 u.
Proof.
  revert acc. induction u; intros acc; cbn [uint_value Decimal.nb_digits];
    [lia|..];
    rewrite Nat2Z.inj_succ, Z.pow_succ_r by lia;
    rewrite IHu, (IHu (0 * 10 + _)); lia.
Qed.

Lemma uint_value_nonneg (u : Decimal.uint) (acc : Z) : 0 <= acc -> 0 <= uint_value acc u.
Proof. revert acc. induction u; intros acc H; simpl; [lia|..]; apply IHu; lia. Qed.

Lemma of_uint_acc_value (u : Decimal.uint) (acc : positive) :
  Z.pos (Pos.of_uint_acc u acc) = uint_value (Z.pos acc) u.
Proof.
  revert acc. induction u; intros acc; cbn [Pos.of_uint_acc uint_value]; [reflexivity|..];
    rewrite IHu; f_equal; lia.
Qed.

Lemma of_uint_value (u : Decimal.uint) : Z.of_N (Pos.of_uint u) = uint_value 0 u.
Proof.
  induction u; cbn [Pos.of_uint uint_value]; [reflexivity | exact IHu |..];
    cbn [Z.of_N]; rewrite of_uint_acc_value; reflexivity.
Qed.

Lemma string_of_uint_length (u : Decimal.uint) :
  String.length (NilEmpty.string_of_uint u) = Decimal.nb_digits u.
Proof. induction u; simpl; congruence. Qed.

(** The digits [str] writes for a positive number: they read back as the
    number, and there are no more of them than the number needs. *)
Lemma to_uint_digits (p : positive) (k : nat) :
  uint_value 0 (Pos.to_uint p) = Z.pos p
  /\ (Z.pos p < 10 ^ Z.of_nat k -> (Decimal.nb_digits (Pos.to_uint p) <= k)%nat).
Proof.
  assert (Hval : uint_value 0 (Pos.to_uint p) = Z.pos p).
  { rewrite <- of_uint_value, DecimalPos.Unsigned.of_to. reflexivity. }
  split; [exact Hval|]. intros Hlt.
  pose proof (DecimalPos.Unsigned.to_of (Pos.to_uint p)) as Hnorm.
  rewrite DecimalPos.Unsigned.of_to in Hnorm. cbn [N.to_uint] in Hnorm.
  pose proof (DecimalPos.Unsigned.to_uint_nonzero p) as Hnz.
  assert (Hhead : Decimal.nzhead (Pos.to_uint p) = Pos.to_uint p).
  { rewrite Hnorm at 2. symmetry. apply DecimalFacts.unorm_nzhead.
    intros Hnil. apply Hnz. rewrite Hnorm. unfold Decimal.unorm. rewrite Hnil. reflexivity. }
  pose proof (DecimalFacts.nzhead_nonzero (Pos.to_uint p)) as Hd0.
  rewrite Hhead in Hd0.
  pose proof (DecimalPos.Unsigned.to_uint_nonnil p) as Hnil.
  revert Hval Hd0 Hnil. generalize (Pos.to_uint p) as u. intros u Hval Hd0 Hnil.
  assert (Hlow : 10 ^ Z.of_nat (Decimal.nb_digits u - 1) <= uint_value 0 u).
  { destruct u; [congruence | exfalso; eapply Hd0; reflexivity |..];
      cbn [uint_value Decimal.nb_digits]; rewrite uint_value_acc;
      replace (S (Decimal.nb_digits u) - 1)%nat with (Decimal.nb_digits u) by lia;
      pose proof (uint_value_nonneg u 0 ltac:(lia));
      pose proof (Z.pow_pos_nonneg 10 (Z.of_nat (Decimal.nb_digits u)) ltac:(lia) ltac:(lia));
      nia. }
  destruct (Nat.le_gt_cases (Decimal.nb_digits u) k) as [Hle|Hgt]; [exact Hle|].
  exfalso.
  assert (10 ^ Z.of_nat k <= 10 ^ Z.of_nat (Decimal.nb_digits u - 1))
    by (apply Z.pow_le_mono_r; lia).
  lia.
Qed.

Lemma read_digits_zeros (j n : nat) (s : string) :
  read_digits (j + n) 0 (string_of_list_ascii (repeat "0"%char j) ++ s)%string
  = read_digits n 0 s.
Proof. induction j as [|j IH]; [reflexivity|]. simpl. exact IH. Qed.

(** A zero-padded number reads back as the number. *)
Lemma read_digits_zero_pad (k : nat) (v : Z) (rest : string) :
  (0 < k)%nat -> 0 <= v < 10 ^ Z.of_nat k ->
  read_digits k 0 (zero_pad k v ++ rest)%string = Some (v, rest)
  /\ String.length (zero_pad k v) = k.
Proof.
  intros Hk Hv. unfold zero_pad, str_of_Z.
  assert (H : exists u : Decimal.uint,
             NilZero.string_of_int (Z.to_int v) = NilEmpty.string_of_uint u
             /\ uint_value 0 u = v /\ (Decimal.nb_digits u <= k)%nat).
  { destruct v as [|p|p]; [|clear Hk|lia].
    - exists (Decimal.D0 Decimal.Nil). repeat split. simpl. lia.
    - exists (Pos.to_uint p). destruct (to_uint_digits p k) as [Hval Hlen].
      split; [|split; [exact Hval | apply Hlen; lia]].
      cbn [Z.to_int NilZero.string_of_int]. unfold NilZero.string_of_uint.
      destruct (Pos.to_uint p) eqn:E; try reflexivity.
      exfalso. eapply DecimalPos.Unsigned.to_uint_nonnil, E. }
  destruct H as (u & -> & Hval & Hlen).
  rewrite string_of_uint_length. split.
  - rewrite append_assoc.
    replace k with ((k - Decimal.nb_digits u) + Decimal.nb_digits u)%nat at 1 by lia.
    rewrite read_digits_zeros, read_digits_uint, Hval. reflexivity.
  - rewrite length_append, string_of_uint_length.
    assert (Hz : forall j, String.length (string_of_list_ascii (repeat "0"%char j)) = j)
      by (induction j; simpl; congruence).
    rewrite Hz. lia.
Qed.

Lemma all_from_spec (p : Z -> bool) (count : nat) :
  forall x : Z, all_from p count x = true ->
    forall n : Z, x <= n < x + Z.of_nat count -> p n = true.
Proof.
  induction count as [|c IH]; intros x H n Hn; [lia|].
  cbn [all_from] in H. apply andb_true_iff in H as [Hx Hrest].
  destruct (Z.eq_dec n x) as [->|Hne]; [exact Hx|].
  apply (IH (x + 1) Hrest). lia.
Qed.

Lemma is_leap_cycle (y q : Z) : is_leap (y + 400 * q) = is_leap y.
Proof.
  unfold is_leap.
  replace (y + 400 * q) with (y + (100 * q) * 4) at 1 by lia.
  replace (y + 400 * q) with (y + (4 * q) * 100) at 1 by lia.
  replace (y + 400 * q) with (y + q * 400) by lia.
  rewrite !Z.mod_add by lia. reflexivity.
Qed.

Lemma ymd2ord_cycle (y m d q : Z) :
  ymd2ord (y + 400 * q) m d = ymd2ord y m d + 146097 * q.
Proof.
  unfold ymd2ord, days_before_year, days_before_month. rewrite is_leap_cycle.
  cbv zeta.
  replace (y + 400 * q - 1) with (y - 1 + (100 * q) * 4) at 2 by lia.
  replace (y + 400 * q - 1) with (y - 1 + (4 * q) * 100) at 2 by lia.
  replace (y + 400 * q - 1) with (y - 1 + q * 400) at 2 by lia.
  rewrite !Z.div_add by lia. lia.
Qed.

Lemma date_reads_back_all (n : Z) : 1 <= n -> date_reads_back n = true.
Proof.
  intros Hn.
  assert (H : all_from date_reads_back (Z.to_nat 146097) 1 = true)
    by (vm_cast_no_check (eq_refl true)).
  pose proof (Z.div_mod (n - 1) 146097 ltac:(lia)) as Hdiv.
  pose proof (Z.mod_pos_bound (n - 1) 146097 ltac:(lia)) as Hmod.
  set (q := (n - 1) / 146097) in *. set (r := (n - 1) mod 146097) in *.
  pose proof (all_from_spec _ _ _ H (r + 1) ltac:(lia)) as Hr.
  replace n with (146097 * q + r + 1) by lia.
  unfold date_reads_back in *. rewrite ord2ymd_cycle by lia.
  destruct (ord2ymd (r + 1)) as [[y m] d].
  apply andb_true_iff in Hr as [Hord Hday]. apply Z.eqb_eq in Hord.
  rewrite ymd2ord_cycle. unfold days_in_month in *. rewrite is_leap_cycle.
  apply andb_true_iff. split; [apply Z.eqb_eq; lia | exact Hday].
Qed.

Lemma expect_head (c : ascii) (rest : string) :
  expect c (String c "" ++ rest)%string = Some rest.
Proof. unfold expect. rewrite append_cons, Ascii.eqb_refl. reflexivity. Qed.

(** [fromisoformat] reads the text of a date back as midnight of that
    date, and what follows the date is left to read. *)
Lemma read_date_isoformat (n : Z) (rest : string) :
  1 <= n <= MAXORDINAL -> read_date (isoformat n ++ rest)%string = Some (n, rest).
Proof.
  intros Hn. pose proof (ord2ymd_fields n Hn) as Hf.
  pose proof (date_reads_back_all n ltac:(lia)) as Hback.
  unfold isoformat, date_reads_back in *.
  destruct (ord2ymd n) as [[y m] d]. destruct Hf as (Hy & Hm & Hd).
  apply andb_true_iff in Hback as [Hord Hday]. apply Z.eqb_eq in Hord.
  unfold read_date. rewrite !append_assoc.
  destruct (read_digits_zero_pad 4 y ("-" ++ zero_pad 2 m ++ "-" ++ zero_pad 2 d ++ rest)%string)
    as [-> _]; [lia | simpl; lia |].
  cbn [mbind option_bind]. rewrite expect_head.
  cbn [mbind option_bind].
  destruct (read_digits_zero_pad 2 m ("-" ++ zero_pad 2 d ++ rest)%string)
    as [-> _]; [lia | simpl; lia |].
  cbn [mbind option_bind]. rewrite expect_head.
  cbn [mbind option_bind].
  destruct (read_digits_zero_pad 2 d rest) as [-> _]; [lia | simpl; lia |].
  cbn [mbind option_bind].
  replace (1 <=? y) with true by (symmetry; apply Z.leb_le; lia).
  replace (1 <=? m) with true by (symmetry; apply Z.leb_le; lia).
  replace (m <=? 12) with true by (symmetry; apply Z.leb_le; lia).
  replace (1 <=? d) with true by (symmetry; apply Z.leb_le; lia).
  rewrite Hday, Hord. reflexivity.
Qed.

Lemma read_clock_time_text (us : Z) :
  0 <= us < MICROS_PER_DAY -> read_clock (time_text us) = Some (us, EmptyString).
Proof.
  unfold MICROS_PER_DAY. intros Hus. unfold read_clock, time_text. cbv zeta.
  set (hh := us / 3600000000). set (mm := us / 60000000 mod 60).
  set (ss := us / 1000000 mod 60). set (frac := us mod 1000000).
  assert (Hhh : 0 <= hh < 24)
    by (unfold hh; split; [apply Z.div_pos; lia | apply Z.div_lt_upper_bound; lia]).
  assert (Hmm : 0 <= mm < 60) by (apply Z.mod_pos_bound; lia).
  assert (Hss : 0 <= ss < 60) by (apply Z.mod_pos_bound; lia).
  assert (Hfrac : 0 <= frac < 1000000) by (apply Z.mod_pos_bound; lia).
  assert (Hsum : hh * 3600000000 + mm * 60000000 + ss * 1000000 + frac = us).
  { unfold hh, mm, ss, frac.
    assert (E1 : us / 60000000 = us / 1000000 / 60) by (rewrite Z.div_div by lia; reflexivity).
    assert (E2 : us / 3600000000 = us / 1000000 / 60 / 60)
      by (rewrite !Z.div_div by lia; reflexivity).
    rewrite E1, E2.
    pose proof (Z.div_mod us 1000000 ltac:(lia)).
    pose proof (Z.div_mod (us / 1000000) 60 ltac:(lia)).
    pose proof (Z.div_mod (us / 1000000 / 60) 60 ltac:(lia)).
    lia. }
  destruct (read_digits_zero_pad 2 hh
              (":" ++ zero_pad 2 mm ++ ":" ++ zero_pad 2 ss
               ++ (if (frac =? 0)%Z then "" else "." ++ zero_pad 6 frac))%string)
    as [-> _]; [lia | simpl; lia |].
  cbn [mbind option_bind]. rewrite expect_head.
  destruct (read_digits_zero_pad 2 mm
              (":" ++ zero_pad 2 ss
               ++ (if (frac =? 0)%Z then "" else "." ++ zero_pad 6 frac))%string)
    as [-> _]; [lia | simpl; lia |].
  cbn [mbind option_bind]. rewrite expect_head.
  destruct (read_digits_zero_pad 2 ss
              (if (frac =? 0)%Z then "" else "." ++ zero_pad 6 frac)%string)
    as [-> _]; [lia | simpl; lia |].
  cbn [mbind option_bind].
  replace (hh <? 24) with true by (symmetry; apply Z.ltb_lt; lia).
  replace (mm <? 60) with true by (symmetry; apply Z.ltb_lt; lia).
  replace (ss <? 60) with true by (symmetry; apply Z.ltb_lt; lia).
  destruct (frac =? 0) eqn:Hzero.
  - apply Z.eqb_eq in Hzero. cbn [read_fraction mbind option_bind andb].
    do 2 f_equal. lia.
  - rewrite append_cons. cbn [read_fraction].
    destruct (read_digits_zero_pad 6 frac EmptyString) as [Hread _]; [lia | simpl; lia |].
    rewrite append_nil_r in Hread. change ("" ++ zero_pad 6 frac)%string with (zero_pad 6 frac).
    rewrite Hread. cbn [mbind option_bind andb]. do 2 f_equal. lia.
Qed.

(** The text [isoformat] writes for a naive [datetime] reads back as the
    same value. *)
Lemma fromisoformat_basic_isoformat (n us : Z) :
  1 <= n <= MAXORDINAL -> 0 <= us < MICROS_PER_DAY ->
  let dt := {| dt_date := n; dt_micro := us; dt_offset := None |} in
  fromisoformat_basic (datetime_isoformat dt) = Some dt
  /\ datetime_isoformat dt <> EmptyString.
Proof.
  intros Hn Hus dt. unfold datetime_isoformat, dt. cbn [dt_date dt_micro dt_offset].
  split.
  - unfold fromisoformat_basic. rewrite read_date_isoformat by assumption.
    cbn [mbind option_bind]. rewrite append_cons, append_nil_r.
    change ("" ++ time_text us)%string with (time_text us).
    rewrite read_clock_time_text by assumption. reflexivity.
  - intros H. apply (f_equal String.length) in H.
    rewrite length_append, isoformat_length in H by assumption. discriminate.
Qed.

(** The text of a date alone reads back as midnight of that date. *)
Lemma fromisoformat_basic_date (n : Z) :
  1 <= n <= MAXORDINAL ->
  fromisoformat_basic (isoformat n)
  = Some {| dt_date := n; dt_micro := 0; dt_offset := None |}.
Proof.
  intros Hn. unfold fromisoformat_basic.
  rewrite <- (append_nil_r (isoformat n)), read_date_isoformat by assumption.
  reflexivity.
Qed.

(** ** Task reminders *)

Lemma filter_sublist_mono {A : Type} (p q : A -> bool) (l : list A) :
  (forall x, p x = true -> q x = true) -> List.filter p l `sublist_of` List.filter q l.
Proof.
  intros H. induction l as [|x l IH]; simpl; [constructor|].
  destruct (p x) eqn:Hp.
  - rewrite (H x Hp). constructor. exact IH.
  - destruct (q x); [constructor|]; exact IH.
Qed.

Lemma filter_sublist_self {A : Type} (p : A -> bool) (l : list A) :
  List.filter p l `sublist_of` l.
Proof.
  induction l as [|x l IH]; simpl; [constructor|].
  destruct (p x); constructor; exact IH.
Qed.

Lemma elem_of_List_filter {A : Type} (p : A -> bool) (l : list A) (x : A) :
  x ∈ List.filter p l <-> x ∈ l /\ p x = true.
Proof. rewrite !list_elem_of_In. apply filter_In. Qed.

Section ReminderFacts.
Context `{RT : Runtime}.

Lemma task_reminder_inv (clock : instant) (tasks : list dict) (days : Z)
    (now_iso : option string) (r : reminders) :
  task_reminder_tool clock tasks days now_iso = Ok r ->
  exists soon : datetime,
    add_days (reminder_now clock now_iso) (Z.max 0 days) = Ok soon
    /\ r = {| reminders_now := datetime_isoformat (reminder_now clock now_iso);
              due_within_days := days;
              upcoming := List.filter
                            (fun t => try_except
                                        (task_due (reminder_now clock now_iso) soon t) false)
                            tasks |}.
Proof.
  unfold task_reminder_tool.
  destruct (add_days (reminder_now clock now_iso) (Z.max 0 days)) as [soon|e];
    simpl; [|discriminate].
  intros [= <-]. exists soon. split; reflexivity.
Qed.

(** When a task is appended. *)
Lemma task_due_true (now soon : datetime) (t : dict) :
  try_except (task_due now soon t) false = true
  <-> truthy (get t "deadline") = true
      /\ exists dld : datetime,
           fromisoformat (py_str (get t "deadline")) = Some dld
           /\ datetime_le now dld = Ok true
           /\ datetime_le dld soon = Ok true
           /\ task_closed t = false.
Proof.
  unfold task_due, task_closed. cbv zeta. split.
  - destruct (truthy (get t "deadline")); [|discriminate].
    destruct (fromisoformat (py_str (get t "deadline"))) as [dld|]; [|discriminate].
    destruct (datetime_le now dld) as [[|]|e] eqn:Hnow; cbn [bind try_except];
      try discriminate.
    destruct (datetime_le dld soon) as [[|]|e] eqn:Hsoon; cbn [bind try_except];
      try discriminate.
    intros H. apply negb_true_iff in H. split; [reflexivity|].
    exists dld. repeat split; assumption.
  - intros (-> & dld & -> & Hnow & Hsoon & Hopen).
    rewrite Hnow. cbn [bind]. rewrite Hsoon. cbn [bind]. rewrite Hopen. reflexivity.
Qed.

(** The end of the window moves with [days_ahead]. *)
Lemma datetime_le_later (a b b' : datetime) :
  dt_date b <= dt_date b' -> dt_micro b = dt_micro b' -> dt_offset b = dt_offset b' ->
  datetime_le a b = Ok true -> datetime_le a b' = Ok true.
Proof.
  unfold datetime_le, MICROS_PER_DAY. intros Hdate Hmicro <-.
  destruct (dt_offset a), (dt_offset b); try discriminate; intros [= H]; f_equal.
  - apply Z.leb_le in H. apply Z.leb_le. lia.
  - apply orb_true_iff in H. apply orb_true_iff.
    destruct H as [H | H].
    + apply Z.ltb_lt in H. left. apply Z.ltb_lt. lia.
    + apply andb_true_iff in H as [Heq Hle]. apply Z.eqb_eq in Heq. apply Z.leb_le in Hle.
      destruct (Z.eq_dec (dt_date b) (dt_date b')) as [E|E].
      * right. apply andb_true_iff. split; [apply Z.eqb_eq | apply Z.leb_le]; lia.
      * left. apply Z.ltb_lt. lia.
Qed.
End ReminderFacts.

(** X4: however the tasks are filled in, the call returns, echoing
    [days_ahead] and reporting tasks of the list in their order, as long as
    the end of the window, [max(0, days_ahead)] days after [now], is no
    later than 9999-12-31; beyond that it raises [OverflowError]. *)
Theorem task_reminder_window `{RT : Runtime} (clock : instant) (tasks : list dict)
    (days_ahead : Z) (now_iso : option string) :
  let now := reminder_now clock now_iso in
  1 <= dt_date now <= MAXORDINAL ->
  (dt_date now + Z.max 0 days_ahead <= MAXORDINAL ->
   exists r : reminders,
     task_reminder_tool clock tasks days_ahead now_iso = Ok r
     /\ due_within_days r = days_ahead
     /\ reminders_now r = datetime_isoformat now
     /\ upcoming r `sublist_of` tasks)
  /\ (MAXORDINAL < dt_date now + Z.max 0 days_ahead ->
      task_reminder_tool clock tasks days_ahead now_iso = Raise OverflowError).
Proof.
  intros now Hnow. split; intros Hend.
  - unfold task_reminder_tool. fold now.
    rewrite add_days_Ok by lia. simpl.
    eexists. split; [reflexivity|]. repeat split.
    apply filter_sublist_self.
  - destruct (task_reminder_tool clock tasks days_ahead now_iso) as [r|e] eqn:H.
    + apply task_reminder_inv in H as (soon & Hsoon & _).
      apply add_days_inv in Hsoon. fold now in Hsoon. lia.
    + unfold task_reminder_tool in H. fold now in H.
      destruct (add_days now (Z.max 0 days_ahead)) as [soon|e'] eqn:Hsoon;
        simpl in H; [discriminate|].
      injection H as <-. f_equal. eapply add_days_Raise, Hsoon.
Qed.

(** X5: a task is reported exactly when it has a deadline that parses to a
    value between [now] and the end of the window, both included, and its
    status is not [done] or [completed] in any letter case; a task without
    a deadline, or with a closed status, is never reported. *)
Theorem task_reminder_reports `{RT : Runtime} (clock : instant) (tasks : list dict)
    (days_ahead : Z) (now_iso : option string) (r : reminders) :
  task_reminder_tool clock tasks days_ahead now_iso = Ok r ->
  let now := reminder_now clock now_iso in
  exists soon : datetime,
    add_days now (Z.max 0 days_ahead) = Ok soon
    /\ (forall t : dict,
          t ∈ upcoming r
          <-> t ∈ tasks
              /\ truthy (get t "deadline") = true
              /\ exists dld : datetime,
                   fromisoformat (py_str (get t "deadline")) = Some dld
                   /\ datetime_le now dld = Ok true
                   /\ datetime_le dld soon = Ok true
                   /\ task_closed t = false)
    /\ (forall t : dict, task_closed t = true -> t ∉ upcoming r)
    /\ (forall t : dict, t !! "deadline" = None -> t ∉ upcoming r).
Proof.
  intros H now. apply task_reminder_inv in H as (soon & Hsoon & ->).
  exists soon. split; [exact Hsoon|]. cbn [upcoming]. fold now.
  assert (Hiff : forall t : dict,
            t ∈ List.filter (fun t => try_except (task_due now soon t) false) tasks
            <-> t ∈ tasks
                /\ truthy (get t "deadline") = true
                /\ exists dld : datetime,
                     fromisoformat (py_str (get t "deadline")) = Some dld
                     /\ datetime_le now dld = Ok true
                     /\ datetime_le dld soon = Ok true
                     /\ task_closed t = false).
  { intros t. rewrite elem_of_List_filter, task_due_true. reflexivity. }
  split; [exact Hiff|]. split.
  - intros t Hclosed Hin. apply Hiff in Hin as (_ & _ & dld & _ & _ & _ & Hopen).
    congruence.
  - intros t Hnone Hin. apply Hiff in Hin as (_ & Htruthy & _).
    unfold get in Htruthy. rewrite Hnone in Htruthy. discriminate.
Qed.

(** X6: a longer window reports what a shorter one reports, in the same
    order, and every [days_ahead] below zero gives the window of zero. *)
Theorem task_reminder_window_grows `{RT : Runtime} (clock : instant) (tasks : list dict)
    (days1 days2 : Z) (now_iso : option string) (r1 r2 : reminders) :
  days1 <= days2 ->
  task_reminder_tool clock tasks days1 now_iso = Ok r1 ->
  task_reminder_tool clock tasks days2 now_iso = Ok r2 ->
  upcoming r1 `sublist_of` upcoming r2
  /\ (days2 <= 0 -> upcoming r1 = upcoming r2).
Proof.
  intros Hdays H1 H2.
  apply task_reminder_inv in H1 as (soon1 & Hsoon1 & ->).
  apply task_reminder_inv in H2 as (soon2 & Hsoon2 & ->).
  cbn [upcoming]. split.
  - apply filter_sublist_mono. intros t Ht.
    apply task_due_true in Ht as (Htruthy & dld & Hparse & Hnow & Hsoon & Hopen).
    apply task_due_true. split; [exact Htruthy|].
    exists dld. repeat split; try assumption.
    revert Hsoon. apply datetime_le_later.
    + apply add_days_inv in Hsoon1 as [-> _]. apply add_days_inv in Hsoon2 as [-> _]. lia.
    + unfold add_days in Hsoon1, Hsoon2.
      repeat match goal with
             | H : (if ?c then _ else _) = Ok _ |- _ => destruct c; [|discriminate]
             end.
      injection Hsoon1 as <-. injection Hsoon2 as <-. reflexivity.
    + unfold add_days in Hsoon1, Hsoon2.
      repeat match goal with
             | H : (if ?c then _ else _) = Ok _ |- _ => destruct c; [|discriminate]
             end.
      injection Hsoon1 as <-. injection Hsoon2 as <-. reflexivity.
  - intros Hneg.
    replace (Z.max 0 days1) with 0 in Hsoon1 by lia.
    replace (Z.max 0 days2) with 0 in Hsoon2 by lia.
    rewrite Hsoon1 in Hsoon2. injection Hsoon2 as <-. reflexivity.
Qed.

Lemma filter_take_index {A : Type} (p : A -> bool) (l : list A) :
  forall k : nat,
    (forall (i : nat) (x : A), l !! i = Some x -> p x = true <-> (i < k)%nat) ->
    List.filter p l = take k l.
Proof.
  induction l as [|x l IH]; intros k H; [destruct k; reflexivity|].
  pose proof (H O x eq_refl) as Hx. destruct k as [|k]; simpl.
  - destruct (p x); [exfalso; apply (Nat.lt_irrefl 0), Hx; reflexivity|].
    rewrite (IH O); [destruct l; reflexivity|].
    intros i y Hy. rewrite (H (S i) y Hy). lia.
  - rewrite (proj2 Hx) by lia. f_equal. apply IH.
    intros i y Hy. rewrite (H (S i) y Hy). lia.
Qed.

(** A task whose deadline reads as midnight of day [day]. *)
Lemma date_deadline_due `{RT : Runtime} (clock : instant) (days_ahead : Z)
    (soon : datetime) (t : dict) (text : string) (day : Z) :
  add_days (datetime_now clock) (Z.max 0 days_ahead) = Ok soon ->
  0 <= micro_of_day clock ->
  t !! "deadline" = Some (VStr text) -> text <> EmptyString ->
  fromisoformat text = Some {| dt_date := day; dt_micro := 0; dt_offset := None |} ->
  try_except (task_due (datetime_now clock) soon t) false = true
  <-> (today clock < day \/ (today clock = day /\ micro_of_day clock = 0))
      /\ day <= today clock + Z.max 0 days_ahead
      /\ task_closed t = false.
Proof.
  intros Hsoon Hmicro Hdl Htext Hparse.
  assert (Hsoon' : soon = {| dt_date := today clock + Z.max 0 days_ahead;
                             dt_micro := micro_of_day clock; dt_offset := None |}).
  { unfold add_days in Hsoon.
    repeat match goal with
           | H : (if ?c then _ else _) = Ok _ |- _ => destruct c; [|discriminate]
           end.
    injection Hsoon as <-. reflexivity. }
  rewrite task_due_true. unfold get. rewrite Hdl.
  change (default VNone (Some (VStr text))) with (VStr text). cbn [py_str truthy].
  rewrite Hparse, Hsoon'. unfold datetime_le, datetime_now.
  cbn [dt_date dt_micro dt_offset]. split.
  - intros (_ & dld & [= <-] & [= Hnow] & [= Hend] & Hopen).
    cbn [dt_date dt_micro dt_offset] in *.
    apply orb_true_iff in Hnow. apply orb_true_iff in Hend.
    repeat split; [|  |exact Hopen].
    + destruct Hnow as [H | H]; [apply Z.ltb_lt in H; lia|].
      apply andb_true_iff in H as [H1 H2]. apply Z.eqb_eq in H1. apply Z.leb_le in H2. lia.
    + destruct Hend as [H | H]; [apply Z.ltb_lt in H; lia|].
      apply andb_true_iff in H as [H1 H2]. apply Z.eqb_eq in H1. lia.
  - intros (Hnow & Hend & Hopen). split.
    + apply negb_true_iff, String.eqb_neq, Htext.
    + eexists. split; [reflexivity|]. cbn [dt_date dt_micro dt_offset].
      repeat split; [| |exact Hopen]; f_equal; apply orb_true_iff.
      * destruct Hnow as [H | [H1 H2]]; [left; apply Z.ltb_lt; lia|].
        right. apply andb_true_iff. split; [apply Z.eqb_eq | apply Z.leb_le]; lia.
      * destruct (Z.eq_dec day (today clock + Z.max 0 days_ahead)) as [E|E].
        -- right. apply andb_true_iff. split; [apply Z.eqb_eq | apply Z.leb_le]; lia.
        -- left. apply Z.ltb_lt. lia.
Qed.

(** X7: a deadline given as a bare date stands for midnight: the task is
    reported when the date is after today and no later than the last day
    of the window, and open; a task due today is reported only when the
    clock reads midnight exactly. *)
Theorem task_due_on_a_date `{RT : Runtime} (clock : instant) (tasks : list dict)
    (days_ahead : Z) (t : dict) (text : string) (day : Z) (r : reminders) :
  0 <= micro_of_day clock ->
  t !! "deadline" = Some (VStr text) -> text <> EmptyString ->
  fromisoformat text = Some {| dt_date := day; dt_micro := 0; dt_offset := None |} ->
  task_reminder_tool clock tasks days_ahead None = Ok r ->
  (t ∈ upcoming r
   <-> t ∈ tasks
       /\ (today clock < day \/ (today clock = day /\ micro_of_day clock = 0))
       /\ day <= today clock + Z.max 0 days_ahead
       /\ task_closed t = false)
  /\ (day = today clock -> 0 < micro_of_day clock -> t ∉ upcoming r).
Proof.
  intros Hmicro Hdl Htext Hparse H.
  apply task_reminder_inv in H as (soon & Hsoon & ->). cbn [upcoming reminder_now] in *.
  assert (Hiff : t ∈ List.filter
                       (fun t => try_except (task_due (datetime_now clock) soon t) false)
                       tasks
                 <-> t ∈ tasks
                     /\ (today clock < day \/ (today clock = day /\ micro_of_day clock = 0))
                     /\ day <= today clock + Z.max 0 days_ahead
                     /\ task_closed t = false).
  { rewrite elem_of_List_filter.
    rewrite (date_deadline_due clock days_ahead soon t text day) by assumption.
    reflexivity. }
  split; [exact Hiff|].
  intros Hday Hlate Hin. apply Hiff in Hin as (_ & Hnow & _). lia.
Qed.

(** X8: reminders over the list [grant_search] returns: with the clock as
    [now], the opportunities reported are the first ones of the list, those
    of the positions [i] with [90 + 15 i <= days_ahead]. *)
Theorem reminders_of_opportunities (clock : instant) (kws : list string)
    (region : string) (max_results days_ahead : Z) (records : list dict)
    (r : reminders) :
  0 <= micro_of_day clock ->
  grant_search clock kws region max_results = Ok records ->
  task_reminder_tool (RT := example_runtime) clock records days_ahead None = Ok r ->
  let reported := Z.to_nat ((days_ahead - 75) / 15) in
  upcoming r = take reported records
  /\ forall i : nat, (i < reported)%nat <-> 90 + 15 * Z.of_nat i <= days_ahead.
Proof.
  intros Hmicro Hsearch H reported.
  assert (Hreported : forall i : nat,
            (i < reported)%nat <-> 90 + 15 * Z.of_nat i <= days_ahead).
  { intros i. unfold reported.
    pose proof (Z.div_mod (days_ahead - 75) 15 ltac:(lia)) as Hdiv.
    pose proof (Z.mod_pos_bound (days_ahead - 75) 15 ltac:(lia)) as Hmod.
    lia. }
  split; [|exact Hreported].
  apply task_reminder_inv in H as (soon & Hsoon & ->). cbn [upcoming reminder_now] in *.
  apply grant_search_Ok_inv in Hsearch as [_ Hpos].
  apply filter_take_index. intros i t Ht.
  destruct (Hpos i) as [Hrange Hi]; [eapply lookup_lt_Some, Ht|].
  rewrite Ht in Hi. injection Hi as ->.
  rewrite (date_deadline_due (RT := example_runtime) clock days_ahead soon _
             (isoformat (today clock + (90 + Z.of_nat i * 15)))
             (today clock + (90 + Z.of_nat i * 15))); try assumption.
  - rewrite Hreported. unfold task_closed. split; [lia|].
    intros Hi. split; [lia|]. split; [lia | reflexivity].
  - reflexivity.
  - intros E. apply (f_equal String.length) in E.
    rewrite isoformat_length in E by assumption. discriminate.
  - apply fromisoformat_basic_date. assumption.
Qed.

(** X9: the timestamp of an audit entry reads back as the instant of the
    entry, so that [task_reminder_tool], given it as [now_iso], answers as
    it does when called at that instant. *)
Theorem audit_timestamp_reads_back (clock : instant) (user action : string)
    (details : option dict) :
  1 <= today clock <= MAXORDINAL -> 0 <= micro_of_day clock < MICROS_PER_DAY ->
  exists (entry : dict) (stamp : string),
    audit_log_tool clock user action details
    = <["logged" := VBool true]> (<["entry" := VDict entry]> ∅)
    /\ entry !! "timestamp" = Some (VStr stamp)
    /\ entry !! "details" = Some (VDict (or_empty details))
    /\ fromisoformat_basic stamp = Some (datetime_now clock)
    /\ forall (other : instant) (tasks : list dict) (days_ahead : Z),
         task_reminder_tool (RT := example_runtime) other tasks days_ahead (Some stamp)
         = task_reminder_tool (RT := example_runtime) clock tasks days_ahead None.
Proof.
  intros Htoday Hmicro.
  destruct (fromisoformat_basic_isoformat (today clock) (micro_of_day clock) Htoday Hmicro)
    as [Hread Hfull].
  fold (datetime_now clock) in Hread, Hfull.
  eexists. exists (datetime_isoformat (datetime_now clock)).
  split; [reflexivity|]. repeat split; [exact Hread|].
  intros other tasks days_ahead. unfold task_reminder_tool, reminder_now.
  apply String.eqb_neq in Hfull. rewrite Hfull. cbn [negb fromisoformat example_runtime].
  rewrite Hread. reflexivity.
Qed.

(** ** Outreach letter *)

Section LetterFacts.
Context `{RT : Runtime}.
Local Open Scope string_scope.

End LetterFacts.

(** X10: the letter is written exactly when [last_gift_amount], or 0 in its
    place when the key is missing, is a number: a text there raises
    [ValueError], and [None] or a dictionary raises [TypeError].  So a donor
    whose amount is [None], or a text that [float] reads, is scored by the
    Donor Scorer and cannot be written to. *)
Theorem outreach_letter_needs_a_number `{RT : Runtime} (prospect : dict)
    (mission_statement event_name sponsorship_tier : string) :
  let letter := generate_outreach_letter prospect mission_statement event_name
                  sponsorship_tier in
  match get_or prospect "last_gift_amount" (VInt 0) with
  | VBool _ | VInt _ | VFloat _ => exists text : string, letter = Ok text
  | VStr _ => letter = Raise ValueError
  | VNone | VDict _ => letter = Raise TypeError
  end
  /\ (forall clock : instant,
        prospect !! "last_gift_amount" = Some VNone ->
        exists item : dict,
          scored_item clock prospect = Ok item
          /\ generate_outreach_letter item mission_statement event_name sponsorship_tier
             = Raise TypeError)
  /\ (forall (clock : instant) (amount : string) (f : float),
        prospect !! "last_gift_amount" = Some (VStr amount) ->
        amount <> EmptyString -> float_of_str amount = Some f ->
        exists item : dict,
          scored_item clock prospect = Ok item
          /\ generate_outreach_letter item mission_statement event_name sponsorship_tier
             = Raise ValueError).
Proof.
  intros letter. split; [|split].
  - unfold letter, generate_outreach_letter. cbv zeta.
    destruct (get_or prospect "last_gift_amount" (VInt 0)) as [|b|z|f|s|d];
      cbn [format_comma bind]; try reflexivity; eexists; reflexivity.
  - intros clock Hnone.
    unfold scored_item, potential_score, base_amount, get_or. rewrite Hnone.
    cbn [default py_or truthy py_float bind]. eexists. split; [reflexivity|].
    unfold generate_outreach_letter, get_or.
    rewrite (lookup_insert_ne prospect) by discriminate. rewrite Hnone. reflexivity.
  - intros clock amount f Htext Hfull Hread.
    unfold scored_item, potential_score, base_amount, get_or. rewrite Htext.
    change (default (VInt 0) (Some (VStr amount))) with (VStr amount).
    unfold py_or. cbn [truthy].
    apply String.eqb_neq in Hfull. rewrite Hfull. cbn [negb py_float]. rewrite Hread.
    cbn [bind]. eexists. split; [reflexivity|].
    unfold generate_outreach_letter, get_or.
    rewrite (lookup_insert_ne prospect) by discriminate. rewrite Htext. reflexivity.
Qed.


(** ** Funder report *)

Lemma foldl_add_shift (l : list Z) (a : Z) : foldl Z.add a l = a + foldl Z.add 0 l.
Proof.
  revert a. induction l as [|x l IH]; intros a; simpl; [lia|].
  rewrite IH, (IH (0 + x)). lia.
Qed.

Lemma for_each_app {A B : Type} (f : A -> result B) (l1 l2 : list A) (ys1 ys2 : list B) :
  for_each f l1 = Ok ys1 -> for_each f l2 = Ok ys2 ->
  for_each f (l1 ++ l2) = Ok (ys1 ++ ys2).
Proof.
  intros H1 H2. apply for_each_Ok. apply Forall2_app; apply for_each_Ok; assumption.
Qed.

Section ReportFacts.
Context `{RT : Runtime} `{IR : IntReader}.

Lemma report_to_funder_inv (award_id : string) (outcomes : list dict) (award_data r : dict) :
  report_to_funder_tool award_id outcomes award_data = Ok r ->
  exists (total : Z) (outcomes_text : string),
    total_beneficiaries outcomes = Ok total
    /\ key_outcomes outcomes = Ok outcomes_text
    /\ r = <["award_id" := VStr award_id]>
           (<["summary_text" :=
                VStr (funder_report_text award_id total outcomes_text award_data)]>
           (<["beneficiaries" := VInt total]>
           (<["outcomes_count" := VInt (Z.of_nat (length outcomes))]> ∅))).
Proof.
  unfold report_to_funder_tool.
  destruct (total_beneficiaries outcomes) as [total|e]; cbn [bind]; [|discriminate].
  destruct (key_outcomes outcomes) as [outcomes_text|e]; cbn [bind]; [|discriminate].
  intros [= <-]. exists total, outcomes_text. repeat split.
Qed.

Lemma total_beneficiaries_app (o1 o2 : list dict) (b1 b2 : Z) :
  total_beneficiaries o1 = Ok b1 -> total_beneficiaries o2 = Ok b2 ->
  total_beneficiaries (o1 ++ o2) = Ok (b1 + b2).
Proof.
  unfold total_beneficiaries.
  destruct (for_each _ o1) as [c1|e] eqn:H1; cbn [bind]; [|discriminate].
  destruct (for_each _ o2) as [c2|e] eqn:H2; cbn [bind]; [|discriminate].
  intros [= <-] [= <-]. rewrite (for_each_app _ _ _ _ _ H1 H2). cbn [bind].
  rewrite foldl_app, (foldl_add_shift c2). reflexivity.
Qed.

Lemma key_outcomes_app (o1 o2 : list dict) (t1 t2 : string) :
  key_outcomes o1 = Ok t1 -> key_outcomes o2 = Ok t2 ->
  exists t, key_outcomes (o1 ++ o2) = Ok t.
Proof.
  unfold key_outcomes.
  destruct (for_each _ (List.filter _ o1)) as [c1|e] eqn:H1; cbn [bind]; [|discriminate].
  destruct (for_each _ (List.filter _ o2)) as [c2|e] eqn:H2; cbn [bind]; [|discriminate].
  intros _ _. rewrite List.filter_app, (for_each_app _ _ _ _ _ H1 H2). cbn [bind].
  eexists. reflexivity.
Qed.
End ReportFacts.

(** X12: the figures of a report add up: when the reports on two lists of
    outcomes are produced, so is the report on the two lists put together,
    and its [beneficiaries] and [outcomes_count] are the sums of theirs. *)
Theorem funder_report_adds_up `{RT : Runtime} `{IR : IntReader} (award_id : string)
    (outcomes1 outcomes2 : list dict) (award_data r1 r2 : dict) :
  report_to_funder_tool award_id outcomes1 award_data = Ok r1 ->
  report_to_funder_tool award_id outcomes2 award_data = Ok r2 ->
  exists (r : dict) (b1 b2 n1 n2 : Z),
    report_to_funder_tool award_id (outcomes1 ++ outcomes2) award_data = Ok r
    /\ r1 !! "beneficiaries" = Some (VInt b1) /\ r2 !! "beneficiaries" = Some (VInt b2)
    /\ r !! "beneficiaries" = Some (VInt (b1 + b2))
    /\ r1 !! "outcomes_count" = Some (VInt n1) /\ r2 !! "outcomes_count" = Some (VInt n2)
    /\ r !! "outcomes_count" = Some (VInt (n1 + n2)).
Proof.
  intros H1 H2.
  apply report_to_funder_inv in H1 as (b1 & t1 & Hb1 & Ht1 & ->).
  apply report_to_funder_inv in H2 as (b2 & t2 & Hb2 & Ht2 & ->).
  destruct (key_outcomes_app _ _ _ _ Ht1 Ht2) as [t Ht].
  eexists. exists b1, b2, (Z.of_nat (length outcomes1)), (Z.of_nat (length outcomes2)).
  unfold report_to_funder_tool.
  rewrite (total_beneficiaries_app _ _ _ _ Hb1 Hb2), Ht. cbn [bind].
  split; [reflexivity|]. repeat split.
  rewrite length_app, Nat2Z.inj_add. reflexivity.
Qed.

(** X13: the report is produced exactly when [int] converts every
    [beneficiaries] entry, 0 standing for a missing one, and every
    [outcome] entry that is not empty is a text. *)
Theorem funder_report_succeeds `{RT : Runtime} `{IR : IntReader} (award_id : string)
    (outcomes : list dict) (award_data : dict) :
  (exists r : dict, report_to_funder_tool award_id outcomes award_data = Ok r)
  <-> Forall (fun o => exists z : Z, py_int (get_or o "beneficiaries" (VInt 0)) = Ok z)
        outcomes
      /\ Forall (fun o => truthy (get o "outcome") = true ->
                          exists s : string, o !! "outcome" = Some (VStr s)) outcomes.
Proof.
  split.
  - intros [r H]. apply report_to_funder_inv in H as (total & text & Htotal & Htext & _).
    split.
    + unfold total_beneficiaries in Htotal.
      destruct (for_each _ outcomes) as [counts|e] eqn:Hcounts; [|discriminate].
      apply for_each_Ok in Hcounts. apply Forall_forall. intros o Ho.
      apply list_elem_of_lookup_1 in Ho as [i Hi].
      destruct (Forall2_lookup_l _ _ _ _ _ Hcounts Hi) as (z & _ & Hz).
      exists z. exact Hz.
    + unfold key_outcomes in Htext.
      destruct (for_each _ (List.filter _ outcomes)) as [texts|e] eqn:Htexts; [|discriminate].
      apply for_each_Ok in Htexts. apply Forall_forall. intros o Ho Htruthy.
      assert (Hin : o ∈ List.filter (fun o => truthy (get o "outcome")) outcomes).
      { apply list_elem_of_In, filter_In. split; [apply list_elem_of_In, Ho | exact Htruthy]. }
      apply list_elem_of_lookup_1 in Hin as [i Hi].
      destruct (Forall2_lookup_l _ _ _ _ _ Htexts Hi) as (s & _ & Hs).
      unfold get in Htruthy. unfold get_or in Hs.
      destruct (o !! "outcome") as [v|]; [|discriminate].
      destruct v; try discriminate. eexists. reflexivity.
  - intros [Hcounts Htexts]. unfold report_to_funder_tool, total_beneficiaries, key_outcomes.
    destruct (for_each_total _ _ Hcounts) as [counts ->]. cbn [bind].
    destruct (for_each_total (fun o => join_item (get_or o "outcome" (VStr "")))
                (List.filter (fun o => truthy (get o "outcome")) outcomes)) as [texts ->].
    + apply Forall_forall. intros o Ho.
      apply list_elem_of_In, filter_In in Ho as [Ho Htruthy].
      rewrite Forall_forall in Htexts.
      destruct (Htexts o (proj2 (list_elem_of_In _ _) Ho) Htruthy) as [s Hs].
      exists s. unfold get_or. rewrite Hs. reflexivity.
    + cbn [bind]. eexists. reflexivity.
Qed.

(** ** Sample users *)

Section SampleFacts.
Context `{RT : Runtime} {rng : Type} (randint : Z -> Z -> rng -> Z * rng).
Hypothesis randint_range :
  forall (a b : Z) (g : rng), a <= b -> a <= fst (randint a b g) <= b.

Lemma sample_user_Ok (clock : instant) (last_names domains : list string)
    (min_age max_age : Z) (i : nat) (first : string) (g : rng) :
  365 < today clock <= MAXORDINAL -> min_age <= max_age ->
  exists (suffix age days : Z) (g' : rng),
    100 <= suffix <= 999 /\ min_age <= age <= max_age /\ 1 <= days <= 365
    /\ sample_user randint clock last_names domains min_age max_age i first g
       = Ok (<["id" := VInt (Z.of_nat i + 1)]>
             (<["firstName" := VStr first]>
             (<["lastName" :=
                  VStr (nth (i mod length last_names) last_names EmptyString)]>
             (<["email" :=
                  VStr (lower first ++ "."
                        ++ lower (nth (i mod length last_names) last_names EmptyString)
                        ++ "@" ++ nth (i mod length domains) domains EmptyString)%string]>
             (<["username" := VStr (lower first ++ str_of_Z suffix)%string]>
             (<["age" := VInt age]>
             (<["registeredAt" :=
                  VStr (datetime_isoformat
                          {| dt_date := today clock - days;
                             dt_micro := micro_of_day clock;
                             dt_offset := None |})]> ∅)))))), g').
Proof.
  intros Hclock Hages. unfold sample_user.
  pose proof (randint_range 100 999 g ltac:(lia)) as H1.
  destruct (randint 100 999 g) as [suffix g1]. cbn [fst] in H1.
  pose proof (randint_range min_age max_age g1 Hages) as H2.
  destruct (randint min_age max_age g1) as [age g2]. cbn [fst] in H2.
  pose proof (randint_range 1 365 g2 ltac:(lia)) as H3.
  destruct (randint 1 365 g2) as [days g3]. cbn [fst] in H3.
  rewrite add_days_Ok by (cbn [datetime_now dt_date]; lia).
  cbn [bind datetime_now dt_date dt_micro dt_offset].
  exists suffix, age, days, g3. repeat split; lia.
Qed.

Lemma sample_loop_Ok (clock : instant) (last_names domains : list string)
    (min_age max_age : Z) (first_names : list string) :
  365 < today clock <= MAXORDINAL -> min_age <= max_age ->
  forall (i : nat) (g : rng),
  exists (users : list dict) (g' : rng),
    sample_loop randint clock last_names domains min_age max_age i first_names g
    = Ok (users, g')
    /\ length users = length first_names
    /\ forall (k : nat) (first : string), first_names !! k = Some first ->
         exists (u : dict) (suffix age : Z),
           users !! k = Some u
           /\ 100 <= suffix <= 999 /\ min_age <= age <= max_age
           /\ u !! "id" = Some (VInt (Z.of_nat (i + k) + 1))
           /\ u !! "firstName" = Some (VStr first)
           /\ u !! "lastName"
              = Some (VStr (nth ((i + k) mod length last_names) last_names EmptyString))
           /\ u !! "email"
              = Some (VStr (lower first ++ "."
                            ++ lower (nth ((i + k) mod length last_names) last_names
                                        EmptyString)
                            ++ "@" ++ nth ((i + k) mod length domains) domains
                                        EmptyString)%string)
           /\ u !! "username" = Some (VStr (lower first ++ str_of_Z suffix)%string)
           /\ u !! "age" = Some (VInt age).
Proof.
  intros Hclock Hages.
  induction first_names as [|first rest IH]; intros i g; cbn [sample_loop].
  - exists [], g. split; [reflexivity|]. split; [reflexivity|].
    intros k first Hk. discriminate.
  - destruct (sample_user_Ok clock last_names domains min_age max_age i first g
                Hclock Hages) as (suffix & age & days & g1 & Hs & Ha & _ & ->).
    cbn [bind fst snd].
    destruct (IH (S i) g1) as (users & g2 & -> & Hlen & Hrest).
    cbn [bind fst snd]. eexists. exists g2. split; [reflexivity|].
    split; [simpl; congruence|].
    intros [|k] f Hk.
    + injection Hk as <-. rewrite Nat.add_0_r.
      eexists. exists suffix, age. split; [reflexivity|]. repeat split; lia.
    + destruct (Hrest k f Hk) as (u & sfx & a & Hu & Hsfx & Hage & Hfields).
      replace (i + S k)%nat with (S i + k)%nat by lia.
      exists u, sfx, a. split; [exact Hu|]. split; [exact Hsfx|]. split; [exact Hage|].
      exact Hfields.
Qed.
End SampleFacts.

(** X14: the arguments are checked in a fixed order and the first failing
    check names the error, without a draw from the generator: an empty
    list of first names, of last names, of domains, then
    [min_age > max_age], then a negative age.  Users are generated exactly
    when all three lists have an element and [0 <= min_age <= max_age]. *)
Theorem sample_users_checks `{RT : Runtime} {rng : Type}
    (randint : Z -> Z -> rng -> Z * rng)
    (clock : instant) (first_names last_names domains : list string)
    (min_age max_age : Z) (g : rng) :
  let reply := generate_sample_users randint clock first_names last_names domains
                 min_age max_age g in
  (first_names = [] -> reply = Ok (SampleError "first_names list cannot be empty", g))
  /\ (first_names <> [] -> last_names = [] ->
      reply = Ok (SampleError "last_names list cannot be empty", g))
  /\ (first_names <> [] -> last_names <> [] -> domains = [] ->
      reply = Ok (SampleError "domains list cannot be empty", g))
  /\ (first_names <> [] -> last_names <> [] -> domains <> [] -> max_age < min_age ->
      reply = Ok (SampleError ("min_age (" ++ str_of_Z min_age
                               ++ ") cannot be greater than max_age ("
                               ++ str_of_Z max_age ++ ")"), g))
  /\ (first_names <> [] -> last_names <> [] -> domains <> [] ->
      min_age <= max_age -> min_age < 0 ->
      reply = Ok (SampleError "ages must be non-negative", g))
  /\ (forall users count g', reply = Ok (SampleUsers users count, g') ->
      first_names <> [] /\ last_names <> [] /\ domains <> [] /\ 0 <= min_age <= max_age).
Proof.
  intros reply. unfold reply, generate_sample_users.
  destruct first_names as [|f fs], last_names as [|l ls], domains as [|d ds];
    repeat split; try congruence; try discriminate.
  - intros _ _ _ H. apply Z.ltb_lt in H. rewrite H. reflexivity.
  - intros _ _ _ H1 H2.
    destruct (Z.ltb_spec max_age min_age); [lia|].
    apply Z.ltb_lt in H2. rewrite H2. reflexivity.
  - destruct (Z.ltb_spec max_age min_age); [discriminate|].
    destruct (Z.ltb_spec min_age 0); [discriminate|]. lia.
  - destruct (Z.ltb_spec max_age min_age); [discriminate|]. lia.
Qed.

(** X15: when the arguments pass the checks and every draw of [randint a b]
    lies between [a] and [b], one user is generated per first name, in
    order: user [k] has [id = k + 1], the first name [k], the last name and
    the domain taken cyclically, the email
    [first.last@domain] in lower case, a user name ending in a number
    from 100 to 999, and an age between [min_age] and [max_age]; [count]
    is the number of first names. *)
Theorem sample_users_generated `{RT : Runtime} {rng : Type}
    (randint : Z -> Z -> rng -> Z * rng)
    (clock : instant) (first_names last_names domains : list string)
    (min_age max_age : Z) (g : rng) :
  (forall (a b : Z) (g : rng), a <= b -> a <= fst (randint a b g) <= b) ->
  365 < today clock <= MAXORDINAL ->
  first_names <> [] -> last_names <> [] -> domains <> [] ->
  0 <= min_age <= max_age ->
  exists (users : list dict) (g' : rng),
    generate_sample_users randint clock first_names last_names domains min_age max_age g
    = Ok (SampleUsers users (Z.of_nat (length first_names)), g')
    /\ length users = length first_names
    /\ forall (k : nat) (first : string), first_names !! k = Some first ->
         exists (u : dict) (suffix age : Z),
           users !! k = Some u
           /\ 100 <= suffix <= 999 /\ min_age <= age <= max_age
           /\ u !! "id" = Some (VInt (Z.of_nat k + 1))
           /\ u !! "firstName" = Some (VStr first)
           /\ u !! "lastName"
              = Some (VStr (nth (k mod length last_names) last_names EmptyString))
           /\ u !! "email"
              = Some (VStr (lower first ++ "."
                            ++ lower (nth (k mod length last_names) last_names EmptyString)
                            ++ "@" ++ nth (k mod length domains) domains EmptyString)%string)
           /\ u !! "username" = Some (VStr (lower first ++ str_of_Z suffix)%string)
           /\ u !! "age" = Some (VInt age).
Proof.
  intros Hrand Hclock Hf Hl Hd Hages.
  destruct (sample_loop_Ok randint Hrand clock last_names domains min_age max_age
              first_names Hclock ltac:(lia) O g) as (users & g' & Hloop & Hlen & Husers).
  exists users, g'. split; [|split; [exact Hlen | exact Husers]].
  unfold generate_sample_users.
  destruct first_names as [|f fs]; [congruence|].
  destruct last_names as [|l ls]; [congruence|].
  destruct domains as [|d ds]; [congruence|].
  destruct (Z.ltb_spec max_age min_age); [lia|].
  destruct (Z.ltb_spec min_age 0); [lia|].
  destruct (Z.ltb_spec max_age 0); [lia|].
  cbn [orb]. rewrite Hloop. cbn [bind fst snd]. rewrite Hlen. reflexivity.
Qed.

(** ** The order of texts *)

Lemma str_ltb_irrefl (s : string) : str_ltb s s = false.
Proof.
  induction s as [|a s IH]; [reflexivity|]. cbn [str_ltb].
  rewrite Nat.ltb_irrefl. exact IH.
Qed.

Lemma str_ltb_asym (s t : string) : str_ltb s t = true -> str_ltb t s = false.
Proof.
  revert t. induction s as [|a s IH]; intros [|b t]; cbn [str_ltb]; try congruence.
  destruct (Nat.ltb_spec (nat_of_ascii a) (nat_of_ascii b)),
           (Nat.ltb_spec (nat_of_ascii b) (nat_of_ascii a)); try lia; try congruence.
  apply IH.
Qed.

(** When [x < z], every text is above [x] or below [z]. *)
Lemma str_ltb_between (x y z : string) :
  str_ltb x z = true -> str_ltb x y = true \/ str_ltb y z = true.
Proof.
  revert y z. induction x as [|a x IH]; intros [|b y] [|c z]; cbn [str_ltb];
    try discriminate; try tauto.
  destruct (Nat.ltb_spec (nat_of_ascii a) (nat_of_ascii c)),
           (Nat.ltb_spec (nat_of_ascii c) (nat_of_ascii a)),
           (Nat.ltb_spec (nat_of_ascii a) (nat_of_ascii b)),
           (Nat.ltb_spec (nat_of_ascii b) (nat_of_ascii a)),
           (Nat.ltb_spec (nat_of_ascii b) (nat_of_ascii c)),
           (Nat.ltb_spec (nat_of_ascii c) (nat_of_ascii b));
    try lia; try tauto; try discriminate.
  apply IH.
Qed.

Lemma str_not_ltb_trans (x y z : string) :
  str_ltb y x = false -> str_ltb z y = false -> str_ltb z x = false.
Proof.
  intros H1 H2. destruct (str_ltb z x) eqn:H; [|reflexivity].
  destruct (str_ltb_between z y x H); congruence.
Qed.

(** ** Ascending sort of texts *)

Section SortedAscOrder.
Context {A : Type} (key : A -> string).

Let le (a b : A) : Prop := str_ltb (key b) (key a) = false.

Lemma insert_asc_sorted (x : A) (l r : list A) :
  insert_asc (fun a => VStr (key a)) x l = Ok r ->
  StronglySorted le l -> StronglySorted le r.
Proof.
  revert r. induction l as [|y l IH]; intros r; cbn [insert_asc py_lt bind].
  - intros [= <-] _. repeat constructor.
  - destruct (str_ltb (key y) (key x)) eqn:Hyx.
    + destruct (insert_asc _ x l) as [r'|e] eqn:Hr'; cbn [bind]; [|discriminate].
      intros [= <-] Hs. inversion Hs as [|? ? Hl Hy]; subst.
      constructor; [apply IH; [reflexivity | exact Hl]|].
      destruct (insert_asc_text (fun a => VStr (key a)) x l) as (r'' & Hr'' & Hperm).
      { eexists. reflexivity. }
      { apply Forall_forall. intros z _. eexists. reflexivity. }
      rewrite Hr' in Hr''. injection Hr'' as <-.
      rewrite Hperm. constructor; [apply str_ltb_asym, Hyx | exact Hy].
    + intros [= <-] Hs. constructor; [exact Hs|].
      inversion Hs as [|? ? Hl Hy]; subst.
      constructor; [exact Hyx|].
      eapply Forall_impl; [exact Hy|]. intros z Hz. unfold le in *.
      eapply str_not_ltb_trans; eassumption.
Qed.

Lemma sorted_asc_sorted (l r : list A) :
  sorted_asc (fun a => VStr (key a)) l = Ok r -> StronglySorted le r.
Proof.
  revert r. induction l as [|x l IH]; intros r; cbn [sorted_asc].
  - intros [= <-]. constructor.
  - destruct (sorted_asc _ l) as [r'|e]; cbn [bind]; [|discriminate].
    intros H. eapply insert_asc_sorted; [exact H | apply IH; reflexivity].
Qed.

(** A list whose keys already ascend strictly is returned as it is. *)
Lemma sorted_asc_ascending (l : list A) :
  StronglySorted (fun a b => str_ltb (key a) (key b) = true) l ->
  sorted_asc (fun a => VStr (key a)) l = Ok l.
Proof.
  induction 1 as [|x l Hl IH Hx]; cbn [sorted_asc]; [reflexivity|].
  rewrite IH. cbn [bind]. destruct l as [|y l]; [reflexivity|].
  cbn [insert_asc py_lt bind].
  inversion Hx as [|? ? Hxy _]; subst.
  rewrite (str_ltb_asym _ _ Hxy). reflexivity.
Qed.
End SortedAscOrder.

Lemma insert_asc_ext {A : Type} (key1 key2 : A -> value) (P : A -> Prop) (x : A)
    (l : list A) :
  (forall a, P a -> key1 a = key2 a) -> P x -> Forall P l ->
  insert_asc key1 x l = insert_asc key2 x l
  /\ forall r, insert_asc key1 x l = Ok r -> Forall P r.
Proof.
  intros Hext Hx Hl. induction Hl as [|y l Hy Hl [IH1 IH2]]; cbn [insert_asc].
  - split; [reflexivity|]. intros r [= <-]. repeat constructor. exact Hx.
  - rewrite (Hext x Hx), (Hext y Hy), IH1. split; [reflexivity|].
    intros r. destruct (py_lt (key2 y) (key2 x)) as [[|]|e]; cbn [bind]; [| |discriminate].
    + rewrite <- IH1. destruct (insert_asc key1 x l) as [r'|e]; cbn [bind]; [|discriminate].
      intros [= <-]. constructor; [exact Hy | apply IH2; reflexivity].
    + intros [= <-]. repeat constructor; assumption.
Qed.

Lemma sorted_asc_ext {A : Type} (key1 key2 : A -> value) (P : A -> Prop) (l : list A) :
  (forall a, P a -> key1 a = key2 a) -> Forall P l ->
  sorted_asc key1 l = sorted_asc key2 l
  /\ forall r, sorted_asc key1 l = Ok r -> Forall P r.
Proof.
  intros Hext Hl. induction Hl as [|x l Hx Hl [IH1 IH2]]; cbn [sorted_asc].
  - split; [reflexivity|]. intros r [= <-]. constructor.
  - rewrite <- IH1. destruct (sorted_asc key1 l) as [r'|e]; cbn [bind].
    + apply insert_asc_ext; [assumption | assumption | apply IH2; reflexivity].
    + split; [reflexivity | discriminate].
Qed.

Lemma deadline_text_key (opp : dict) :
  deadline_is_text opp -> deadline_key opp = VStr (deadline_text opp).
Proof.
  intros H. unfold deadline_text.
  destruct (deadline_key_text opp H) as [s ->]. reflexivity.
Qed.

Lemma sorted_asc_deadline_text (l : list dict) :
  Forall deadline_is_text l ->
  sorted_asc deadline_key l = sorted_asc (fun opp => VStr (deadline_text opp)) l.
Proof.
  intros H. eapply sorted_asc_ext; [|exact H]. apply deadline_text_key.
Qed.

Lemma strongly_sorted_lookup {A : Type} (R : A -> A -> Prop) (l : list A) :
  StronglySorted R l ->
  forall (i j : nat) (a b : A),
    (i < j)%nat -> l !! i = Some a -> l !! j = Some b -> R a b.
Proof.
  induction 1 as [|x l Hl IH Hx]; intros i j a b Hij Ha Hb; [discriminate|].
  destruct j as [|j]; [lia|]. cbn in Hb. destruct i as [|i].
  - injection Ha as <-. rewrite Forall_forall in Hx.
    eapply Hx, list_elem_of_lookup_2, Hb.
  - cbn in Ha. eapply (IH i j); [lia | eassumption..].
Qed.

Lemma lookup_strongly_sorted {A : Type} (R : A -> A -> Prop) (l : list A) :
  (forall (i j : nat) (a b : A),
      (i < j)%nat -> l !! i = Some a -> l !! j = Some b -> R a b) ->
  StronglySorted R l.
Proof.
  induction l as [|x l IH]; intros H; constructor.
  - apply IH. intros i j a b Hij Ha Hb. apply (H (S i) (S j) a b); [lia | assumption..].
  - apply Forall_forall. intros y Hy. apply list_elem_of_lookup_1 in Hy as [j Hj].
    apply (H O (S j) x y); [lia | reflexivity | exact Hj].
Qed.

Section DashboardOrder.
Context `{RT : Runtime}.
Local Open Scope string_scope.

Lemma report_text_blocks (opportunities by_deadline donor_prospects : list dict)
    (target_text projected_text gap_text : string) :
  let text := report_text opportunities by_deadline donor_prospects
                target_text projected_text gap_text in
  starts_with (report_head opportunities) text = true
  /\ occurs_in (String.concat "" (map deadline_line (take 3 by_deadline))) text
  /\ occurs_in (String.concat "" (map prospect_line (take 3 donor_prospects))) text.
Proof.
  intros text. unfold text, report_text. split; [apply starts_with_append|].
  change (slice_to 3 by_deadline) with (take 3 by_deadline).
  change (slice_to 3 donor_prospects) with (take 3 donor_prospects).
  split.
  - apply occurs_in_append_l.
    destruct (take 3 by_deadline) as [|opp rest] eqn:E.
    + exists "", (nl ++ "â€¢ Top donor/sponsor prospects:" ++ nl
                  ++ String.concat "" (map prospect_line (take 3 donor_prospects))
                  ++ nl ++ "â€¢ Event Revenue Projection:" ++ nl
                  ++ "   Target: $" ++ target_text ++ nl
                  ++ "   Projected: $" ++ projected_text ++ nl
                  ++ gap_line gap_text ++ closing_text).
      reflexivity.
    + apply occurs_in_append_r. do 2 apply occurs_in_append_l. apply occurs_in_refl.
  - do 5 apply occurs_in_append_l. apply occurs_in_append_r, occurs_in_refl.
Qed.
End DashboardOrder.

(** X16: the report counts every opportunity and lists at most three of them,
    the ones with the earliest deadlines, earliest first; it lists the
    first three prospects in the order they were given. *)
Theorem dashboard_lists_in_order `{RT : Runtime} (opportunities donor_prospects : list dict)
    (event_projection : dict) (text : string) :
  Forall deadline_is_text opportunities ->
  dashboard_summary opportunities donor_prospects event_projection = Ok text ->
  exists by_deadline : list dict,
    sorted_asc deadline_key opportunities = Ok by_deadline
    /\ by_deadline ≡ₚ opportunities
    /\ deadlines_ascend by_deadline
    /\ starts_with (report_head opportunities) text = true
    /\ occurs_in (String.concat "" (map deadline_line (take 3 by_deadline))) text
    /\ occurs_in (String.concat "" (map prospect_line (take 3 donor_prospects))) text.
Proof.
  intros Htext H. rewrite dashboard_summary_parts in H. cbv zeta in H.
  destruct (sorted_asc_text deadline_key opportunities) as (by_deadline & Hsorted & Hperm).
  { eapply Forall_impl; [exact Htext|]. intros opp. apply deadline_key_text. }
  rewrite Hsorted in H. cbn [bind] in H.
  destruct (format_comma _) as [target_text|e]; cbn [bind] in H; [|discriminate].
  destruct (format_comma _) as [projected_text|e]; cbn [bind] in H; [|discriminate].
  destruct (py_sub _ _) as [gap|e]; cbn [bind] in H; [|discriminate].
  destruct (format_comma gap) as [gap_text|e]; cbn [bind] in H; [|discriminate].
  injection H as <-.
  exists by_deadline. split; [exact Hsorted|]. split; [exact Hperm|]. split.
  - pose proof Hsorted as Hsorted'.
    rewrite sorted_asc_deadline_text in Hsorted' by assumption.
    apply sorted_asc_sorted in Hsorted'.
    intros i j a b s t Hij Ha Hb Hs Ht.
    pose proof (strongly_sorted_lookup _ _ Hsorted' i j a b Hij Ha Hb) as Hle.
    cbv beta in Hle. unfold deadline_text in Hle. rewrite Hs, Ht in Hle. exact Hle.
  - apply report_text_blocks.
Qed.

(** ** The tools in sequence *)

Lemma assign_fit_scores_lookup (clock : instant) (kws : list string) (region : string)
    (max_results : Z) (records : list dict) (i : nat) (opp : dict) :
  grant_search clock kws region max_results = Ok records ->
  assign_fit_scores records !! i = Some opp ->
  1 <= today clock + (90 + Z.of_nat i * 15) <= MAXORDINAL
  /\ opp = <["fit_score" := VInt (80 - Z.of_nat i * 10)]>
           (opportunity_on (today clock + (90 + Z.of_nat i * 15)) (keywords_text kws)
              region (Z.of_nat i)).
Proof.
  intros Hsearch Hopp. apply grant_search_Ok_inv in Hsearch as [_ Hpos].
  unfold assign_fit_scores in Hopp. rewrite list_lookup_imap in Hopp.
  destruct (records !! i) as [r|] eqn:Hr; [|discriminate]. injection Hopp as <-.
  destruct (Hpos i) as [Hrange Hi]; [eapply lookup_lt_Some, Hr|].
  rewrite Hr in Hi. injection Hi as ->. split; [exact Hrange | reflexivity].
Qed.

(** X17: the dashboard step of the driver: the opportunities that
    [grant_search] returns, given their fit scores, are already in the
    order of their deadlines, so the report lists the first three of them
    as they come, Example Foundation 1 to 3 with the fit scores 80, 70 and
    60. *)
Theorem dashboard_of_opportunities `{RT : Runtime} (clock : instant) (kws : list string)
    (region : string) (max_results : Z) (records donor_prospects : list dict)
    (event_projection : dict) (text : string) :
  grant_search clock kws region max_results = Ok records ->
  let opportunities := assign_fit_scores records in
  dashboard_summary opportunities donor_prospects event_projection = Ok text ->
  sorted_asc deadline_key opportunities = Ok opportunities
  /\ occurs_in (String.concat "" (map deadline_line (take 3 opportunities))) text
  /\ forall (i : nat) (opp : dict), opportunities !! i = Some opp ->
       deadline_line opp
       = ("   - " ++ ("Example Foundation " ++ str_of_Z (Z.of_nat i + 1))
          ++ " (Deadline: " ++ isoformat (today clock + (90 + Z.of_nat i * 15))
          ++ ", Fit Score: " ++ str_of_Z (80 - Z.of_nat i * 10) ++ ")" ++ nl)%string.
Proof.
  intros Hsearch opportunities Hreport.
  assert (Htext : Forall deadline_is_text opportunities).
  { apply Forall_forall. intros opp Hopp. apply list_elem_of_lookup_1 in Hopp as [i Hi].
    destruct (assign_fit_scores_lookup _ _ _ _ _ _ _ Hsearch Hi) as [_ ->].
    unfold deadline_is_text. eexists. reflexivity. }
  assert (Hsorted : sorted_asc deadline_key opportunities = Ok opportunities).
  { rewrite sorted_asc_deadline_text by assumption.
    apply sorted_asc_ascending, lookup_strongly_sorted.
    intros i j a b Hij Ha Hb.
    destruct (assign_fit_scores_lookup _ _ _ _ _ _ _ Hsearch Ha) as [Hra ->].
    destruct (assign_fit_scores_lookup _ _ _ _ _ _ _ Hsearch Hb) as [Hrb ->].
    change (str_ltb (isoformat (today clock + (90 + Z.of_nat i * 15)))
              (isoformat (today clock + (90 + Z.of_nat j * 15))) = true).
    apply isoformat_lt; lia. }
  split; [exact Hsorted|]. split.
  - rewrite dashboard_summary_parts in Hreport. cbv zeta in Hreport.
    rewrite Hsorted in Hreport. cbn [bind] in Hreport.
    destruct (format_comma _) as [target_text|e]; cbn [bind] in Hreport; [|discriminate].
    destruct (format_comma _) as [projected_text|e]; cbn [bind] in Hreport; [|discriminate].
    destruct (py_sub _ _) as [gap|e]; cbn [bind] in Hreport; [|discriminate].
    destruct (format_comma gap) as [gap_text|e]; cbn [bind] in Hreport; [|discriminate].
    injection Hreport as <-. apply report_text_blocks.
  - intros i opp Hopp.
    destruct (assign_fit_scores_lookup _ _ _ _ _ _ _ Hsearch Hopp) as [_ ->].
    reflexivity.
Qed.

(** ** Opportunity records *)

(** X18: every record of the Opportunity Generator has the same eight keys, an
    award range with [0 < min < max], the region as it was given, and as
    its mission focus the keywords joined by [", "], or
    [general mission alignment] when there is none. *)
Theorem grant_search_records (clock : instant) (kws : list string) (region : string)
    (max_results : Z) (records : list dict) :
  grant_search clock kws region max_results = Ok records ->
  forall (i : nat) (r : dict), records !! i = Some r ->
    dom r = ({["funder_name"; "mission_focus"; "award_size_min"; "award_size_max";
               "deadline"; "geographic_restriction"; "eligibility"; "url"]} : gset string)
    /\ r !! "geographic_restriction" = Some (VStr region)
    /\ r !! "mission_focus"
       = Some (VStr ("Focus on: "
                     ++ match kws with
                        | [] => "general mission alignment"
                        | _ => String.concat ", " kws
                        end)%string)
    /\ r !! "funder_name"
       = Some (VStr ("Example Foundation " ++ str_of_Z (Z.of_nat i + 1))%string)
    /\ exists lo hi : Z,
         r !! "award_size_min" = Some (VInt lo) /\ r !! "award_size_max" = Some (VInt hi)
         /\ 0 < lo < hi /\ hi - lo = 20000 + 1000 * Z.of_nat i.
Proof.
  intros H i r Hr. apply grant_search_Ok_inv in H as [_ Hpos].
  destruct (Hpos i) as [_ Hi]; [eapply lookup_lt_Some, Hr|].
  rewrite Hr in Hi. injection Hi as ->.
  split.
  { unfold opportunity_on. rewrite !dom_insert_L, dom_empty_L. set_solver. }
  split; [reflexivity|]. split; [destruct kws; reflexivity|]. split; [reflexivity|].
  exists (5000 + Z.of_nat i * 1000), (25000 + Z.of_nat i * 2000).
  split; [reflexivity|]. split; [reflexivity|]. lia.
Qed.

(** ** Donor filters *)

Section FilterFacts.
Context `{RT : Runtime}.

Lemma apply_filters_elem (industry_filter : option (list string)) (region : option string)
    (l : list dict) (d : dict) :
  d ∈ apply_filters (fun d => d) industry_filter region l
  <-> d ∈ l
      /\ (forall names, industry_filter = Some names -> names <> [] ->
            industry_matches (map lower names) d = true)
      /\ (forall r, region = Some r -> r <> EmptyString ->
            region_matches (lower r) d = true).
Proof.
  unfold apply_filters.
  assert (Hf : forall (p : dict -> bool) (l' : list dict),
             d ∈ List.filter p l' <-> d ∈ l' /\ p d = true).
  { intros p l'. rewrite !list_elem_of_In. apply filter_In. }
  destruct industry_filter as [[|n names]|], region as [[|c r]|]; rewrite ?Hf;
    (split; intros H;
     repeat match goal with
            | H : _ /\ _ |- _ => destruct H
            end;
     repeat split;
     try assumption;
     try (intros ? [= <-] ?; first [assumption | congruence]);
     try (intros ? [=]);
     try (match goal with
          | H : forall _, _ -> _ -> _ = true |- _ = true =>
              apply H; [reflexivity | discriminate]
          end)).
Qed.
End FilterFacts.

(** X19: every record the Donor Scorer returns passes the filters in force:
    its industry, in lower case, is one of the filter's names in lower
    case, and its region, in lower case, contains the region filter in
    lower case.  When [top_n] is at least the number of donors, every donor
    that passes the filters is returned with its score. *)
Theorem donor_prospect_filters `{RT : Runtime} (clock : instant) (past_donors : list dict)
    (industry_filter : option (list string)) (region : option string) (top_n : Z)
    (out : list dict) :
  donor_prospect clock past_donors industry_filter region top_n = Ok out ->
  (forall item : dict, item ∈ out ->
     (forall names, industry_filter = Some names -> names <> [] ->
        exists name : string,
          name ∈ names
          /\ lower (py_str (get_or item "industry" (VStr ""))) = lower name)
     /\ (forall r, region = Some r -> r <> EmptyString ->
           occurs_in (lower r) (lower (py_str (get_or item "region" (VStr ""))))))
  /\ (Z.of_nat (length past_donors) <= top_n ->
      forall d : dict, d ∈ past_donors ->
        (forall names, industry_filter = Some names -> names <> [] ->
           industry_matches (map lower names) d = true) ->
        (forall r, region = Some r -> r <> EmptyString ->
           region_matches (lower r) d = true) ->
        exists s : float,
          potential_score clock d = Ok s /\ <["potential_score" := VFloat s]> d ∈ out).
Proof.
  intros H. apply donor_prospect_inv in H as (scored & Hscored & ->). split.
  - intros item Hitem. apply elem_of_take in Hitem as (i & Hi & _).
    apply list_elem_of_lookup_2 in Hi. rewrite sorted_desc_perm in Hi.
    apply list_elem_of_lookup_1 in Hi as [j Hj].
    destruct (Forall2_lookup_r _ _ _ _ _ Hscored Hj) as (d & Hd & s & _ & ->).
    apply list_elem_of_lookup_2, apply_filters_elem in Hd as (_ & Hind & Hreg).
    unfold get_or. rewrite !lookup_insert_ne by discriminate. split.
    + intros names Hn Hne. specialize (Hind names Hn Hne).
      unfold industry_matches, in_set in Hind. apply existsb_exists in Hind as (x & Hx & Heq).
      apply String.eqb_eq in Heq. apply in_map_iff in Hx as (name & <- & Hname).
      exists name. split; [apply list_elem_of_In, Hname | exact Heq].
    + intros r Hr Hne. apply contains_occurs_in, (Hreg r Hr Hne).
  - intros Htop d Hd Hind Hreg.
    assert (Hs : d ∈ apply_filters (fun d => d) industry_filter region past_donors)
      by (apply apply_filters_elem; auto).
    apply list_elem_of_lookup_1 in Hs as [i Hi].
    destruct (Forall2_lookup_l _ _ _ _ _ Hscored Hi) as (item & Hitem & s & Hs & ->).
    exists s. split; [exact Hs|].
    rewrite take_ge.
    + rewrite sorted_desc_perm. eapply list_elem_of_lookup_2, Hitem.
    + rewrite sorted_desc_length, <- (Forall2_length _ _ _ Hscored).
      pose proof (apply_filters_length (fun d => d) industry_filter region past_donors).
      lia.
Qed.

(** X20: the Donor Scorer returns exactly when [float] converts the amount of
    every donor that passes the filters; otherwise it raises the error of
    such a donor.  An amount that is missing, [None], zero or an empty text
    counts as 0.0, and a donor the filters reject is never converted. *)
Theorem donor_prospect_returns `{RT : Runtime} (clock : instant) (past_donors : list dict)
    (industry_filter : option (list string)) (region : option string) (top_n : Z) :
  let survivors := apply_filters (fun d => d) industry_filter region past_donors in
  ((exists out, donor_prospect clock past_donors industry_filter region top_n = Ok out)
   <-> Forall (fun d => exists base, base_amount d = Ok base) survivors)
  /\ (forall e : exn,
        donor_prospect clock past_donors industry_filter region top_n = Raise e ->
        exists d : dict, d ∈ survivors /\ base_amount d = Raise e)
  /\ (forall d : dict,
        truthy (get_or d "last_gift_amount" (VInt 0)) = false ->
        base_amount d = Ok 0%float).
Proof.
  intros survivors. split; [split|split].
  - intros [out H]. apply donor_prospect_inv in H as (scored & Hscored & _).
    apply Forall_forall. intros d Hd. apply list_elem_of_lookup_1 in Hd as [i Hi].
    destruct (Forall2_lookup_l _ _ _ _ _ Hscored Hi) as (item & _ & s & Hs & _).
    unfold potential_score in Hs.
    destruct (base_amount d) as [base|e]; [eexists; reflexivity | discriminate].
  - apply donor_prospect_total.
  - intros e H. unfold donor_prospect in H. fold survivors in H.
    destruct (for_each (scored_item clock) survivors) as [scored|e'] eqn:Hloop;
      cbn [bind] in H; [discriminate|].
    injection H as ->. apply for_each_Raise in Hloop as (d & Hd & Hraise).
    exists d. split; [exact Hd|].
    unfold scored_item, potential_score in Hraise.
    destruct (base_amount d) as [base|e']; cbn [bind] in Hraise; [discriminate|].
    congruence.
  - intros d Hd. unfold base_amount, py_or. rewrite Hd. reflexivity.
Qed.

(** ** Worked examples *)

Lemma cache_set_then_get_witness :
  let stored :=
    cache_after (RT := example_runtime)
      (snd (cache_tool (RT := example_runtime) ∅ "SET" "report" (VInt 7) (Some 60)))
      [ {| cache_action := "get"; cache_key := "other";
           cache_value := VNone; cache_ttl := None |};
        {| cache_action := "set"; cache_key := "other";
           cache_value := VStr "x"; cache_ttl := None |} ] in
  cache_tool (RT := example_runtime) stored "Get" "report" VNone None
  = (<["hit" := VBool true]> (<["key" := VStr "report"]> (<["value" := VInt 7]> ∅)),
     stored).
Proof.
  intros stored. subst stored.
  apply (cache_set_then_get (RT := example_runtime) ∅ "report" (VInt 7) (Some 60)
           "SET" "Get"); reflexivity.
Defined.

Lemma cache_delete_then_get_witness :
  let stored :=
    cache_after (RT := example_runtime)
      (snd (cache_tool (RT := example_runtime) (<["report" := VInt 7]> ∅)
              "delete" "report" VNone None)) [] in
  cache_tool (RT := example_runtime) stored "get" "report" VNone None
  = (<["hit" := VBool false]> (<["key" := VStr "report"]> (<["value" := VNone]> ∅)),
     stored).
Proof.
  intros stored. subst stored.
  destruct (cache_delete_then_get (RT := example_runtime) (<["report" := VInt 7]> ∅)
              "report" VNone None "delete" "get" [] VNone None) as (_ & H & _);
    [left; reflexivity | reflexivity | reflexivity | exact H].
Defined.

Lemma task_reminder_window_witness :
  exists r : reminders,
    task_reminder_tool (RT := example_runtime) mock_clock mock_tasks 7 None = Ok r
    /\ due_within_days r = 7.
Proof.
  destruct (task_reminder_window (RT := example_runtime) mock_clock mock_tasks 7 None)
    as [Hok _]; [vm_compute; split; discriminate|].
  destruct Hok as (r & H & Hdays & _); [vm_compute; discriminate|].
  exists r. split; assumption.
Defined.

Lemma task_reminder_reports_witness :
  task "Submit grant" "2025-01-05" "open" ∈ upcoming mock_reminders.
Proof.
  assert (H : task_reminder_tool (RT := example_runtime) mock_clock mock_tasks 7 None
              = Ok mock_reminders) by (vm_cast_no_check (eq_refl (Ok mock_reminders))).
  destruct (task_reminder_reports (RT := example_runtime) _ _ _ _ _ H)
    as (soon & Hsoon & Hiff & _).
  apply Hiff. split; [left|].
  vm_compute in Hsoon. injection Hsoon as <-.
  split; [reflexivity|]. eexists. repeat split; vm_compute; reflexivity.
Defined.

Lemma task_reminder_window_grows_witness :
  upcoming mock_reminders_short `sublist_of` upcoming mock_reminders.
Proof.
  assert (H1 : task_reminder_tool (RT := example_runtime) mock_clock mock_tasks 3 None
               = Ok mock_reminders_short)
    by (vm_cast_no_check (eq_refl (Ok mock_reminders_short))).
  assert (H2 : task_reminder_tool (RT := example_runtime) mock_clock mock_tasks 7 None
               = Ok mock_reminders) by (vm_cast_no_check (eq_refl (Ok mock_reminders))).
  apply (task_reminder_window_grows (RT := example_runtime) _ _ 3 7 _ _ _ ltac:(lia) H1 H2).
Defined.

Lemma task_due_on_a_date_witness :
  task "Thank donors" "2025-01-01" "open" ∈ upcoming midnight_reminders.
Proof.
  assert (H : task_reminder_tool (RT := example_runtime) mock_midnight mock_tasks 7 None
              = Ok midnight_reminders)
    by (vm_cast_no_check (eq_refl (Ok midnight_reminders))).
  destruct (task_due_on_a_date (RT := example_runtime) mock_midnight mock_tasks 7
              (task "Thank donors" "2025-01-01" "open") "2025-01-01" 739252
              midnight_reminders) as [Hiff _];
    [vm_compute; discriminate | reflexivity | discriminate | reflexivity | exact H |].
  apply Hiff. split; [right; right; left|].
  split; [right; split; reflexivity|]. split; [vm_compute; discriminate | reflexivity].
Defined.

Lemma reminders_of_opportunities_witness :
  upcoming opportunity_reminders = take 1 mock_opportunities.
Proof.
  assert (Hsearch : grant_search mock_clock [] "NY, USA" 3 = Ok mock_opportunities)
    by (vm_cast_no_check (eq_refl (Ok mock_opportunities))).
  assert (H : task_reminder_tool (RT := example_runtime) mock_clock mock_opportunities
                100 None = Ok opportunity_reminders)
    by (vm_cast_no_check (eq_refl (Ok opportunity_reminders))).
  destruct (reminders_of_opportunities mock_clock [] "NY, USA" 3 100 mock_opportunities
              opportunity_reminders) as [Htake _];
    [vm_compute; discriminate | exact Hsearch | exact H | exact Htake].
Defined.

Lemma audit_timestamp_reads_back_witness :
  exists (entry : dict) (stamp : string),
    audit_log_tool mock_clock "treasurer" "record_deposit" None
    = <["logged" := VBool true]> (<["entry" := VDict entry]> ∅)
    /\ entry !! "timestamp" = Some (VStr stamp)
    /\ fromisoformat_basic stamp = Some (datetime_now mock_clock).
Proof.
  destruct (audit_timestamp_reads_back mock_clock "treasurer" "record_deposit" None)
    as (entry & stamp & Hlog & Hstamp & _ & Hread & _);
    [vm_compute; split; discriminate | vm_compute; split; [discriminate | reflexivity] |].
  exists entry, stamp. repeat split; assumption.
Defined.

Lemma outreach_letter_needs_a_number_witness :
  generate_outreach_letter (RT := example_runtime)
    (<["name" := VStr "Alumni Jane Doe"]> (<["last_gift_amount" := VNone]> ∅))
    "our mission" "the Ball" "Gold Sponsor"
  = Raise TypeError.
Proof.
  pose proof (outreach_letter_needs_a_number (RT := example_runtime)
                (<["name" := VStr "Alumni Jane Doe"]> (<["last_gift_amount" := VNone]> ∅))
                "our mission" "the Ball" "Gold Sponsor") as [H _].
  exact H.
Defined.


Lemma funder_report_adds_up_witness :
  exists r : dict,
    report_to_funder_tool (RT := example_runtime) (IR := example_int_reader) "AWD-001"
      (mock_outcomes_spring ++ mock_outcomes_autumn) mock_award = Ok r
    /\ r !! "beneficiaries" = Some (VInt (15 + 30))
    /\ r !! "outcomes_count" = Some (VInt (2 + 1)).
Proof.
  assert (H1 : report_to_funder_tool (RT := example_runtime) (IR := example_int_reader)
                 "AWD-001" mock_outcomes_spring mock_award = Ok mock_report_spring)
    by (vm_cast_no_check (eq_refl (Ok mock_report_spring))).
  assert (H2 : report_to_funder_tool (RT := example_runtime) (IR := example_int_reader)
                 "AWD-001" mock_outcomes_autumn mock_award = Ok mock_report_autumn)
    by (vm_cast_no_check (eq_refl (Ok mock_report_autumn))).
  destruct (funder_report_adds_up (RT := example_runtime) (IR := example_int_reader)
              _ _ _ _ _ _ H1 H2)
    as (r & b1 & b2 & n1 & n2 & Hr & Hb1 & Hb2 & Hb & Hn1 & Hn2 & Hn).
  vm_compute in Hb1, Hb2, Hn1, Hn2.
  injection Hb1 as <-. injection Hb2 as <-. injection Hn1 as <-. injection Hn2 as <-.
  exists r. repeat split; assumption.
Defined.

Lemma funder_report_succeeds_witness :
  exists r : dict,
    report_to_funder_tool (RT := example_runtime) (IR := example_int_reader) "AWD-001"
      mock_outcomes_spring mock_award = Ok r.
Proof.
  apply (funder_report_succeeds (RT := example_runtime) (IR := example_int_reader)).
  split.
  - repeat constructor; eexists; reflexivity.
  - repeat constructor.
    + intros _. eexists. reflexivity.
    + discriminate.
Defined.

Lemma sample_users_checks_witness :
  generate_sample_users (RT := example_runtime) lowest_draw mock_clock []
    ["Lovelace"]%string ["example.org"]%string 18 30 tt
  = Ok (SampleError "first_names list cannot be empty", tt).
Proof.
  pose proof (sample_users_checks (RT := example_runtime) lowest_draw mock_clock []
                ["Lovelace"]%string ["example.org"]%string 18 30 tt) as [H _].
  apply H. reflexivity.
Defined.

Lemma sample_users_generated_witness :
  exists (users : list dict) (g : unit),
    generate_sample_users (RT := example_runtime) lowest_draw mock_clock
      ["Ada"; "Grace"; "Mary"]%string ["Lovelace"; "Hopper"]%string
      ["example.org"]%string 18 30 tt
    = Ok (SampleUsers users 3, g)
    /\ length users = 3%nat.
Proof.
  destruct (sample_users_generated (RT := example_runtime) lowest_draw mock_clock
              ["Ada"; "Grace"; "Mary"]%string ["Lovelace"; "Hopper"]%string
              ["example.org"]%string 18 30 tt)
    as (users & g & H & Hlen & _).
  - intros a b g Hab. simpl. lia.
  - vm_compute. split; [reflexivity | discriminate].
  - discriminate.
  - discriminate.
  - discriminate.
  - lia.
  - exists users, g. split; assumption.
Defined.

Lemma dashboard_lists_in_order_witness :
  exists by_deadline : list dict,
    sorted_asc deadline_key mock_pipeline = Ok by_deadline
    /\ starts_with (report_head mock_pipeline) mock_pipeline_report = true.
Proof.
  assert (H : dashboard_summary (RT := example_runtime) mock_pipeline [] mock_projection
              = Ok mock_pipeline_report)
    by (vm_cast_no_check (eq_refl (Ok mock_pipeline_report))).
  destruct (dashboard_lists_in_order (RT := example_runtime) mock_pipeline [] mock_projection
              mock_pipeline_report) as (by_deadline & Hsorted & _ & _ & Hhead & _).
  - repeat constructor; eexists; reflexivity.
  - exact H.
  - exists by_deadline. split; assumption.
Defined.

Lemma dashboard_of_opportunities_witness :
  sorted_asc deadline_key (assign_fit_scores mock_opportunities)
  = Ok (assign_fit_scores mock_opportunities).
Proof.
  assert (Hsearch : grant_search mock_clock [] "NY, USA" 3 = Ok mock_opportunities)
    by (vm_cast_no_check (eq_refl (Ok mock_opportunities))).
  assert (H : dashboard_summary (RT := example_runtime) (assign_fit_scores mock_opportunities)
                mock_ranking mock_projection = Ok mock_driver_report)
    by (vm_cast_no_check (eq_refl (Ok mock_driver_report))).
  destruct (dashboard_of_opportunities (RT := example_runtime) mock_clock [] "NY, USA" 3
              mock_opportunities mock_ranking mock_projection mock_driver_report Hsearch H)
    as [Hsorted _].
  exact Hsorted.
Defined.

Lemma grant_search_records_witness :
  mock_second !! "geographic_restriction" = Some (VStr "NY, USA")
  /\ mock_second !! "mission_focus" = Some (VStr "Focus on: general mission alignment").
Proof.
  assert (H : grant_search mock_clock [] "NY, USA" 3 = Ok mock_opportunities)
    by (vm_cast_no_check (eq_refl (Ok mock_opportunities))).
  assert (Hr : mock_opportunities !! 1%nat = Some mock_second)
    by (vm_cast_no_check (eq_refl (Some mock_second))).
  destruct (grant_search_records mock_clock [] "NY, USA" 3 mock_opportunities H 1%nat
              mock_second Hr) as (_ & Hregion & Hfocus & _).
  split; assumption.
Defined.

Lemma donor_prospect_filters_witness :
  exists (item : dict) (name : string),
    mock_ranking !! 0%nat = Some item
    /\ name ∈ ["finance"; "Technology"]%string
    /\ lower (Runtime := example_runtime)
         (py_str (RT := example_runtime) (get_or item "industry" (VStr "")))
       = lower (Runtime := example_runtime) name.
Proof.
  assert (H : donor_prospect (RT := example_runtime) mock_clock mock_donors
                (Some ["finance"; "Technology"]%string) (Some "ny"%string) 5
              = Ok mock_ranking) by (vm_cast_no_check (eq_refl (Ok mock_ranking))).
  destruct (donor_prospect_filters (RT := example_runtime) _ _ _ _ _ _ H) as [Hpass _].
  eexists.
  destruct (Hpass (default ∅ (mock_ranking !! 0%nat))) as [Hind _].
  { eapply list_elem_of_lookup_2 with (i := 0%nat). reflexivity. }
  destruct (Hind ["finance"; "Technology"]%string eq_refl ltac:(discriminate))
    as (name & Hname & Hlower).
  exists name. split; [reflexivity|]. split; assumption.
Defined.

Lemma donor_prospect_returns_witness :
  exists out : list dict,
    donor_prospect (RT := example_runtime) mock_clock mock_donors None None 5 = Ok out.
Proof.
  apply (donor_prospect_returns (RT := example_runtime) mock_clock mock_donors None None 5).
  repeat constructor; eexists; vm_compute; reflexivity.
Defined.
